(** * SWAN Jupyter extensions: ProjectsMixin and SparkConnector

    A shallow embedding of

    - [SwanContents/swancontents/filemanager/projects_mixin.py]
      (class [ProjectsMixin], the "project" layer over a contents manager) and
    - [SparkConnector/sparkconnector/connector.py]
      (classes [SparkConnector] and [LogReader], the kernel extension),

    together with the properties the specification states about them.

    Python strings are modelled as [string] where the code only splits,
    joins, compares and searches them (paths, names, messages), and as the
    list of their code points where it tells characters apart (the text of
    the log file, which [str.strip] frees of white space).  Python
    dictionaries with string keys are [gmap string _], exceptions an
    explicit error result threaded through a state-and-error monad. *)

From Stdlib Require Import ZArith Ascii String List Bool Lia.
From stdpp Require Import base option strings list gmap pretty.

Local Open Scope string_scope.
Local Open Scope list_scope.

(* stdpp keeps [simpl] from unfolding [String.append]; the proofs below
   compute with it on string literals and constructors. *)
Local Arguments String.append !_ _ / : simpl nomatch.

(** ** Python string and [os.path] primitives used by the sources *)

Module PyStr.

(** [s.startswith(p)] *)
Fixpoint startswith (s p : string) {struct p} : bool :=
  match p, s with
  | EmptyString, _ => true
  | String a p', String b s' => Ascii.eqb a b && startswith s' p'
  | String _ _, EmptyString => false
  end.

(** [s[n:]] *)
Fixpoint drop (n : nat) (s : string) : string :=
  match n, s with
  | O, _ => s
  | S n', String _ s' => drop n' s'
  | S _, EmptyString => EmptyString
  end.

(** [s[:n]] *)
Fixpoint take (n : nat) (s : string) : string :=
  match n, s with
  | O, _ => EmptyString
  | S n', String a s' => String a (take n' s')
  | S _, EmptyString => EmptyString
  end.

(** [s.endswith(p)] *)
Definition endswith (s p : string) : bool :=
  (String.length p <=? String.length s)%nat
  && String.eqb (drop (String.length s - String.length p) s) p.

(** [s.split(c)] for a one-character separator: never the empty list. *)
Fixpoint split (c : ascii) (s : string) : list string :=
  match s with
  | EmptyString => [EmptyString]
  | String a s' =>
      if Ascii.eqb a c then EmptyString :: split c s'
      else match split c s' with
           | h :: t => String a h :: t
           | [] => [String a EmptyString]
           end
  end.

(** [s.split(c).pop()], which is also [os.path.basename] when [c] is ['/']. *)
Definition last_component (c : ascii) (s : string) : string :=
  List.last (split c s) EmptyString.

(** [s.lstrip(chars)], [s.rstrip(chars)] and [s.strip(chars)], the set of
    characters being given by its membership test. *)
Fixpoint lstrip (f : ascii -> bool) (s : string) : string :=
  match s with
  | EmptyString => EmptyString
  | String a s' => if f a then lstrip f s' else s
  end.

Fixpoint rstrip (f : ascii -> bool) (s : string) : string :=
  match s with
  | EmptyString => EmptyString
  | String a s' =>
      match rstrip f s' with
      | EmptyString => if f a then EmptyString else String a EmptyString
      | r => String a r
      end
  end.

Definition strip (f : ascii -> bool) (s : string) : string :=
  rstrip f (lstrip f s).

Definition is_slash (a : ascii) : bool := Ascii.eqb a "/"%char.

(** [s.strip('/')] *)
Definition strip_slash (s : string) : string := strip is_slash s.

(** [s.replace(old, new)] and [s.replace(old, new, count)] for a non-empty
    [old]: occurrences are found left to right and do not overlap.  [skip]
    counts the characters of a matched occurrence still to be passed over. *)
Definition may_replace (count : option nat) : bool :=
  match count with Some O => false | _ => true end.

Definition used_one (count : option nat) : option nat :=
  match count with Some n => Some (Nat.pred n) | None => None end.

Fixpoint replace_go (old new : string) (count : option nat) (skip : nat)
    (s : string) : string :=
  match s with
  | EmptyString => EmptyString
  | String a s' =>
      match skip with
      | S k => replace_go old new count k s'
      | O =>
          if may_replace count && startswith s old
          then new +:+ replace_go old new (used_one count)
                         (Nat.pred (String.length old)) s'
          else String a (replace_go old new count O s')
      end
  end.

(** For an empty [old] Python inserts [new] before every character and at the
    end, as long as the count allows. *)
Fixpoint replace_empty (new : string) (count : option nat) (s : string) : string :=
  if may_replace count then
    match s with
    | EmptyString => new
    | String a s' => new +:+ String a (replace_empty new (used_one count) s')
    end
  else s.

Definition replace (s old new : string) (count : option nat) : string :=
  match old with
  | EmptyString => replace_empty new count s
  | _ => replace_go old new count O s
  end.

(** [os.path.join(a, b)] on POSIX. *)
Definition path_join (a b : string) : string :=
  if startswith b "/" then b
  else if String.eqb a "" || endswith a "/" then a +:+ b
  else a +:+ "/" +:+ b.

Definition path_join3 (a b c : string) : string := path_join (path_join a b) c.

(** [os.path.basename] *)
Definition basename (p : string) : string := last_component "/" p.

(** Index of the last occurrence of [c] in [s] ([s.rfind(c)], [None] for -1). *)
Fixpoint rfind (c : ascii) (s : string) : option nat :=
  match s with
  | EmptyString => None
  | String a s' =>
      match rfind c s' with
      | Some i => Some (S i)
      | None => if Ascii.eqb a c then Some O else None
      end
  end.

Fixpoint all_char (c : ascii) (s : string) : bool :=
  match s with
  | EmptyString => true
  | String a s' => Ascii.eqb a c && all_char c s'
  end.

(** [os.path.splitext(p)[0]]: the extension starts at the last dot of the
    last path component, unless only dots precede it there. *)
Definition splitext_root (p : string) : string :=
  let start := match rfind "/" p with Some i => S i | None => O end in
  match rfind "." p with
  | Some d =>
      if (start <? d)%nat && negb (all_char "." (take (d - start) (drop start p)))
      then take d p
      else p
  | None => p
  end.

(** [old in s] *)
Fixpoint occurs (old s : string) : bool :=
  startswith s old
  || match s with
     | EmptyString => false
     | String _ s' => occurs old s'
     end.

(** [c in s] *)
Fixpoint has_char (c : ascii) (s : string) : bool :=
  match s with
  | EmptyString => false
  | String a s' => Ascii.eqb a c || has_char c s'
  end.

(** [c.join(parts)] *)
Fixpoint join (c : ascii) (parts : list string) : string :=
  match parts with
  | [] => EmptyString
  | [p] => p
  | p :: rest => p +:+ String c (join c rest)
  end.

End PyStr.

(** ** Python exceptions and effects *)

Module Py.

(** Exceptions.  [HTTPError status log_message reason] is tornado's
    [web.HTTPError]; [PyError kind message] is any other exception. *)
Inductive exn : Type :=
  | HTTPError (status : Z) (log_message : string) (reason : option string)
  | InvalidProject
  | PyError (kind message : string).

(** [str(e)] as used in the 500 message of [save]. *)
Definition exn_str (e : exn) : string :=
  match e with
  | HTTPError status msg _ => "HTTP " +:+ pretty status +:+ ": " +:+ msg
  | InvalidProject => ""
  | PyError _ msg => msg
  end.

Definition is_http (e : exn) : bool :=
  match e with HTTPError _ _ _ => true | _ => false end.

Definition http_status (e : exn) : option Z :=
  match e with HTTPError status _ _ => Some status | _ => None end.

(** How a call ends.  [OutOfFuel] is the model running out of steps in the
    one unbounded loop of the source ([move_folder]); it is not a Python
    exception and nothing catches it. *)
Inductive outcome (A : Type) : Type :=
  | Returns (a : A)
  | Raises (e : exn)
  | OutOfFuel.
Arguments Returns {A} a.
Arguments Raises {A} e.
Arguments OutOfFuel {A}.

(** State-and-error monad over a state [St]. *)
Definition M (St A : Type) : Type := St -> outcome A * St.

Definition ret {St A} (a : A) : M St A := fun st => (Returns a, st).

Definition raise {St A} (e : exn) : M St A := fun st => (Raises e, st).

Definition bind {St A B} (m : M St A) (f : A -> M St B) : M St B :=
  fun st =>
    match m st with
    | (Returns a, st') => f a st'
    | (Raises e, st') => (Raises e, st')
    | (OutOfFuel, st') => (OutOfFuel, st')
    end.

(** Reading the state without changing it. *)
Definition gets {St A} (f : St -> A) : M St A := fun st => (Returns (f st), st).

(** [try: m except Exception as e: h e] *)
Definition catch {St A} (m : M St A) (h : exn -> M St A) : M St A :=
  fun st =>
    match m st with
    | (Raises e, st') => h e st'
    | r => r
    end.

Declare Scope py_scope.
Delimit Scope py_scope with py.
Notation "'let!' x ':=' m 'in' k" := (bind m (fun x => k))
  (at level 10, x name, m at level 100, k at level 200) : py_scope.
Notation "'do!' m 'in' k" := (bind m (fun _ => k))
  (at level 10, m at level 100, k at level 200) : py_scope.

Definition modify {St} (f : St -> St) : M St unit :=
  fun st => (Returns tt, f st).

(** A computation that never runs out of fuel. *)
Definition total {St A} (m : M St A) : Prop :=
  forall st, fst (m st) <> OutOfFuel.

End Py.

(** ** The contents-manager mixin ([projects_mixin.py]) *)

Module Contents.
Export Py.

(** Values stored in model dictionaries.  [VData] stands for payloads the
    mixin never inspects (notebook JSON, directory listings, file bodies). *)
Inductive value : Type :=
  | VNone
  | VBool (b : bool)
  | VInt (n : Z)
  | VStr (s : string)
  | VData (d : nat).

Definition value_eqb (v w : value) : bool :=
  match v, w with
  | VNone, VNone => true
  | VBool a, VBool b => Bool.eqb a b
  | VInt a, VInt b => Z.eqb a b
  | VStr a, VStr b => String.eqb a b
  | VData a, VData b => Nat.eqb a b
  | _, _ => false
  end.

(** Python truth value of a [value]. *)
Definition truthy (v : value) : bool :=
  match v with
  | VNone => false
  | VBool b => b
  | VInt n => negb (Z.eqb n 0)
  | VStr s => negb (String.eqb s "")
  | VData _ => true
  end.

(** A contents model is a dictionary with string keys. *)
Abbreviation model := (gmap string value).

(** The configurable traits of [ProjectsMixin], with [root_dir] of the
    storage manager it is mixed into. *)
Record Traits : Type := {
  root_dir : string;
  swan_default_folder : string;
  swan_default_file : string;
  untitled_project : string;
}.

(** The trait defaults declared in the class body. *)
Definition default_traits (root : string) : Traits :=
  {| root_dir := root;
     swan_default_folder := "SWAN_projects";
     swan_default_file := ".swanproject";
     untitled_project := "Project" |}.

(** *** What the mixin inherits and calls

    [ProjectsMixin] is mixed into a storage manager and calls into it, into
    the operating system and into [proj_url_checker].  None of that code is
    part of the two modelled files, so it is a parameter: a [Host] over the
    backend state [St].  Queries are functions of the state; everything that
    can change the state or raise is in [M St].

    Methods the parent reaches through [self] and which the mixin overrides
    are passed to the parent explicitly: [super_get] receives the
    [_dir_model] in force, [super_new] the [save] in force. *)
Class Host (St : Type) : Type := {
  traits : Traits;
  (* the storage manager *)
  exists_ : string -> St -> bool;
  dir_exists : string -> St -> bool;
  _is_dir : string -> St -> bool;
  _is_file : string -> St -> bool;
  _get_os_path : string -> string;
  _mkdir : string -> M St unit;
  _move : string -> string -> bool -> M St unit;
  _save_file : string -> value -> value -> M St unit;
  _save_notebook : string -> value -> M St model;
  _save_directory : string -> model -> string -> M St unit;
  super_dir_model : string -> bool -> M St model;
  super_get :
    (string -> bool -> M St model) ->
    string -> bool -> option string -> option string -> M St model;
  super_save : model -> string -> M St model;
  super_new :
    (model -> string -> M St model) -> option model -> string -> M St model;
  super_new_untitled : string -> string -> string -> M St model;
  super_update :
    (string -> bool -> option string -> option string -> M St model) ->
    model -> string -> M St model;
  run_pre_save_hook : model -> string -> M St model;
  run_post_save_hook : model -> string -> M St model;
  nbformat_from_dict : value -> M St value;
  check_and_sign : value -> string -> M St unit;
  validate_notebook_model : model -> model -> M St model;
  perm_to_403 : exn -> exn;
  increment_filename : string -> string -> string -> M St string;
  (* tempfile, subprocess, shutil, os.path, requests *)
  mkdtemp : M St string;
  git_clone : string -> string -> M St Z;
  copy2 : string -> string -> M St unit;
  os_path_isdir : string -> St -> bool;
  os_path_isfile : string -> St -> bool;
  requests_get : string -> M St value;
  response_content : value -> value;
  write_binary : string -> value -> M St unit;
  (* proj_url_checker *)
  is_cernbox_shared_link : string -> bool;
  get_name_from_shared_from_link : value -> string;
  is_file_on_eos : string -> bool;
  get_eos_username : string -> option string;
  get_path_without_eos_base : string -> string;
}.

Section Mixin.

Context {St : Type} {H : Host St}.
Local Open Scope py_scope.

Local Abbreviation root := (root_dir traits).
Local Abbreviation folder := (swan_default_folder traits).
Local Abbreviation file := (swan_default_file traits).

(** [path.replace(self.root_dir+'/', '', 1).split('/')] *)
Definition folders_below_root (path : string) : list string :=
  PyStr.split "/" (PyStr.replace path (root +:+ "/") "" (Some 1)).

(** [_get_project_path]: the loop over [folders[1:]]. *)
Fixpoint project_path_scan (path_to_project : string) (rest : list string)
    (st : St) : option string :=
  match rest with
  | [] => None
  | f :: rest' =>
      let path_to_project := path_to_project +:+ "/" +:+ f in
      if _is_file (_get_os_path (PyStr.path_join path_to_project file)) st
      then Some path_to_project
      else project_path_scan path_to_project rest' st
  end.

Definition _get_project_path (path : string) : M St (option string) :=
  match folders_below_root path with
  | [] => raise InvalidProject
  | f0 :: rest =>
      if negb (String.eqb f0 folder) then raise InvalidProject
      else gets (project_path_scan f0 rest)
  end.

Definition _is_swan_root_folder (path : string) : bool :=
  match folders_below_root path with
  | [f0; _] => String.eqb f0 folder
  | _ => false
  end.

(** [path.replace(self.root_dir+'/'+self.swan_default_folder+'/', '', 1).split('/')]
    and the search for the folder name among the components. *)
Definition _contains_swan_folder_name (path : string) : bool :=
  let folders :=
    PyStr.split "/"
      (PyStr.replace path (root +:+ "/" +:+ folder +:+ "/") "" (Some 1)) in
  existsb (fun f => String.eqb f folder) folders.

Definition _dir_model (path : string) (content : bool) : M St model :=
  let! m := super_dir_model path content in
  let m := <[ "is_project" := VBool false ]> m in
  catch
    (let! parent_project := _get_project_path path in
     match parent_project with
     | Some p => if negb (String.eqb p "")
                 then ret (<[ "project" := VStr p ]> m) else ret m
     | None => ret m
     end)
    (fun e => match e with InvalidProject => ret m | _ => raise e end).

Definition _proj_model (path : string) (content : bool) : M St model :=
  let! m := super_dir_model path content in
  ret (<[ "is_project" := VBool true ]> m).

(** [with self.perm_to_403(): m] *)
Definition with_perm_to_403 {A} (m : M St A) : M St A :=
  catch m (fun e => raise (perm_to_403 e)).

Definition _save_project (os_path : string) (m : model) (path : string)
    : M St unit :=
  let! create_file := gets (fun st => negb (exists_ os_path st)) in
  do! _save_directory os_path m path in
  if create_file
  then with_perm_to_403
         (_save_file (PyStr.path_join os_path file) (VStr "") (VStr "text"))
  else ret tt.

(** [type not in (None, 'project', 'directory')] *)
Definition not_a_project_type (type : option string) : bool :=
  match type with
  | None => false
  | Some t => negb (String.eqb t "project" || String.eqb t "directory")
  end.

Definition type_name (type : option string) : string :=
  match type with Some t => t | None => "None" end.

Definition get (path : string) (content : bool) (type format : option string)
    : M St model :=
  let path := PyStr.strip_slash path in
  let! missing :=
    gets (fun st => negb (String.eqb path folder) && negb (exists_ path st)) in
  if missing
  then raise (HTTPError 404 ("No such file or directory: " +:+ path) None)
  else
    let os_path := _get_os_path path in
    let! absent_root :=
      gets (fun st => String.eqb path folder && negb (_is_dir os_path st)) in
    do! (if absent_root then _mkdir os_path else ret tt) in
    let os_path_proj := _get_os_path (PyStr.path_join path file) in
    let! is_proj :=
      gets (fun st => _is_dir os_path st && _is_file os_path_proj st) in
    if is_proj then
      if not_a_project_type type
      then raise (HTTPError 400
                    (path +:+ " is a project, not a " +:+ type_name type)
                    (Some "bad type"))
      else _proj_model path content
    else super_get _dir_model path content type format.

(** [model.get('chunk', None) is not None] *)
Definition has_chunk (m : model) : bool :=
  match m !! "chunk" with
  | None | Some VNone => false
  | Some _ => true
  end.

Definition has_key (m : model) (k : string) : bool :=
  match m !! k with Some _ => true | None => false end.

(** [str(v)] for the values that can stand under ['type']. *)
Definition value_str (v : value) : string :=
  match v with
  | VNone => "None"
  | VBool true => "True"
  | VBool false => "False"
  | VInt n => pretty n
  | VStr s => s
  | VData _ => "<data>"
  end.

(** The body of the [try] block of [save]; it returns the
    [validation_error] dictionary as [_save_notebook] leaves it. *)
Definition save_by_type (ty : value) (os_path : string) (m : model)
    (path : string) : M St model :=
  if value_eqb ty (VStr "project") then
    if negb (_is_swan_root_folder os_path)
    then raise (HTTPError 400
                  "You can only create projects inside Swan Projects" None)
    else do! _save_project os_path m path in ret ∅
  else if value_eqb ty (VStr "notebook") then
    match m !! "content" with
    | None => raise (PyError "KeyError" "'content'")
    | Some c =>
        let! nb := nbformat_from_dict c in
        do! check_and_sign nb path in
        _save_notebook os_path nb
    end
  else if value_eqb ty (VStr "file") then
    match m !! "content" with
    | None => raise (PyError "KeyError" "'content'")
    | Some c =>
        do! _save_file os_path c (default VNone (m !! "format")) in ret ∅
    end
  else if value_eqb ty (VStr "directory") then
    do! _save_directory os_path m path in ret ∅
  else
    raise (HTTPError 400 ("Unhandled contents type: " +:+ value_str ty) None).

(** [except web.HTTPError: raise] and [except Exception as e: raise 500]. *)
Definition as_500 (path : string) (e : exn) : exn :=
  match e with
  | HTTPError _ _ _ => e
  | _ => HTTPError 500
           ("Unexpected error while saving file: " +:+ path +:+ " "
            +:+ exn_str e) None
  end.

(** What [save] does once the [try] block has returned. *)
Definition save_finish (ty : value) (os_path : string) (m : model)
    (path : string) (validation_error : model) : M St model :=
  let! validation_message :=
    (if value_eqb ty (VStr "notebook") then
       let! m' := validate_notebook_model m validation_error in
       ret (default VNone (m' !! "message"))
     else ret VNone) in
  let! saved := get path false None None in
  let saved :=
    if truthy validation_message
    then <[ "message" := validation_message ]> saved else saved in
  run_post_save_hook saved os_path.

Definition save (m : model) (path : string) : M St model :=
  if has_chunk m then super_save m path
  else
    let path := PyStr.strip_slash path in
    let! m := run_pre_save_hook m path in
    match m !! "type" with
    | None => raise (HTTPError 400 "No file type provided" None)
    | Some ty =>
        if negb (has_key m "content")
           && negb (value_eqb ty (VStr "directory"))
           && negb (value_eqb ty (VStr "project"))
        then raise (HTTPError 400 "No file content provided" None)
        else
          let os_path := _get_os_path path in
          if _contains_swan_folder_name os_path
          then raise (HTTPError 400
                        ("The name " +:+ folder +:+ " is restricted") None)
          else
            let! validation_error :=
              catch (save_by_type ty os_path m path)
                    (fun e => raise (as_500 path e)) in
            save_finish ty os_path m path validation_error
    end.

Definition new (m : option model) (path : string) : M St model :=
  match m with
  | None => super_new save m path
  | Some md =>
      match md !! "type" with
      | None => raise (PyError "KeyError" "'type'")
      | Some ty =>
          if value_eqb ty (VStr "project") then save md path
          else super_new save m path
      end
  end.

Definition new_untitled (path type ext : string) : M St model :=
  let path := PyStr.strip_slash path in
  let! is_dir := gets (dir_exists path) in
  if negb is_dir
  then raise (HTTPError 404 ("No such directory: " +:+ path) None)
  else if String.eqb type "project" then
    let md : model :=
      <[ "is_project" := VBool true ]> (<[ "type" := VStr "directory" ]> ∅) in
    let! name := increment_filename (untitled_project traits) path " " in
    new (Some md) (path +:+ "/" +:+ name)
  else super_new_untitled path type ext.

Definition update (m : model) (path : string) : M St model :=
  if _contains_swan_folder_name (_get_os_path path)
  then raise (HTTPError 400 ("The name " +:+ folder +:+ " is restricted") None)
  else super_update get m path.

(** [move_folder]: the search for a free name
    ([while self._is_dir(dest + str(count)): count += 1]) is the one
    unbounded loop; [fuel] bounds the number of candidates tried. *)
Fixpoint free_count (fuel : nat) (dest : string) (count : nat) (st : St)
    : option nat :=
  match fuel with
  | O => None
  | S fuel' =>
      if _is_dir (dest +:+ pretty count) st
      then free_count fuel' dest (S count) st
      else Some count
  end.

Definition fresh_dest (fuel : nat) (dest : string) : M St string :=
  fun st =>
    if _is_dir dest st then
      match free_count fuel dest 1 st with
      | Some count => (Returns (dest +:+ pretty count), st)
      | None => (OutOfFuel, st)
      end
    else (Returns dest, st).

Definition move_folder (fuel : nat) (origin dest : string) (preserve : bool)
    : M St string :=
  let! dest := fresh_dest fuel dest in
  do! _move origin dest preserve in
  do! _save_file (PyStr.path_join dest file) (VStr "") (VStr "text") in
  ret dest.

(** The model [download] builds, before its last line. *)
Definition import_model (type path : string) : model :=
  <[ "path" := VStr path ]> (<[ "type" := VStr type ]> ∅).

(** [model['path'] = model['path'].replace(self.root_dir, '').strip('/')] *)
Definition relative_path (path : string) : string :=
  PyStr.strip_slash (PyStr.replace path root "" None).

Definition relativise (m : model) : M St model :=
  match m !! "path" with
  | Some (VStr p) => ret (<[ "path" := VStr (relative_path p) ]> m)
  | _ => raise (PyError "KeyError" "'path'")
  end.

Definition clone_failed (url : string) : exn :=
  HTTPError 400
    ("It was not possible to clone the repo " +:+ url
     +:+ ". Did you pass the username/token?") None.

(** [download], branch by branch as the [if]/[elif] chain tests them. *)
Definition download_git (fuel : nat) (url tmp_dir_name : string) : M St model :=
  let! rc := git_clone url tmp_dir_name in
  if negb (Z.eqb rc 0) then raise (clone_failed url)
  else
    let dest_dir_name_ext := PyStr.basename url in
    let repo_name_no_ext := PyStr.splitext_root dest_dir_name_ext in
    let dest_dir_name := PyStr.path_join3 root folder repo_name_no_ext in
    let! dest := move_folder fuel tmp_dir_name dest_dir_name false in
    ret (import_model "directory" dest).

(** Copy one file into the temporary folder and move that folder under the
    projects folder, named after the file without its extension. *)
Definition import_file (fuel : nat) (tmp_dir_name file_name : string)
    : M St model :=
  let file_name_no_ext := PyStr.splitext_root file_name in
  let dest_dir_name := PyStr.path_join3 root folder file_name_no_ext in
  let! dest := move_folder fuel tmp_dir_name dest_dir_name false in
  ret (import_model "file" (PyStr.path_join dest file_name)).

Definition download_eos (fuel : nat) (url tmp_dir_name : string) : M St model :=
  let file_path := PyStr.drop 6 url in
  let username := get_eos_username file_path in
  if bool_decide (username = get_eos_username root)
  then ret (import_model "file" (get_path_without_eos_base file_path))
  else
    do! copy2 file_path tmp_dir_name in
    import_file fuel tmp_dir_name (PyStr.last_component "/" file_path).

Definition download_local (fuel : nat) (url tmp_dir_name : string)
    : M St model :=
  let path := PyStr.drop 6 url in
  let file_name := PyStr.last_component "/" path in
  let! is_dir := gets (os_path_isdir path) in
  if is_dir then
    let dest_dir_name := PyStr.path_join3 root folder file_name in
    let! dest := move_folder fuel path dest_dir_name true in
    ret (import_model "directory" dest)
  else
    let! is_file := gets (os_path_isfile path) in
    if is_file then
      do! copy2 path tmp_dir_name in
      import_file fuel tmp_dir_name file_name
    else
      raise (HTTPError 404 ("File or directory does not exist: " +:+ path) None).

(** The module never imports [zipfile]: reaching the name raises. *)
Definition zipfile_unbound : exn :=
  PyError "NameError" "name 'zipfile' is not defined".

Definition download_http (fuel : nat) (url tmp_dir_name : string)
    : M St model :=
  let is_on_cernbox := is_cernbox_shared_link url in
  let file_name := PyStr.basename url in
  let! r := requests_get url in
  let file_name :=
    if is_on_cernbox then get_name_from_shared_from_link r else file_name in
  if PyStr.endswith file_name ".zip" then raise zipfile_unbound
  else
    do! write_binary (PyStr.path_join tmp_dir_name file_name)
          (response_content r) in
    import_file fuel tmp_dir_name file_name.

Definition download (fuel : nat) (url : string) : M St model :=
  let! tmp_dir_name := mkdtemp in
  let! m :=
    (if PyStr.endswith url ".git" then download_git fuel url tmp_dir_name
     else if is_file_on_eos url then download_eos fuel url tmp_dir_name
     else if PyStr.startswith url "local:"
          then download_local fuel url tmp_dir_name
     else download_http fuel url tmp_dir_name) in
  relativise m.

End Mixin.

(** *** Notions the specification uses *)

Section Notions.

Context {St : Type} {H : Host St}.

(** A project: a directory that directly contains the sentinel file. *)
Definition is_project_dir (path : string) (st : St) : bool :=
  _is_dir (_get_os_path path) st
  && _is_file
       (_get_os_path (PyStr.path_join path (swan_default_file traits))) st.

(** [get] looks at a path in the state [st1] it has once the projects
    root is there: [st] itself, except that a projects root that is not a
    directory is first created by the inherited [_mkdir]. *)
Definition root_ready (path : string) (st st1 : St) : Prop :=
  if String.eqb path (swan_default_folder traits)
     && negb (_is_dir (_get_os_path path) st)
  then _mkdir (_get_os_path path) st = (Returns tt, st1)
  else st1 = st.

(** Directory-model builders whose models are never flagged as projects. *)
Definition unflagged (dm : string -> bool -> M St model) : Prop :=
  forall p c st m st',
    dm p c st = (Returns m, st') -> m !! "is_project" <> Some (VBool true).

(** Contract of the inherited [get]: its directory models come from
    [_dir_model], and its file and notebook models carry no project flag. *)
Definition parent_get_keeps_unflagged : Prop :=
  forall dm, unflagged dm ->
  forall type format, unflagged (fun p c => super_get dm p c type format).







(** The save routine the specification names for each recognised type,
    as [save] calls it; no routine for any other type. *)
Definition save_routine (t os_path : string) (m : model) (path : string)
    : option (M St model) :=
  if String.eqb t "project" then
    Some (bind (_save_project os_path m path) (fun _ => ret ∅))
  else if String.eqb t "notebook" then
    Some (match m !! "content" with
          | None => raise (PyError "KeyError" "'content'")
          | Some c =>
              bind (nbformat_from_dict c) (fun nb =>
              bind (check_and_sign nb path) (fun _ =>
              _save_notebook os_path nb))
          end)
  else if String.eqb t "file" then
    Some (match m !! "content" with
          | None => raise (PyError "KeyError" "'content'")
          | Some c =>
              bind (_save_file os_path c (default VNone (m !! "format")))
                   (fun _ => ret ∅)
          end)
  else if String.eqb t "directory" then
    Some (bind (_save_directory os_path m path) (fun _ => ret ∅))
  else None.

(** An OS path exactly one level below the projects folder. *)
Definition one_level_below_projects (os_path : string) : Prop :=
  exists name,
    os_path = root_dir traits +:+ "/" +:+ swan_default_folder traits
              +:+ "/" +:+ name
    /\ PyStr.has_char "/" name = false.

(** The names the restricted-name rule is about: for an OS path below the
    projects folder, the components that follow the folder; for an OS path
    in which [root_dir/folder/] does not occur, all its components. *)
Inductive tested_names (os_path : string) : list string -> Prop :=
  | names_below (rest : string) :
      os_path = root_dir traits +:+ "/" +:+ swan_default_folder traits
                +:+ "/" +:+ rest ->
      tested_names os_path (PyStr.split "/" rest)
  | names_elsewhere :
      PyStr.occurs
        (root_dir traits +:+ "/" +:+ swan_default_folder traits +:+ "/")
        os_path = false ->
      tested_names os_path (PyStr.split "/" os_path).

(** Contract of the inherited [_move]: on return the destination is a
    directory. *)
Definition move_makes_dir : Prop :=
  forall origin dest preserve st st',
    _move origin dest preserve st = (Returns tt, st') ->
    _is_dir dest st' = true.



(** The four kinds of URL [download] tells apart, in the order it tests
    for them. *)
Inductive url_class : Type :=
  | GitUrl
  | EosUrl
  | LocalUrl
  | HttpUrl.

Definition classify (url : string) : url_class :=
  if PyStr.endswith url ".git" then GitUrl
  else if is_file_on_eos url then EosUrl
  else if PyStr.startswith url "local:" then LocalUrl
  else HttpUrl.

(** The name under which an import is filed in the projects folder. *)
Definition import_dest (name : string) : string :=
  PyStr.path_join3 (root_dir traits) (swan_default_folder traits) name.

(** The file name [download] gives to what it fetched over HTTP. *)
Definition http_file_name (url : string) (response : value) : string :=
  if is_cernbox_shared_link url
  then get_name_from_shared_from_link response
  else PyStr.basename url.

(** The HTTP status a call ended with, if it raised an HTTP error. *)
Definition status_of {A} (r : outcome A * St) : option Z :=
  match fst r with
  | Raises e => http_status e
  | _ => None
  end.


(** The model [new_untitled] hands on for an untitled project. *)
Definition untitled_project_model : model :=
  <[ "is_project" := VBool true ]> (<[ "type" := VStr "directory" ]> ∅).

End Notions.

End Contents.

(** ** An in-memory storage manager

    A small host used to run the mixin on concrete inputs: directories and
    files are kept by their OS path, API paths are mapped under the root
    directory, whatever they look like, and the parent's [get] follows the
    usual contents-manager contract (404 for a missing path, 400 for a type
    that does not fit, directory models through [_dir_model]). *)

Module MemHost.
Import Contents.
Local Open Scope py_scope.

Record fs : Type := {
  dirs : list string;
  files : list (string * value);
  tmp_next : nat;
  remotes : list string;
}.

Definition mem (p : string) (l : list string) : bool :=
  existsb (String.eqb p) l.

(** An OS path names a directory with or without slashes at its end. *)
Definition norm (p : string) : string :=
  let q := PyStr.rstrip PyStr.is_slash p in
  if String.eqb q "" then p else q.

Definition is_dir (p : string) (st : fs) : bool := mem (norm p) (dirs st).

Definition is_file (p : string) (st : fs) : bool :=
  negb (PyStr.endswith p "/") && mem p (map fst (files st)).

Definition home : string := "/home/u".

(** [to_os_path]: the components of the API path, joined below the root. *)
Definition os_path (p : string) : string :=
  PyStr.join "/"
    (home :: List.filter (fun c => negb (String.eqb c ""))
               (PyStr.split "/" (PyStr.strip_slash p))).

(** [exists(path)], of an API path. *)
Definition path_exists (p : string) (st : fs) : bool :=
  is_dir (os_path p) st || is_file (os_path p) st.

Definition add_dir (p : string) (st : fs) : fs :=
  {| dirs := if mem (norm p) (dirs st) then dirs st else norm p :: dirs st;
     files := files st; tmp_next := tmp_next st; remotes := remotes st |}.

Definition add_file (p : string) (c : value) (st : fs) : fs :=
  {| dirs := dirs st;
     files := (p, c) :: List.filter (fun e => negb (String.eqb (fst e) p)) (files st);
     tmp_next := tmp_next st; remotes := remotes st |}.

Definition mkdir (p : string) : M fs unit :=
  fun st =>
    if is_dir p st || is_file (norm p) st
    then (Raises (PyError "FileExistsError" p), st)
    else (Returns tt, add_dir p st).

(** Rename [origin] and everything below it to [dest]. *)
Definition rebase (origin dest p : string) : string :=
  if String.eqb p origin then dest
  else if PyStr.startswith p (origin +:+ "/")
       then dest +:+ PyStr.drop (String.length origin) p
       else p.

Definition below (origin p : string) : bool :=
  String.eqb p origin || PyStr.startswith p (origin +:+ "/").

Definition move (origin dest : string) (preserve : bool) : M fs unit :=
  fun st =>
    if negb (is_dir origin st)
    then (Raises (PyError "FileNotFoundError" origin), st)
    else
      let origin := norm origin in
      let dest := norm dest in
      let kept_dirs :=
        if preserve then dirs st
        else List.filter (fun p => negb (below origin p)) (dirs st) in
      let kept_files :=
        if preserve then files st
        else List.filter (fun e => negb (below origin (fst e))) (files st) in
      (Returns tt,
       {| dirs := map (rebase origin dest) (List.filter (below origin) (dirs st))
                  ++ kept_dirs;
          files := map (fun e => (rebase origin dest (fst e), snd e))
                       (List.filter (fun e => below origin (fst e)) (files st))
                   ++ kept_files;
          tmp_next := tmp_next st; remotes := remotes st |}).

Definition save_file (p : string) (c fmt : value) : M fs unit :=
  fun st =>
    if is_dir p st || PyStr.endswith p "/"
    then (Raises (PyError "IsADirectoryError" p), st)
    else (Returns tt, add_file p c st).

Definition save_directory (p : string) (m : model) (path : string)
    : M fs unit :=
  fun st =>
    if is_file (norm p) st
    then (Raises (HTTPError 400 ("Not a directory: " +:+ p) None), st)
    else (Returns tt, add_dir p st).

Definition base_model (type path : string) (content : bool) : model :=
  <[ "content" := if content then VData 0 else VNone ]>
    (<[ "path" := VStr path ]>
       (<[ "name" := VStr (PyStr.basename path) ]>
          (<[ "type" := VStr type ]> ∅))).

Definition dir_model (path : string) (content : bool) : M fs model :=
  ret (base_model "directory" path content).

Definition type_is (type : option string) (t : string) : bool :=
  match type with Some s => String.eqb s t | None => false end.

Definition parent_get (dm : string -> bool -> M fs model) (path : string)
    (content : bool) (type format : option string) : M fs model :=
  let path := PyStr.strip_slash path in
  fun st =>
    if negb (path_exists path st)
    then (Raises (HTTPError 404 ("No such file or directory: " +:+ path) None),
          st)
    else if is_dir (os_path path) st then
      if bool_decide (type = None) || type_is type "directory"
      then dm path content st
      else (Raises (HTTPError 400
                      (path +:+ " is a directory, not a " +:+ type_name type)
                      (Some "bad type")), st)
    else if type_is type "directory" then
      (Raises (HTTPError 400 (path +:+ " is not a directory")
                 (Some "bad type")), st)
    else if type_is type "notebook" then
      (Returns (base_model "notebook" path content), st)
    else (Returns (base_model "file" path content), st).

(** The mixin calls [super().save(self, model, path)]: one argument more
    than the parent's [save(self, model, path)] takes. *)
Definition parent_save (m : model) (path : string) : M fs model :=
  raise (PyError "TypeError"
           "save() takes from 2 to 3 positional arguments but 4 were given").

Definition parent_new (save : model -> string -> M fs model)
    (m : option model) (path : string) : M fs model :=
  match m with
  | Some md => save md path
  | None => save (<[ "content" := VStr "" ]> (<[ "type" := VStr "file" ]> ∅)) path
  end.

Definition parent_update
    (get : string -> bool -> option string -> option string -> M fs model)
    (m : model) (path : string) : M fs model :=
  let path := PyStr.strip_slash path in
  match m !! "path" with
  | Some (VStr new_path) =>
      let new_path := PyStr.strip_slash new_path in
      do! (if String.eqb path new_path then ret tt
           else move (os_path path) (os_path new_path) false) in
      get new_path false None None
  | _ => get path false None None
  end.

Definition mkdtemp_mem : M fs string :=
  fun st =>
    let name := "/tmp/tmp" +:+ pretty (tmp_next st) in
    (Returns name,
     {| dirs := name :: dirs st; files := files st;
        tmp_next := S (tmp_next st); remotes := remotes st |}).

Definition git_clone_mem (url tmp : string) : M fs Z :=
  fun st =>
    if mem url (remotes st)
    then (Returns 0%Z, add_file (tmp +:+ "/README.md") (VData 1) st)
    else (Returns 128%Z, st).

Definition copy2_mem (src dst : string) : M fs unit :=
  fun st =>
    match List.find (fun e => String.eqb (fst e) src) (files st) with
    | Some e =>
        (Returns tt, add_file (PyStr.path_join dst (PyStr.basename src)) (snd e) st)
    | None => (Raises (PyError "FileNotFoundError" src), st)
    end.

Definition requests_get_mem (url : string) : M fs value :=
  if PyStr.startswith url "http://" || PyStr.startswith url "https://"
  then ret (VData 2)
  else raise (PyError "MissingSchema" url).

Definition eos_username (p : string) : option string :=
  match PyStr.split "/" p with
  | "" :: "eos" :: "user" :: _ :: name :: _ => Some name
  | _ => None
  end.

Definition eos_relative (p : string) : string :=
  match PyStr.split "/" p with
  | "" :: "eos" :: "user" :: _ :: _ :: rest => String.concat "/" rest
  | _ => p
  end.

Definition perm_to_403_mem (e : exn) : exn :=
  match e with
  | PyError "PermissionError" p =>
      HTTPError 403 ("Permission denied: " +:+ p) None
  | _ => e
  end.

#[export] Instance mem_host : Host fs := {|
  traits := default_traits home;
  exists_ := path_exists;
  dir_exists := fun p => is_dir (os_path p);
  _is_dir := is_dir;
  _is_file := is_file;
  _get_os_path := os_path;
  _mkdir := mkdir;
  _move := move;
  _save_file := save_file;
  _save_notebook := fun p nb => do! save_file p nb VNone in ret ∅;
  _save_directory := save_directory;
  super_dir_model := dir_model;
  super_get := parent_get;
  super_save := parent_save;
  super_new := parent_new;
  super_new_untitled := fun path type ext =>
    raise (HTTPError 400 ("Unhandled contents type: " +:+ type) None);
  super_update := parent_update;
  run_pre_save_hook := fun m path => ret m;
  run_post_save_hook := fun m os_path => ret m;
  nbformat_from_dict := fun c => ret c;
  check_and_sign := fun nb path => ret tt;
  validate_notebook_model := fun m validation_error => ret m;
  perm_to_403 := perm_to_403_mem;
  increment_filename := fun name path insert => ret name;
  mkdtemp := mkdtemp_mem;
  git_clone := git_clone_mem;
  copy2 := copy2_mem;
  os_path_isdir := is_dir;
  os_path_isfile := is_file;
  requests_get := requests_get_mem;
  response_content := fun r => VData 3;
  write_binary := fun p c => save_file p c VNone;
  is_cernbox_shared_link := fun url =>
    PyStr.startswith url "https://cernbox.cern.ch/index.php/s/";
  get_name_from_shared_from_link := fun r => "shared.ipynb";
  is_file_on_eos := fun url => PyStr.startswith url "file://eos/user/";
  get_eos_username := eos_username;
  get_path_without_eos_base := eos_relative;
|}.

(** A home directory holding the projects folder with one project in it, a
    plain folder, a notebook, and one clonable remote. *)
Definition fs0 : fs :=
  {| dirs := ["/home/u"; "/home/u/SWAN_projects"; "/home/u/SWAN_projects/p1";
              "/home/u/docs"; "/data/shared"];
     files := [("/home/u/SWAN_projects/p1/.swanproject", VStr "");
               ("/home/u/SWAN_projects/p1/nb.ipynb", VData 7);
               ("/home/u/docs/notes.txt", VStr "notes");
               ("/data/shared/a.txt", VStr "a")];
     tmp_next := 0;
     remotes := ["https://git.example.org/team/repo.git";
                 "https://git.example.org/team/SWAN_projects.git"] |}.


(** A home where a regular file has the name of the projects folder. *)
Definition fs_file : fs :=
  {| dirs := ["/home/u"]; files := [("/home/u/SWAN_projects", VStr "")];
     tmp_next := 0; remotes := [] |}.

(** [fs0] with a plain folder directly below the projects folder. *)
Definition fs_plain : fs := add_dir "/home/u/SWAN_projects/plain" fs0.

(** A notebook as the front-end saves it, with a validation message. *)
Definition notebook_model : model :=
  <[ "message" := VStr "Notebook validation failed" ]>
    (<[ "content" := VData 5 ]> (<[ "type" := VStr "notebook" ]> ∅)).

(** Models a front-end sends to [save] and [update]. *)
Definition new_directory : model := <[ "type" := VStr "directory" ]> ∅.

Definition new_project : model := <[ "type" := VStr "project" ]> ∅.

Definition chunked_file : model :=
  <[ "chunk" := VInt 1 ]>
    (<[ "content" := VStr "abc" ]> (<[ "type" := VStr "file" ]> ∅)).

End MemHost.

(** ** The kernel extension ([connector.py]) *)

Module Connector.
Import Py.
Local Open Scope py_scope.

(** A [SparkConf]: keys to [str(value)], as [SparkConf.set] stores them. *)
Abbreviation conf := (gmap string string).

(** Objects that can sit in the user namespace.  [OObject] is any other
    object: its type name, its truth value and what its [toDebugString]
    method returns, if it has one. *)
Inductive pyobj : Type :=
  | ONone
  | OBool (b : bool)
  | OInt (n : Z)
  | OStr (s : string)
  | OSparkConf (c : conf)
  | OSparkContext (id : nat)
  | OSparkSession (id : nat)
  | OObject (type_name : string) (truth : bool) (debug : option string).

Definition truthy_obj (o : pyobj) : bool :=
  match o with
  | ONone => false
  | OBool b => b
  | OInt n => negb (Z.eqb n 0)
  | OStr s => negb (String.eqb s "")
  | OObject _ truth _ => truth
  | _ => true
  end.

(** [isinstance(o, SparkConf)] *)
Definition is_spark_conf (o : pyobj) : bool :=
  match o with OSparkConf _ => true | _ => false end.

Definition obj_type_name (o : pyobj) : string :=
  match o with
  | ONone => "NoneType"
  | OBool _ => "bool"
  | OInt _ => "int"
  | OStr _ => "str"
  | OSparkConf _ => "SparkConf"
  | OSparkContext _ => "SparkContext"
  | OSparkSession _ => "SparkSession"
  | OObject name _ _ => name
  end.

(** JSON messages sent to the front-end.  A string value is [JStr] when it
    is text of the program or its environment, and [JText], a list of
    code points, when it was read from the log file. *)
Inductive jval : Type :=
  | JNull
  | JStr (s : string)
  | JText (codepoints : list N).

Abbreviation message := (gmap string jval).

(** [msg['content']['data']] of a comm message. *)
Record data : Type := {
  action : string;
  password : option string;
  options : option (list (string * string));
}.

(** What the extension does to the outside, in order. *)
Inductive event : Type :=
  | EvKinit (input : string)
  | EvKlist
  | EvProbePort (port : Z)   (* the look for a listener on the port *)
  | EvSend (m : message)
  | EvLog (level text : string)
  | EvNewContext (c : conf)
  | EvNewSession (context : nat)
  | EvPush (bindings : list (string * pyobj)).

(** What the kernel process answers: environment variables, exit statuses of
    the credential tools, [int()], whether the host name of the machine
    resolves and whether a connection to a port of it is accepted, string
    formatting, and the two pyspark constructors (an error message when
    they raise). *)
Record Kernel : Type := {
  environ : gmap string string;
  kinit_status : string -> Z;
  klist_status : Z;
  py_int : string -> option Z;
  host_resolves : bool;
  port_accepts : Z -> bool;
  format_value : string -> exn + string;
  debug_string : conf -> string;
  spark_context : conf -> string + nat;
  spark_session : nat -> string + nat;
}.

(** The connector object together with the interactive shell's namespace
    and the trace of events so far. *)
Record kstate : Type := {
  connected : bool;
  needs_auth : bool;
  cluster_name : option string;
  log4j_file : string;
  user_ns : gmap string pyobj;
  trace : list event;
}.

Definition add_events (evs : list event) (st : kstate) : kstate :=
  {| connected := connected st; needs_auth := needs_auth st;
     cluster_name := cluster_name st; log4j_file := log4j_file st;
     user_ns := user_ns st; trace := trace st ++ evs |}.

Definition emit (e : event) : M kstate unit := modify (add_events [e]).

Definition set_connected (b : bool) : M kstate unit :=
  modify (fun st =>
    {| connected := b; needs_auth := needs_auth st;
       cluster_name := cluster_name st; log4j_file := log4j_file st;
       user_ns := user_ns st; trace := trace st |}).

Definition set_user_ns (ns : gmap string pyobj) : M kstate unit :=
  modify (fun st =>
    {| connected := connected st; needs_auth := needs_auth st;
       cluster_name := cluster_name st; log4j_file := log4j_file st;
       user_ns := ns; trace := trace st |}).

(** [SparkConnector.__init__]: the flag starts false; the log4j file is the
    one [create_properties_file] returned. *)
Definition init (K : Kernel) (log4j : string) (ns : gmap string pyobj)
    : kstate :=
  let name := environ K !! "SPARK_CLUSTER_NAME" in
  {| connected := false;
     needs_auth := bool_decide (name = Some "nxcals");
     cluster_name := name;
     log4j_file := log4j;
     user_ns := ns;
     trace := [] |}.

Definition send (m : message) : M kstate unit := emit (EvSend m).

(** [{'msgtype': page}] and [{'msgtype': page, 'error': error}] *)
Definition ok_message (page : string) : message :=
  <[ "msgtype" := JStr page ]> ∅.

Definition error_message (page error : string) : message :=
  <[ "error" := JStr error ]> (<[ "msgtype" := JStr page ]> ∅).

Definition send_ok (page : string) : M kstate unit :=
  send (ok_message page).

Definition send_error (page error : string) : M kstate unit :=
  send (error_message page error).

(** [ipython.push(bindings)] *)
Definition push (bindings : list (string * pyobj)) : M kstate unit :=
  do! emit (EvPush bindings) in
  let! ns := gets user_ns in
  set_user_ns (foldl (fun ns kv => <[ fst kv := snd kv ]> ns) ns bindings).

(** [str(os.environ.get(name))] *)
Definition env_str (K : Kernel) (name : string) : string :=
  default "None" (environ K !! name).

Definition conf_set (key value : string) : M conf unit :=
  modify (fun c => <[ key := value ]> c).

Definition conf_get (key : string) : M conf (option string) :=
  gets (fun c => c !! key).

Definition nonempty (o : option string) : bool :=
  match o with Some s => negb (String.eqb s "") | None => false end.

Definition dquote : string := String (ascii_of_nat 34) EmptyString.

(** The message of [str + None]. *)
Definition concat_none_error : string :=
  "can only concatenate str (not " +:+ dquote +:+ "NoneType" +:+ dquote
  +:+ ") to str".

Definition analytics_extra_class : string :=
  "/eos/project/s/swan/public/hadoop-mapreduce-client-core-2.6.0-cdh5.7.6.jar".

(** The loop of [configure] over [opts['options'].items()]; it carries
    [extra_java_options] and [extra_class_path]. *)
Fixpoint configure_options (K : Kernel) (opts : list (string * string))
    (extra_java_options extra_class_path : string)
    : M conf (string * string) :=
  match opts with
  | [] => ret (extra_java_options, extra_class_path)
  | (name, value) :: rest =>
      match format_value K value with
      | inl e => raise e
      | inr value =>
          if String.eqb name "spark.driver.extraJavaOptions" then
            configure_options K rest
              (value +:+ " " +:+ extra_java_options) extra_class_path
          else if String.eqb name "spark.driver.extraClassPath" then
            configure_options K rest
              extra_java_options (extra_class_path +:+ ":" +:+ value)
          else
            do! conf_set name value in
            configure_options K rest extra_java_options extra_class_path
      end
  end.

Definition configure (K : Kernel) (log4j : string) (opts : data)
    : M conf unit :=
  do! conf_set "spark.driver.host" (env_str K "SERVER_HOSTNAME") in
  do! conf_set "spark.driver.port" (env_str K "SPARK_PORT_1") in
  do! conf_set "spark.blockManager.port" (env_str K "SPARK_PORT_2") in
  do! conf_set "spark.ui.port" (env_str K "SPARK_PORT_3") in
  do! conf_set "spark.master" "yarn" in
  do! conf_set "spark.authenticate" "True" in
  do! conf_set "spark.network.crypto.enabled" "True" in
  do! conf_set "spark.authenticate.enableSaslEncryption" "True" in
  let extra_java_options := "-Dlog4j.configuration=file:" +:+ log4j in
  let! extra_class_path := conf_get "spark.driver.extraClassPath" in
  let extra_class_path :=
    if nonempty extra_class_path
    then default "" extra_class_path +:+ ":" +:+ analytics_extra_class
    else analytics_extra_class in
  let! extras :=
    (match options opts with
     | Some o => configure_options K o extra_java_options extra_class_path
     | None => ret (extra_java_options, extra_class_path)
     end) in
  let! ld_library_path := conf_get "spark.executorEnv.LD_LIBRARY_PATH" in
  let! ld_library_path :=
    (if nonempty ld_library_path then
       match environ K !! "LD_LIBRARY_PATH" with
       | Some e => ret (default "" ld_library_path +:+ ":" +:+ e)
       | None => raise (PyError "TypeError" concat_none_error)
       end
     else ret (env_str K "LD_LIBRARY_PATH")) in
  do! conf_set "spark.driver.extraJavaOptions" (fst extras) in
  do! conf_set "spark.driver.extraClassPath" (snd extras) in
  do! conf_set "spark.executorEnv.LD_LIBRARY_PATH" ld_library_path in
  let! app_name := conf_get "spark.app.name" in
  conf_set "spark.app.name"
    (if nonempty app_name then default "" app_name +:+ "_swan"
     else "pyspark_shell_swan").

(** [is_port_in_use]: the probe of [SPARK_PORT_1] on this host.  [int()]
    raises on [None] and on a string that is no number.  [socket.connect]
    raises [OverflowError] on a port that is no C [int]; then it resolves
    the host name, and a failure there is a [socket.error], as a refused
    connection is; only then does it raise [OverflowError] on a port
    outside 0-65535.  Of all these the [try] catches [socket.error]
    alone. *)
Definition is_port_in_use (K : Kernel) : M kstate bool :=
  match environ K !! "SPARK_PORT_1" with
  | None =>
      raise (PyError "TypeError"
               "int() argument must be a string, a bytes-like object or a real number, not 'NoneType'")
  | Some s =>
      match py_int K s with
      | None =>
          raise (PyError "ValueError"
                   ("invalid literal for int() with base 10: '" +:+ s
                    +:+ "'"))
      | Some port =>
          if (port <? -2147483648)%Z || (2147483647 <? port)%Z
          then raise (PyError "OverflowError"
                        "connect(): port must be 0-65535.")
          else if host_resolves K && ((port <? 0)%Z || (65535 <? port)%Z)
          then raise (PyError "OverflowError"
                        "connect(): port must be 0-65535.")
          else
            do! emit (EvProbePort port) in
            ret (host_resolves K && port_accepts K port)
      end
  end.

Definition port_in_use_error : string :=
  "You already opened a Spark connection in this session. Please close it first if you want to open a new one.".

Definition not_a_conf_error : string :=
  "There is already a " +:+ dquote +:+ "swan_spark_conf" +:+ dquote
  +:+ " variable defined and is not of type SparkConf.".

(** The rest of the [try] block once [conf] is chosen.  [configure] works on
    the object itself: when [conf] is the one found in the namespace
    ([shared]), the namespace sees every change, also when a later step
    raises. *)
Definition open_session (K : Kernel) (opts : data) (shared : bool) (c : conf)
    : M kstate unit :=
  let! log4j := gets log4j_file in
  let configured := configure K log4j opts c in
  let c := snd configured in
  do! (if shared
       then let! ns := gets user_ns in
            set_user_ns (<[ "swan_spark_conf" := OSparkConf c ]> ns)
       else ret tt) in
  match fst configured with
  | Raises e => raise e
  | OutOfFuel => fun st => (OutOfFuel, st)
  | Returns _ =>
      do! emit (EvNewContext c) in
      match spark_context K c with
      | inl error => raise (PyError "Exception" error)
      | inr sc =>
          do! emit (EvNewSession sc) in
          match spark_session K sc with
          | inl error => raise (PyError "Exception" error)
          | inr spark =>
              do! push [("swan_spark_conf", OSparkConf c);
                        ("sc", OSparkContext sc);
                        ("spark", OSparkSession spark)] in
              do! send_ok "sparkconn-connected" in
              set_connected true
          end
      end
  end.

(** The [try] block of the connect branch. *)
Definition connect_body (K : Kernel) (opts : data) : M kstate unit :=
  let! ns := gets user_ns in
  let existing := default ONone (ns !! "swan_spark_conf") in
  if truthy_obj existing then
    match existing with
    | OSparkConf c =>
        do! emit (EvLog "warn" ("conf already exists: " +:+ debug_string K c)) in
        open_session K opts true c
    | OObject _ _ (Some text) =>
        do! emit (EvLog "warn" ("conf already exists: " +:+ text)) in
        send_error "sparkconn-config" not_a_conf_error
    | other =>
        raise (PyError "AttributeError"
                 ("'" +:+ obj_type_name other
                  +:+ "' object has no attribute 'toDebugString'"))
    end
  else open_session K opts false ∅.

Definition bad_password_error : string :=
  "Error obtaining the ticket. Is the password correct?".

(** The [except Exception as ex] handler of the connect branch. *)
Definition report_failure (ex : exn) : M kstate unit :=
  do! send_error "sparkconn-config" (exn_str ex) in
  emit (EvLog "error" "Error creating Spark conf").

Definition handle_comm_message (K : Kernel) (msg : data) : M kstate unit :=
  if String.eqb (action msg) "sparkconn-action-auth" then
    match password msg with
    | None => raise (PyError "KeyError" "'password'")
    | Some auth_kinit =>
        do! emit (EvKinit auth_kinit) in
        if Z.eqb (kinit_status K auth_kinit) 0
        then send_ok "sparkconn-config"
        else send_error "sparkconn-auth" bad_password_error
    end
  else if String.eqb (action msg) "sparkconn-action-connect" then
    let! is_connected := gets connected in
    if is_connected then send_ok "sparkconn-connected"
    else
      let! auth := gets needs_auth in
      let! no_ticket :=
        (if auth
         then do! emit EvKlist in ret (negb (Z.eqb (klist_status K) 0))
         else ret false) in
      if no_ticket
      then send_error "sparkconn-auth" "No valid credentials provided."
      else
        let! in_use := is_port_in_use K in
        if in_use then send_error "sparkconn-config" port_in_use_error
        else
          catch (connect_body K msg) report_failure
  else emit (EvLog "error" "Received wrong message").

(** [None] is sent as JSON [null]. *)
Definition jopt (o : option string) : jval :=
  match o with Some s => JStr s | None => JNull end.

(** The message [target_func] sends when a front-end opens the comm. *)
Definition open_message (maxmemory cluster : option string) (page : string)
    : message :=
  <[ "page" := JStr page ]>
    (<[ "cluster" := jopt cluster ]>
       (<[ "maxmemory" := jopt maxmemory ]>
          (<[ "msgtype" := JStr "sparkconn-action-open" ]> ∅))).

(** [target_func]: called when a front-end opens the comm; [msg] is
    [str(msg)] of the opening message.  It keeps the comm, registers
    [handle_comm_message] on it and tells the front-end which page to show. *)
Definition target_func (K : Kernel) (msg : string) : M kstate unit :=
  do! emit (EvLog "info" ("Established connection to frontend: " +:+ msg)) in
  let! is_connected := gets connected in
  let! page :=
    (if is_connected then ret "sparkconn-connected"
     else
       let! auth := gets needs_auth in
       let! no_ticket :=
         (if auth
          then do! emit EvKlist in ret (negb (Z.eqb (klist_status K) 0))
          else ret false) in
       ret (if no_ticket then "sparkconn-auth" else "sparkconn-config")) in
  let! cluster := gets cluster_name in
  send (open_message (environ K !! "MAX_MEMORY") cluster page).

(** Handling a sequence of messages, each under what the kernel answers at
    that time; a handler that raises leaves the state as it is then. *)
Definition handle_all (msgs : list (Kernel * data)) (st : kstate) : kstate :=
  foldl (fun st km => snd (handle_comm_message (fst km) (snd km) st)) st msgs.

(** The events a call added to the trace. *)
Definition new_events (before after : kstate) : list event :=
  List.skipn (length (trace before)) (trace after).

(** The messages sent and the bindings pushed among some events. *)
Definition sent_messages (evs : list event) : list message :=
  flat_map (fun e => match e with EvSend m => [m] | _ => [] end) evs.

Definition pushed (evs : list event) : list (list (string * pyobj)) :=
  flat_map (fun e => match e with EvPush b => [b] | _ => [] end) evs.

Definition kinit_inputs (evs : list event) : list string :=
  flat_map (fun e => match e with EvKinit i => [i] | _ => [] end) evs.

Definition contexts_created (evs : list event) : list conf :=
  flat_map (fun e => match e with EvNewContext c => [c] | _ => [] end) evs.

(** The credential check of the connect branch lets the message through. *)
Definition credentials_pass (K : Kernel) (st : kstate) : Prop :=
  needs_auth st = false \/ klist_status K = 0%Z.

(** What [is_port_in_use] answers, when [SPARK_PORT_1] names a port. *)
Definition port_probe (K : Kernel) (in_use : bool) : Prop :=
  exists s port,
    environ K !! "SPARK_PORT_1" = Some s /\ py_int K s = Some port
    /\ (0 <= port <= 65535)%Z
    /\ host_resolves K && port_accepts K port = in_use.

(** Configuring [c] and creating the context and the session from it
    raises, with [error] as the text of the exception. *)
Inductive session_fails (K : Kernel) (log4j : string) (opts : data) (c : conf)
    : string -> Prop :=
  | fails_configure (e : exn) :
      fst (configure K log4j opts c) = Raises e ->
      session_fails K log4j opts c (exn_str e)
  | fails_context (error : string) :
      fst (configure K log4j opts c) = Returns tt ->
      spark_context K (snd (configure K log4j opts c)) = inl error ->
      session_fails K log4j opts c error
  | fails_session (sc : nat) (error : string) :
      fst (configure K log4j opts c) = Returns tt ->
      spark_context K (snd (configure K log4j opts c)) = inr sc ->
      spark_session K sc = inl error ->
      session_fails K log4j opts c error.

(** The configuration object the connect branch works on: the [SparkConf]
    found in the namespace (shared with it), or a new one when the
    namespace holds nothing or something false under the name; none when
    it holds any other object. *)
Definition chosen_conf (st : kstate) : option (bool * conf) :=
  match user_ns st !! "swan_spark_conf" with
  | Some (OSparkConf c) => Some (true, c)
  | Some o => if truthy_obj o then None else Some (false, ∅)
  | None => Some (false, ∅)
  end.

(** The bindings a successful connect pushes. *)
Definition session_bindings (c : conf) (sc spark : nat)
    : list (string * pyobj) :=
  [("swan_spark_conf", OSparkConf c); ("sc", OSparkContext sc);
   ("spark", OSparkSession spark)].

(** The events that end a successful connect. *)
Definition session_events (c : conf) (sc spark : nat) : list event :=
  [EvNewContext c; EvNewSession sc; EvPush (session_bindings c sc spark);
   EvSend (ok_message "sparkconn-connected")].

(** Events among which nothing is sent and nothing is pushed. *)
Definition quiet (evs : list event) : Prop :=
  sent_messages evs = [] /\ pushed evs = [].

(** From [st] to [st'] the flag did not move, the trace grew by quiet
    events, and no name but the configuration object was rebound. *)
Definition failed_quietly (st st' : kstate) : Prop :=
  connected st' = connected st
  /\ (exists evs, trace st' = trace st ++ evs /\ quiet evs)
  /\ forall k, k <> "swan_spark_conf" -> user_ns st' !! k = user_ns st !! k.

(** From [st] to [st'] a session was opened: the configuration object was
    configured, context and session were created from it, and the trace
    ends with them pushed and the front-end told. *)
Definition session_opened (K : Kernel) (msg : data) (st st' : kstate)
    : Prop :=
  exists shared c sc spark pre,
    chosen_conf st = Some (shared, c)
    /\ connected st' = true
    /\ fst (configure K (log4j_file st) msg c) = Returns tt
    /\ spark_context K (snd (configure K (log4j_file st) msg c)) = inr sc
    /\ spark_session K sc = inr spark
    /\ trace st'
       = trace st ++ pre
         ++ session_events (snd (configure K (log4j_file st) msg c)) sc spark
    /\ quiet pre.

(** How the [try] block of the connect branch may end from [st]. *)
Definition connect_body_post (K : Kernel) (msg : data) (st : kstate)
    (r : outcome unit * kstate) : Prop :=
  match r with
  | (Returns _, st') =>
      session_opened K msg st st'
      \/ (chosen_conf st = None
          /\ connected st' = connected st
          /\ user_ns st' = user_ns st
          /\ exists evs,
               trace st' = trace st ++ evs /\ pushed evs = []
               /\ sent_messages evs
                  = [error_message "sparkconn-config" not_a_conf_error])
  | (Raises e, st') =>
      failed_quietly st st'
      /\ match chosen_conf st with
         | Some (_, c) => session_fails K (log4j_file st) msg c (exn_str e)
         | None => True
         end
  | (OutOfFuel, _) => False
  end.

(** The events of the credential check: [klist -s] runs only when the
    cluster needs authentication. *)
Definition gate_events (st : kstate) : list event :=
  if needs_auth st then [EvKlist] else [].

(** A connect message was refused with [error] on the configuration page:
    that one reply, the flag still false, nothing pushed, and no name of
    the namespace rebound but, at most, the configuration object. *)
Definition refused_on_config (st st' : kstate) (error : string) : Prop :=
  connected st' = false
  /\ pushed (new_events st st') = []
  /\ sent_messages (new_events st st')
     = [<[ "error" := JStr error ]>
          (<[ "msgtype" := JStr "sparkconn-config" ]> ∅)]
  /\ forall k, k <> "swan_spark_conf" ->
               user_ns st' !! k = user_ns st !! k.

(** The runs of the credential tools among some events. *)
Definition credential_calls (evs : list event) : list event :=
  List.filter
    (fun e => match e with EvKinit _ | EvKlist => true | _ => false end) evs.

(** What [__init__] fixed is the same in both states. *)
Definition same_settings (st st' : kstate) : Prop :=
  needs_auth st' = needs_auth st
  /\ cluster_name st' = cluster_name st
  /\ log4j_file st' = log4j_file st.

(** The page a message names. *)
Definition page_of (m : message) : option jval := m !! "page".

(** The names a session binds in the user namespace. *)
Definition bind_session (c : conf) (sc spark : nat) (ns : gmap string pyobj)
    : gmap string pyobj :=
  <[ "spark" := OSparkSession spark ]>
    (<[ "sc" := OSparkContext sc ]>
       (<[ "swan_spark_conf" := OSparkConf c ]> ns)).

(** The settings [configure] writes before it looks at the options. *)
Definition fixed_settings (K : Kernel) : list (string * string) :=
  [("spark.driver.host", env_str K "SERVER_HOSTNAME");
   ("spark.driver.port", env_str K "SPARK_PORT_1");
   ("spark.blockManager.port", env_str K "SPARK_PORT_2");
   ("spark.ui.port", env_str K "SPARK_PORT_3");
   ("spark.master", "yarn");
   ("spark.authenticate", "True");
   ("spark.network.crypto.enabled", "True");
   ("spark.authenticate.enableSaslEncryption", "True")].

Definition with_fixed_settings (K : Kernel) (c : conf) : conf :=
  foldl (fun c kv => <[ fst kv := snd kv ]> c) c (fixed_settings K).

(** The names of the options a message carries. *)
Definition option_names (opts : data) : list string :=
  match options opts with Some o => map fst o | None => [] end.

(** The page [target_func] announces for a state. *)
Definition page_shown (K : Kernel) (st : kstate) : string :=
  if connected st then "sparkconn-connected"
  else if needs_auth st && negb (Z.eqb (klist_status K) 0)
       then "sparkconn-auth"
       else "sparkconn-config".

(** The settings [configure] computes and writes after the options. *)
Definition computed_keys : list string :=
  ["spark.driver.extraJavaOptions"; "spark.driver.extraClassPath";
   "spark.executorEnv.LD_LIBRARY_PATH"; "spark.app.name"].

(** Kernels and states used for concrete runs. *)
Definition kernel0 : Kernel :=
  {| environ := <[ "SPARK_PORT_1" := "5001" ]>
                  (<[ "LD_LIBRARY_PATH" := "/usr/lib" ]> ∅);
     kinit_status := fun pw => if String.eqb pw "secret" then 0%Z else 1%Z;
     klist_status := 1%Z;
     py_int := fun s => if String.eqb s "5001" then Some 5001%Z else None;
     host_resolves := true;
     port_accepts := fun port => false;
     format_value := fun v => inr v;
     debug_string := fun c => "";
     spark_context := fun c => inr 1;
     spark_session := fun sc => inr 2 |}.

(** The same kernel with the driver port already taken. *)
Definition kernel_busy : Kernel :=
  {| environ := environ kernel0;
     kinit_status := kinit_status kernel0;
     klist_status := klist_status kernel0;
     py_int := py_int kernel0;
     host_resolves := true;
     port_accepts := fun port => true;
     format_value := format_value kernel0;
     debug_string := debug_string kernel0;
     spark_context := spark_context kernel0;
     spark_session := spark_session kernel0 |}.

(** The same kernel with a cluster that refuses the context. *)
Definition kernel_nocontext : Kernel :=
  {| environ := environ kernel0;
     kinit_status := kinit_status kernel0;
     klist_status := klist_status kernel0;
     py_int := py_int kernel0;
     host_resolves := host_resolves kernel0;
     port_accepts := port_accepts kernel0;
     format_value := format_value kernel0;
     debug_string := debug_string kernel0;
     spark_context := fun c => inl "Could not connect to the cluster";
     spark_session := spark_session kernel0 |}.

(** The same kernel with a number in [SPARK_PORT_1] that is no port. *)
Definition kernel_badport : Kernel :=
  {| environ := <[ "SPARK_PORT_1" := "70000" ]> (environ kernel0);
     kinit_status := kinit_status kernel0;
     klist_status := klist_status kernel0;
     py_int := fun s => if String.eqb s "70000" then Some 70000%Z else None;
     host_resolves := host_resolves kernel0;
     port_accepts := port_accepts kernel0;
     format_value := format_value kernel0;
     debug_string := debug_string kernel0;
     spark_context := spark_context kernel0;
     spark_session := spark_session kernel0 |}.

(** That kernel on a machine whose host name does not resolve. *)
Definition kernel_lost : Kernel :=
  {| environ := environ kernel_badport;
     kinit_status := kinit_status kernel0;
     klist_status := klist_status kernel0;
     py_int := py_int kernel_badport;
     host_resolves := false;
     port_accepts := port_accepts kernel0;
     format_value := format_value kernel0;
     debug_string := debug_string kernel0;
     spark_context := spark_context kernel0;
     spark_session := spark_session kernel0 |}.

(** The same kernel without [SPARK_PORT_1] in its environment. *)
Definition kernel_noport : Kernel :=
  {| environ := <[ "LD_LIBRARY_PATH" := "/usr/lib" ]> ∅;
     kinit_status := kinit_status kernel0;
     klist_status := klist_status kernel0;
     py_int := py_int kernel0;
     host_resolves := host_resolves kernel0;
     port_accepts := port_accepts kernel0;
     format_value := format_value kernel0;
     debug_string := debug_string kernel0;
     spark_context := spark_context kernel0;
     spark_session := spark_session kernel0 |}.

Definition fresh_state (auth : bool) (ns : gmap string pyobj) : kstate :=
  {| connected := false; needs_auth := auth;
     cluster_name := if auth then Some "nxcals" else Some "analytix";
     log4j_file := "/tmp/log4j"; user_ns := ns; trace := [] |}.

Definition connect_msg : data :=
  {| action := "sparkconn-action-connect"; password := None;
     options := None |}.

(** A connect message with options chosen in the front-end. *)
Definition connect_with_options : data :=
  {| action := "sparkconn-action-connect"; password := None;
     options := Some [("spark.driver.extraJavaOptions", "-Xmx1g");
                      ("spark.master", "local");
                      ("spark.executor.memory", "2g")] |}.

Definition auth_msg (pw : string) : data :=
  {| action := "sparkconn-action-auth"; password := Some pw;
     options := None |}.

End Connector.

(** ** The log-tailing thread ([LogReader])

    [LogReader.run] executes on its own thread while the message handler
    runs on the kernel's; the two share [connector.connected] and the
    front-end channel, and the cluster writes to the log file.  The thread
    is modelled statement by statement, so that the other two can act
    between any two of its statements.

    The file object ([io.open] in text mode) is the library's: which
    pieces of text [readline] cuts out of the bytes written -- a line with
    its end, what was written of a line so far, the two halves of a line
    around a carriage return -- is its business.  The model starts from
    what [readline] returns: the file is the sequence of the results of
    successive calls that do not find the end of the file.  The thread sends
    through [connector.send], that is, on a comm a front-end has opened. *)

Module LogReader.
Import Connector.

(** Text read from the file: a [str] as the list of its code points. *)
Definition text : Type := list N.

(** [c.isspace()]: the white space of Unicode. *)
Definition is_whitespace (c : N) : bool :=
  ((9 <=? c) && (c <=? 13) || (28 <=? c) && (c <=? 32)
   || (c =? 133) || (c =? 160) || (c =? 5760)
   || (8192 <=? c) && (c <=? 8202)
   || (c =? 8232) || (c =? 8233) || (c =? 8239) || (c =? 8287)
   || (c =? 12288))%N.

Fixpoint lstrip (t : text) : text :=
  match t with
  | c :: rest => if is_whitespace c then lstrip rest else t
  | [] => []
  end.

(** [t.strip()] *)
Definition strip (t : text) : text := rev (lstrip (rev (lstrip t))).

(** [not line] *)
Definition is_empty (t : text) : bool :=
  match t with [] => true | _ => false end.

(** Where the thread stands: before [logfile.seek(0,2)], at the loop test
    [while not self.connector.connected], at [logfile.readline()], in
    [time.sleep(0.1)], holding a line it yields to [run] for sending, or
    past the loop. *)
Inductive pc : Type :=
  | PSeek
  | PGuard
  | PRead
  | PSleep
  | PYield (line : text)
  | PDone.

(** [logfile] holds the results of [readline] from the beginning of the
    file, [offset] counts those behind the read position, and [start] those
    behind the position the thread sought to. *)
Record tail : Type := {
  flag : bool;
  logfile : list text;
  start : nat;
  offset : nat;
  at_pc : pc;
  forwarded : list message;
}.

(** What can happen next: the thread executes its next statement, the file
    grows by what the next [readline] beyond its present end will return,
    or the handler sets [connected = True]. *)
Inductive move : Type :=
  | Tick
  | Arrive (piece : text)
  | Connect.

(** The message [run] sends for a line the generator yielded. *)
Definition log_message (line : text) : message :=
  <[ "msg" := JText (strip line) ]>
    (<[ "msgtype" := JStr "sparkconn-action-log" ]> ∅).

Definition tick (s : tail) : tail :=
  match at_pc s with
  | PSeek =>
      {| flag := flag s; logfile := logfile s;
         start := length (logfile s); offset := length (logfile s);
         at_pc := PGuard; forwarded := forwarded s |}
  | PGuard =>
      {| flag := flag s; logfile := logfile s; start := start s;
         offset := offset s;
         at_pc := if flag s then PDone else PRead;
         forwarded := forwarded s |}
  | PRead =>
      match logfile s !! offset s with
      | Some line =>
          {| flag := flag s; logfile := logfile s; start := start s;
             offset := S (offset s);
             at_pc := if is_empty line then PSleep else PYield line;
             forwarded := forwarded s |}
      | None =>
          {| flag := flag s; logfile := logfile s; start := start s;
             offset := offset s; at_pc := PSleep; forwarded := forwarded s |}
      end
  | PSleep =>
      {| flag := flag s; logfile := logfile s; start := start s;
         offset := offset s; at_pc := PGuard; forwarded := forwarded s |}
  | PYield line =>
      {| flag := flag s; logfile := logfile s; start := start s;
         offset := offset s; at_pc := PGuard;
         forwarded := forwarded s ++ [log_message line] |}
  | PDone => s
  end.

Definition step (m : move) (s : tail) : tail :=
  match m with
  | Tick => tick s
  | Arrive piece =>
      {| flag := flag s; logfile := logfile s ++ [piece]; start := start s;
         offset := offset s; at_pc := at_pc s; forwarded := forwarded s |}
  | Connect =>
      {| flag := true; logfile := logfile s; start := start s;
         offset := offset s; at_pc := at_pc s; forwarded := forwarded s |}
  end.

Definition run (schedule : list move) (s : tail) : tail :=
  foldl (fun s m => step m s) s schedule.

(** The thread as [SparkConnector.__init__] starts it, on a log file that
    already holds [existing]. *)
Definition started (existing : list text) : tail :=
  {| flag := false; logfile := existing; start := 0; offset := 0;
     at_pc := PSeek; forwarded := [] |}.

Definition ticks (schedule : list move) : nat :=
  length (List.filter (fun m => match m with Tick => true | _ => false end) schedule).

Definition is_connect (m : move) : bool :=
  match m with Connect => true | _ => false end.

(** The pieces of the file from position [from] up to position [upto]. *)
Definition lines_between (from upto : nat) (l : list text) : list text :=
  firstn (upto - from) (skipn from l).

(** The messages for some results of [readline]: one for each that is not
    empty. *)
Definition messages_for (pieces : list text) : list message :=
  map log_message (List.filter (fun t => negb (is_empty t)) pieces).

(** The line the thread holds, read but not yet sent. *)
Definition held (s : tail) : nat :=
  match at_pc s with PYield _ => 1 | _ => 0 end.

(** The state the tailing thread can be in: what it sent is, in order, the
    messages for what it read from the position it sought to, but for the
    line it may hold; and it is past the loop only with the flag set. *)
Definition consistent (s : tail) : Prop :=
  start s <= offset s <= length (logfile s)
  /\ held s <= offset s - start s
  /\ forwarded s
     = messages_for (lines_between (start s) (offset s - held s) (logfile s))
  /\ match at_pc s with
     | PYield line =>
         logfile s !! (offset s - 1) = Some line /\ is_empty line = false
     | PSeek => forwarded s = [] /\ offset s = start s
     | PDone => flag s = true
     | _ => True
     end.

(** The pieces by which a schedule lets the file grow, in order. *)
Definition arrived (schedule : list move) : list text :=
  flat_map (fun m => match m with Arrive l => [l] | _ => [] end) schedule.

(** What follows the first statement of the thread, [logfile.seek(0,2)]. *)
Fixpoint after_seek (schedule : list move) : list move :=
  match schedule with
  | [] => []
  | Tick :: rest => rest
  | _ :: rest => after_seek rest
  end.

(** How many more lines the thread can send once the flag is set: the one
    it is reading or holding. *)
Definition may_send (s : tail) : nat :=
  match at_pc s with
  | PRead | PYield _ => 1
  | _ => 0
  end.

(** How many statements the thread is from the end of the loop once the
    flag is set. *)
Definition steps_left (s : tail) : nat :=
  match at_pc s with
  | PDone => 0
  | PGuard => 1
  | PSeek | PSleep | PYield _ => 2
  | PRead => 3
  end.

(** The code points of a literal, for writing down inputs. *)
Definition codes (s : string) : text :=
  map N_of_ascii (list_ascii_of_string s).

End LogReader.

(** * Properties *)

(** ** Facts about the string primitives *)

Module PyStrFacts.
Import PyStr.

Lemma append_assoc (a b c : string) : (a +:+ b) +:+ c = a +:+ (b +:+ c).
Proof. induction a as [|x a IH]; simpl; [reflexivity | now rewrite IH]. Qed.

Lemma append_empty_r (a : string) : a +:+ "" = a.
Proof. induction a as [|x a IH]; simpl; [reflexivity | now rewrite IH]. Qed.

Lemma length_append (a b : string) :
  String.length (a +:+ b) = String.length a + String.length b.
Proof. induction a as [|x a IH]; simpl; [reflexivity | now rewrite IH]. Qed.

Lemma startswith_append (p s : string) : startswith (p +:+ s) p = true.
Proof.
  induction p as [|x p IH]; simpl; [reflexivity |].
  now rewrite Ascii.eqb_refl, IH.
Qed.

Lemma startswith_spec (s p : string) :
  startswith s p = true <-> exists r, s = p +:+ r.
Proof.
  revert s; induction p as [|x p IH]; intros s; simpl.
  - split; [intros _; now exists s | reflexivity].
  - destruct s as [|y s].
    + split; [discriminate | intros [r Hr]; discriminate].
    + rewrite andb_true_iff, Ascii.eqb_eq, IH. split.
      * intros [-> [r ->]]. now exists r.
      * intros [r Hr]. injection Hr as -> ->. split; [reflexivity | now exists r].
Qed.

(** *** [replace] *)

Lemma replace_go_exhausted (old new : string) (s : string) :
  replace_go old new (Some 0) 0 s = s.
Proof. induction s as [|a s IH]; simpl; [reflexivity | now rewrite IH]. Qed.

Lemma replace_go_skip (old new : string) (count : option nat) (x rest : string) :
  replace_go old new count (String.length x) (x +:+ rest)
  = replace_go old new count 0 rest.
Proof.
  induction x as [|a x IH]; simpl; [| exact IH].
  destruct rest; reflexivity.
Qed.

Lemma replace_go_at_prefix (a : ascii) (old new : string) (count : option nat)
    (rest : string) :
  may_replace count = true ->
  replace_go (String a old) new count 0 (String a old +:+ rest)
  = new +:+ replace_go (String a old) new (used_one count) 0 rest.
Proof.
  intros Hc. cbn [append replace_go].
  change (String a (old +:+ rest)) with (String a old +:+ rest).
  rewrite Hc, startswith_append. cbn [andb String.length Nat.pred].
  now rewrite replace_go_skip.
Qed.

(** Removing the first occurrence of a prefix leaves the rest. *)
Lemma replace_first_prefix (old rest : string) :
  old <> "" -> replace (old +:+ rest) old "" (Some 1) = rest.
Proof.
  destruct old as [|a old]; [congruence | intros _].
  unfold replace. rewrite replace_go_at_prefix by reflexivity.
  cbn [used_one Nat.pred append]. apply replace_go_exhausted.
Qed.

(** Removing every occurrence: the scan resumes after the prefix. *)
Lemma replace_all_prefix (old rest : string) :
  old <> "" ->
  replace (old +:+ rest) old "" None = replace rest old "" None.
Proof.
  destruct old as [|a old]; [congruence | intros _].
  unfold replace. now rewrite replace_go_at_prefix by reflexivity.
Qed.

Lemma replace_go_absent (old new : string) (count : option nat) (s : string) :
  occurs old s = false -> replace_go old new count 0 s = s.
Proof.
  induction s as [|a s IH]; [reflexivity |].
  cbn [occurs replace_go]. intros Ho.
  apply orb_false_iff in Ho as [Hs Ho].
  rewrite Hs, andb_false_r. now rewrite IH.
Qed.

Lemma replace_absent (old new : string) (count : option nat) (s : string) :
  old <> "" -> occurs old s = false -> replace s old new count = s.
Proof.
  destruct old; [congruence | intros _ Ho]. now apply replace_go_absent.
Qed.

(** *** [split] *)

Lemma split_nonempty (c : ascii) (s : string) : split c s <> [].
Proof.
  induction s as [|a s IH]; simpl; [discriminate |].
  destruct (Ascii.eqb a c); [discriminate |].
  destruct (split c s); discriminate.
Qed.

Lemma split_plain (c : ascii) (s : string) :
  has_char c s = false -> split c s = [s].
Proof.
  induction s as [|a s IH]; simpl; [reflexivity |].
  intros Hs. apply orb_false_iff in Hs as [Ha Hs].
  now rewrite Ha, IH.
Qed.

Lemma split_append (c : ascii) (a b : string) :
  has_char c a = false ->
  split c (a +:+ String c b) = a :: split c b.
Proof.
  induction a as [|x a IH]; simpl.
  - intros _. now rewrite Ascii.eqb_refl.
  - intros Hs. apply orb_false_iff in Hs as [Hx Hs].
    now rewrite Hx, IH.
Qed.

Lemma split_components (c : ascii) (s : string) :
  Forall (fun f => has_char c f = false) (split c s).
Proof.
  induction s as [|a s IH]; simpl.
  - now constructor.
  - destruct (Ascii.eqb a c) eqn:Ha.
    + now constructor.
    + destruct (split c s) as [|h t]; inversion IH; subst; constructor; simpl;
        try rewrite Ha; auto.
Qed.

Lemma join_split (c : ascii) (s : string) : join c (split c s) = s.
Proof.
  induction s as [|a s IH]; [reflexivity |].
  cbn [split]. destruct (Ascii.eqb a c) eqn:Ha.
  - apply Ascii.eqb_eq in Ha as ->.
    pose proof (split_nonempty c s) as Hne.
    destruct (split c s) as [|h t]; [congruence |].
    cbn [join append]. cbn [join] in IH. now rewrite IH.
  - pose proof (split_nonempty c s) as Hne.
    destruct (split c s) as [|h t]; [congruence |].
    destruct t as [|h' t]; cbn [join append] in *; now rewrite IH.
Qed.

(** A string that splits in two is its two components around the
    separator, and neither holds the separator. *)
Lemma split_two (c : ascii) (s a b : string) :
  split c s = [a; b] ->
  s = a +:+ String c b /\ has_char c a = false /\ has_char c b = false.
Proof.
  intros Hs. pose proof (join_split c s) as Hj.
  pose proof (split_components c s) as Hc.
  rewrite Hs in Hj, Hc. cbn [join] in Hj.
  inversion Hc as [|? ? Ha Hc']; subst. inversion Hc' as [|? ? Hb _]; subst.
  auto.
Qed.

Lemma split_mem_append (c : ascii) (a b f : string) :
  has_char c a = false ->
  In f (split c b) -> In f (split c (a +:+ String c b)).
Proof. intros Ha Hf. rewrite split_append by assumption. now right. Qed.

(** *** [strip] *)

Lemma rstrip_append (f : ascii -> bool) (a b : string) :
  rstrip f b <> "" -> rstrip f (a +:+ b) = a +:+ rstrip f b.
Proof.
  intros Hb. induction a as [|x a IH]; [reflexivity |].
  cbn [append rstrip]. rewrite IH.
  destruct (a +:+ rstrip f b) eqn:E; [| reflexivity].
  destruct a; cbn [append] in E; [congruence | discriminate].
Qed.

Lemma rstrip_keeps (f : ascii -> bool) (x : ascii) (s : string) :
  rstrip f s <> "" -> rstrip f (String x s) = String x (rstrip f s).
Proof. intros Hs. cbn [rstrip]. destruct (rstrip f s); congruence. Qed.

Lemma lstrip_rstrip_lstrip (f : ascii -> bool) (s : string) :
  lstrip f (rstrip f (lstrip f s)) = rstrip f (lstrip f s).
Proof.
  induction s as [|a s IH]; [reflexivity |].
  cbn [lstrip]. destruct (f a) eqn:Ha; [exact IH |].
  cbn [rstrip]. destruct (rstrip f s); rewrite ?Ha; cbn [lstrip];
    now rewrite Ha.
Qed.

Lemma rstrip_idempotent (f : ascii -> bool) (s : string) :
  rstrip f (rstrip f s) = rstrip f s.
Proof.
  induction s as [|a s IH]; [reflexivity |].
  cbn [rstrip]. destruct (rstrip f s) as [|b r] eqn:E.
  - destruct (f a) eqn:Ha; [reflexivity |]. cbn [rstrip]. now rewrite Ha.
  - cbn [rstrip] in IH |- *. now rewrite IH.
Qed.

Lemma strip_idempotent (f : ascii -> bool) (s : string) :
  strip f (strip f s) = strip f s.
Proof.
  unfold strip. now rewrite lstrip_rstrip_lstrip, rstrip_idempotent.
Qed.

Lemma lstrip_fixed (f : ascii -> bool) (a : ascii) (s : string) :
  f a = false -> lstrip f (String a s) = String a s.
Proof. intros Ha. cbn [lstrip]. now rewrite Ha. Qed.

(** *** [os.path.join] *)

Lemma endswith_cons (x : ascii) (s : string) :
  s <> "" -> endswith (String x s) "/" = endswith s "/".
Proof.
  destruct s as [|y s]; [congruence | intros _].
  unfold endswith. cbn [String.length Nat.leb Nat.sub andb drop].
  now rewrite Nat.sub_0_r.
Qed.

Lemma endswith_append (a b : string) :
  b <> "" -> endswith (a +:+ b) "/" = endswith b "/".
Proof.
  intros Hb. induction a as [|x a IH]; [reflexivity |].
  cbn [append]. rewrite endswith_cons; [exact IH |].
  destruct a; cbn [append]; [assumption | discriminate].
Qed.

Lemma endswith_has_char (s : string) :
  has_char "/" s = false -> endswith s "/" = false.
Proof.
  induction s as [|x s IH]; [reflexivity |].
  cbn [has_char]. intros Hs. apply orb_false_iff in Hs as [Hx Hs].
  destruct s as [|y s].
  - unfold endswith. cbn -[Ascii.eqb]. now rewrite Hx.
  - rewrite endswith_cons by discriminate. now apply IH.
Qed.

Lemma startswith_has_char (s : string) :
  has_char "/" s = false -> startswith s "/" = false.
Proof.
  destruct s as [|x s]; [reflexivity |]. cbn [has_char startswith].
  intros Hs. apply orb_false_iff in Hs as [Hx _].
  now rewrite Ascii.eqb_sym, Hx.
Qed.

Lemma endswith_slash_false (a : string) :
  a <> "" -> endswith a "/" = false ->
  String.eqb a "" || endswith a "/" = false.
Proof.
  intros Ha He. rewrite He, orb_false_r. now apply String.eqb_neq.
Qed.

Lemma path_join_plain (a b : string) :
  a <> "" -> endswith a "/" = false -> startswith b "/" = false ->
  path_join a b = a +:+ "/" +:+ b.
Proof.
  intros Ha He Hb. unfold path_join.
  now rewrite Hb, endswith_slash_false.
Qed.

End PyStrFacts.

(** ** Facts about the monad *)

Module PyFacts.
Import Py.

Lemma bind_returns {St A B} (m : M St A) (f : A -> M St B) (st st' : St)
    (a : A) :
  m st = (Returns a, st') -> bind m f st = f a st'.
Proof. intros E. unfold bind. now rewrite E. Qed.

Lemma bind_raises {St A B} (m : M St A) (f : A -> M St B) (st st' : St)
    (e : exn) :
  m st = (Raises e, st') -> bind m f st = (Raises e, st').
Proof. intros E. unfold bind. now rewrite E. Qed.

Lemma bind_gets {St A B} (g : St -> A) (f : A -> M St B) (st : St) :
  bind (gets g) f st = f (g st) st.
Proof. reflexivity. Qed.

Lemma bind_ret {St A B} (a : A) (f : A -> M St B) (st : St) :
  bind (ret a) f st = f a st.
Proof. reflexivity. Qed.

Lemma bind_inv {St A B} (m : M St A) (f : A -> M St B) (st st2 : St) (b : B) :
  bind m f st = (Returns b, st2) ->
  exists a st1, m st = (Returns a, st1) /\ f a st1 = (Returns b, st2).
Proof.
  unfold bind. destruct (m st) as [[a| e |] st1]; try discriminate.
  intros E. now exists a, st1.
Qed.

Lemma total_ret {St A} (a : A) : total (ret (St := St) a).
Proof. intros st. discriminate. Qed.

Lemma total_raise {St A} (e : exn) : total (raise (St := St) (A := A) e).
Proof. intros st. discriminate. Qed.

Lemma total_gets {St A} (g : St -> A) : total (gets g).
Proof. intros st. discriminate. Qed.

Lemma total_modify {St} (g : St -> St) : total (modify g).
Proof. intros st. discriminate. Qed.

Lemma total_bind {St A B} (m : M St A) (f : A -> M St B) :
  total m -> (forall a, total (f a)) -> total (bind m f).
Proof.
  intros Hm Hf st. unfold bind. specialize (Hm st).
  destruct (m st) as [[a| e |] st']; cbn in *;
    [apply Hf | discriminate | congruence].
Qed.

Lemma total_catch {St A} (m : M St A) (h : exn -> M St A) :
  total m -> (forall e, total (h e)) -> total (catch m h).
Proof.
  intros Hm Hh st. unfold catch. specialize (Hm st).
  destruct (m st) as [[a| e |] st']; cbn in *;
    [discriminate | apply Hh | congruence].
Qed.

End PyFacts.

(** ** Properties of the contents-manager mixin *)

Module ContentsProps.
Import Contents PyStr PyStrFacts.

Section Get.

Context {St : Type} {H : Host St}.
Local Open Scope py_scope.

Local Abbreviation root := (root_dir traits).
Local Abbreviation folder := (swan_default_folder traits).
Local Abbreviation file := (swan_default_file traits).

(** [get], past its 404 test and the creation of the projects root. *)
Lemma get_after_root_check (st st1 : St) (path : string) (content : bool)
    (type format : option string) :
  strip_slash path = folder \/ exists_ (strip_slash path) st = true ->
  root_ready (strip_slash path) st st1 ->
  get path content type format st =
    if is_project_dir (strip_slash path) st1 then
      if not_a_project_type type
      then (Raises (HTTPError 400
                      (strip_slash path +:+ " is a project, not a "
                       +:+ type_name type) (Some "bad type")), st1)
      else _proj_model (strip_slash path) content st1
    else super_get _dir_model (strip_slash path) content type format st1.
Proof.
  intros Hex Hready. unfold get, root_ready, is_project_dir in *.
  set (p := strip_slash path) in *.
  unfold bind at 1. unfold gets at 1.
  assert (negb (String.eqb p folder) && negb (exists_ p st) = false) as ->.
  { destruct Hex as [-> | ->].
    - now rewrite String.eqb_refl.
    - now rewrite andb_false_r. }
  unfold bind at 1. unfold gets at 1.
  destruct (String.eqb p folder && negb (_is_dir (_get_os_path p) st)).
  - unfold bind at 1. rewrite Hready.
    unfold bind at 1. unfold gets at 1.
    destruct (_ && _); [destruct (not_a_project_type type) |]; reflexivity.
  - subst st1. unfold bind at 1. unfold ret at 1.
    unfold bind at 1. unfold gets at 1.
    destruct (_ && _); [destruct (not_a_project_type type) |]; reflexivity.
Qed.

Lemma _proj_model_flagged (p : string) (c : bool) (st st' : St) (m : model) :
  _proj_model p c st = (Returns m, st') ->
  m !! "is_project" = Some (VBool true).
Proof.
  unfold _proj_model, bind, ret.
  destruct (super_dir_model p c st) as [[m0| |] st0]; intros E;
    inversion E; subst.
  apply lookup_insert_eq.
Qed.

Lemma _dir_model_unflagged : unflagged _dir_model.
Proof.
  intros p c st m st'. unfold _dir_model, bind, catch.
  destruct (super_dir_model p c st) as [[m0| |] st0]; try discriminate.
  assert (forall m1, m1 = <[ "is_project" := VBool false ]> m0 \/
            (exists q, m1 = <[ "project" := VStr q ]>
                             (<[ "is_project" := VBool false ]> m0)) ->
          m1 !! "is_project" <> Some (VBool true)) as Hok.
  { intros m1 [-> | [q ->]].
    - rewrite lookup_insert_eq. discriminate.
    - rewrite lookup_insert_ne by discriminate.
      rewrite lookup_insert_eq. discriminate. }
  destruct (_get_project_path p st0) as [[[q|]| e |] st1]; cbn.
  - destruct (negb (String.eqb q "")); unfold ret; intros E; inversion E;
      subst; apply Hok; eauto.
  - unfold ret; intros E; inversion E; subst; apply Hok; eauto.
  - destruct e; unfold ret, raise; intros E; inversion E; subst;
      apply Hok; eauto.
  - discriminate.
Qed.

(** C1, as the code has it.  On an existing path, [get] classifies: a
    directory that directly holds the sentinel file gets the inherited
    directory model with [is_project] set to [True], or HTTP 400 ("... is a
    project, not a ...") when a type other than [None], ['project'] or
    ['directory'] is asked for; every other path gets the model of the
    inherited [get]; so a model returned has [is_project = True] exactly
    for a project.  The path is looked at in the state [st1] that [get]
    works in: the starting state, but for a projects root that is no
    directory, which [get] first creates with the inherited [_mkdir].  When
    that [_mkdir] raises, [get] raises with it. *)
Theorem get_classifies_existing (st st1 : St) (path : string) (content : bool)
    (type format : option string) :
  parent_get_keeps_unflagged ->
  exists_ (strip_slash path) st = true ->
  ((((strip_slash path <> folder
      \/ _is_dir (_get_os_path (strip_slash path)) st = true) /\ st1 = st)
    \/ (strip_slash path = folder
        /\ _is_dir (_get_os_path folder) st = false
        /\ _mkdir (_get_os_path folder) st = (Returns tt, st1))) ->
   (is_project_dir (strip_slash path) st1 = true ->
      ((type = None \/ type = Some "project" \/ type = Some "directory") ->
         get path content type format st
         = bind (super_dir_model (strip_slash path) content)
             (fun m => ret (<[ "is_project" := VBool true ]> m)) st1)
      /\ (forall t,
            type = Some t -> t <> "project" -> t <> "directory" ->
            get path content type format st
            = (Raises (HTTPError 400
                         (strip_slash path +:+ " is a project, not a " +:+ t)
                         (Some "bad type")), st1)))
   /\ (is_project_dir (strip_slash path) st1 = false ->
        get path content type format st
        = super_get _dir_model (strip_slash path) content type format st1)
   /\ (forall m st',
        get path content type format st = (Returns m, st') ->
        (m !! "is_project" = Some (VBool true)
         <-> is_project_dir (strip_slash path) st1 = true)))
  /\ (forall e st2,
       strip_slash path = folder ->
       _is_dir (_get_os_path folder) st = false ->
       _mkdir (_get_os_path folder) st = (Raises e, st2) ->
       get path content type format st = (Raises e, st2)).
Proof.
  intros Hparent Hex. split.
  - intros Hwhere.
    assert (root_ready (strip_slash path) st st1) as Hready.
    { unfold root_ready.
      destruct Hwhere as [[[Hne | Hd] ->] | (Hroot & Hd & Hmk)].
      - apply String.eqb_neq in Hne. now rewrite Hne.
      - now rewrite Hd, andb_false_r.
      - now rewrite Hroot, String.eqb_refl, Hd. }
    pose proof (get_after_root_check st st1 path content type format
                  (or_intror Hex) Hready) as Hget.
    split; [| split].
    + intros Hp. split.
      * intros Hty. rewrite Hget, Hp.
        now destruct Hty as [-> | [-> | ->]].
      * intros t -> Hnp Hnd. rewrite Hget, Hp.
        apply String.eqb_neq in Hnp, Hnd. cbn. now rewrite Hnp, Hnd.
    + intros Hno. now rewrite Hget, Hno.
    + intros m st' Hm. rewrite Hget in Hm. split.
      * intros Hflag.
        destruct (is_project_dir (strip_slash path) st1); [reflexivity |].
        now apply (Hparent _ _dir_model_unflagged type format) in Hm.
      * intros Hp. rewrite Hp in Hm.
        destruct (not_a_project_type type); [discriminate |].
        now apply _proj_model_flagged in Hm.
  - intros e st2 Hroot Hd Hmk. unfold get, bind, gets. cbn beta zeta.
    rewrite Hroot, String.eqb_refl. cbn [negb andb].
    rewrite Hd. cbn [negb andb]. now rewrite Hmk.
Qed.




End Get.

Section Save.

Context {St : Type} {H : Host St}.
Local Open Scope py_scope.

Local Abbreviation root := (root_dir traits).
Local Abbreviation folder := (swan_default_folder traits).
Local Abbreviation file := (swan_default_file traits).

Lemma root_slash_nonempty (rest : string) : root +:+ "/" +:+ rest <> "".
Proof. destruct root; discriminate. Qed.

(** Below the root directory, the components [_is_swan_root_folder] and
    [_get_project_path] look at are those of the path relative to it. *)
Lemma folders_below_root_under (rel : string) :
  folders_below_root (root +:+ "/" +:+ rel) = split "/" rel.
Proof.
  unfold folders_below_root.
  replace (root +:+ "/" +:+ rel) with ((root +:+ "/") +:+ rel)
    by apply append_assoc.
  rewrite replace_first_prefix; [reflexivity | apply root_slash_nonempty].
Qed.

(** Below the projects folder, the restricted-name test looks at the
    components that follow it. *)
Lemma contains_swan_folder_name_under (rest : string) :
  _contains_swan_folder_name (root +:+ "/" +:+ folder +:+ "/" +:+ rest)
  = existsb (fun f => String.eqb f folder) (split "/" rest).
Proof.
  unfold _contains_swan_folder_name.
  replace (root +:+ "/" +:+ folder +:+ "/" +:+ rest)
    with ((root +:+ "/" +:+ folder +:+ "/") +:+ rest)
    by now rewrite !append_assoc.
  rewrite replace_first_prefix; [reflexivity | apply root_slash_nonempty].
Qed.

(** Where the projects-folder prefix does not occur at all, the test looks
    at every component of the path. *)
Lemma contains_swan_folder_name_elsewhere (os_path : string) :
  occurs (root +:+ "/" +:+ folder +:+ "/") os_path = false ->
  _contains_swan_folder_name os_path
  = existsb (fun f => String.eqb f folder) (split "/" os_path).
Proof.
  intros Ho. unfold _contains_swan_folder_name.
  now rewrite replace_absent by (try apply root_slash_nonempty; assumption).
Qed.

Lemma existsb_component (l : list string) :
  In folder l -> existsb (fun f => String.eqb f folder) l = true.
Proof.
  intros Hin. apply existsb_exists. exists folder.
  split; [assumption | apply String.eqb_refl].
Qed.

Lemma is_swan_root_folder_below (rel : string) :
  _is_swan_root_folder (root +:+ "/" +:+ rel) = true ->
  one_level_below_projects (root +:+ "/" +:+ rel).
Proof.
  unfold _is_swan_root_folder. rewrite folders_below_root_under.
  destruct (split "/" rel) as [|f0 [|f1 [|f2 l]]] eqn:Hs; try discriminate.
  intros Hf. apply String.eqb_eq in Hf. subst f0.
  apply split_two in Hs as (-> & _ & Hname).
  now exists f1.
Qed.

Lemma one_level_below_is_swan_root_folder (name : string) :
  has_char "/" folder = false -> has_char "/" name = false ->
  _is_swan_root_folder (root +:+ "/" +:+ folder +:+ "/" +:+ name) = true.
Proof.
  intros Hf Hn. unfold _is_swan_root_folder.
  rewrite folders_below_root_under.
  change (folder +:+ "/" +:+ name) with (folder +:+ String "/" name).
  rewrite split_append, split_plain by assumption.
  apply String.eqb_refl.
Qed.

(** [save] once the pre-save hook has returned and the type is known. *)
Lemma save_after_hook (st st0 : St) (m m' : model) (path : string)
    (ty : value) :
  has_chunk m = false ->
  run_pre_save_hook m (strip_slash path) st = (Returns m', st0) ->
  m' !! "type" = Some ty ->
  save m path st =
    (if negb (has_key m' "content")
        && negb (value_eqb ty (VStr "directory"))
        && negb (value_eqb ty (VStr "project"))
     then raise (HTTPError 400 "No file content provided" None)
     else if _contains_swan_folder_name (_get_os_path (strip_slash path))
     then raise (HTTPError 400
                   ("The name " +:+ folder +:+ " is restricted") None)
     else
       bind
         (catch (save_by_type ty (_get_os_path (strip_slash path)) m'
                   (strip_slash path))
                (fun e => raise (as_500 (strip_slash path) e)))
         (save_finish ty (_get_os_path (strip_slash path)) m'
            (strip_slash path))) st0.
Proof.
  intros Hc Hh Ht. unfold save. rewrite Hc.
  unfold bind at 1. rewrite Hh, Ht. reflexivity.
Qed.

Lemma save_by_type_routine (t os_path : string) (m : model) (path : string)
    (r : M St model) :
  save_routine t os_path m path = Some r ->
  (t = "project" -> _is_swan_root_folder os_path = true) ->
  save_by_type (VStr t) os_path m path = r.
Proof.
  unfold save_routine, save_by_type. cbn [value_eqb].
  destruct (String.eqb t "project") eqn:Ep.
  - apply String.eqb_eq in Ep. intros E Hroot. rewrite (Hroot Ep).
    now inversion E.
  - intros E _.
    destruct (String.eqb t "notebook"); [now inversion E |].
    destruct (String.eqb t "file"); [now inversion E |].
    destruct (String.eqb t "directory"); [now inversion E | discriminate].
Qed.

Lemma save_by_type_unknown (ty : value) (os_path : string) (m : model)
    (path : string) :
  (forall t, ty = VStr t -> save_routine t os_path m path = None) ->
  save_by_type ty os_path m path
  = raise (HTTPError 400 ("Unhandled contents type: " +:+ value_str ty) None).
Proof.
  intros Hno. destruct ty as [| b | n | t | d]; try reflexivity.
  specialize (Hno t eq_refl). unfold save_routine in Hno.
  unfold save_by_type. cbn [value_eqb].
  destruct (String.eqb t "project"); [discriminate |].
  destruct (String.eqb t "notebook"); [discriminate |].
  destruct (String.eqb t "file"); [discriminate |].
  destruct (String.eqb t "directory"); [discriminate | reflexivity].
Qed.

Lemma save_routine_known (t os_path : string) (m : model) (path : string)
    (r : M St model) :
  save_routine t os_path m path = Some r ->
  t = "project" \/ t = "notebook" \/ t = "file" \/ t = "directory".
Proof.
  unfold save_routine.
  destruct (String.eqb t "project") eqn:E1;
    [apply String.eqb_eq in E1; auto |].
  destruct (String.eqb t "notebook") eqn:E2;
    [apply String.eqb_eq in E2; auto |].
  destruct (String.eqb t "file") eqn:E3;
    [apply String.eqb_eq in E3; auto |].
  destruct (String.eqb t "directory") eqn:E4;
    [apply String.eqb_eq in E4; auto | discriminate].
Qed.

(** [save] on a recognised type whose guards pass: the routine runs under
    the handler that turns other failures into HTTP 500. *)
Lemma save_runs_routine (st st0 : St) (m m' : model) (path t : string)
    (r : M St model) :
  has_chunk m = false ->
  run_pre_save_hook m (strip_slash path) st = (Returns m', st0) ->
  m' !! "type" = Some (VStr t) ->
  save_routine t (_get_os_path (strip_slash path)) m' (strip_slash path)
  = Some r ->
  (has_key m' "content" = true \/ t = "directory" \/ t = "project") ->
  _contains_swan_folder_name (_get_os_path (strip_slash path)) = false ->
  (t = "project" ->
   _is_swan_root_folder (_get_os_path (strip_slash path)) = true) ->
  save m path st
  = bind (catch r (fun e => raise (as_500 (strip_slash path) e)))
         (save_finish (VStr t) (_get_os_path (strip_slash path)) m'
            (strip_slash path)) st0.
Proof.
  intros Hc Hh Ht Hr Hcontent Hname Hroot.
  rewrite (save_after_hook st st0 m m' path (VStr t)) by assumption.
  assert (negb (has_key m' "content")
          && negb (value_eqb (VStr t) (VStr "directory"))
          && negb (value_eqb (VStr t) (VStr "project")) = false) as ->.
  { cbn [value_eqb].
    destruct Hcontent as [-> | [-> | ->]]; cbn;
      rewrite ?andb_false_r; reflexivity. }
  rewrite Hname.
  now rewrite (save_by_type_routine t _ m' _ r Hr Hroot).
Qed.

Lemma existsb_no_component (l : list string) :
  ~ In folder l -> existsb (fun f => String.eqb f folder) l = false.
Proof.
  intros Hno. destruct (existsb _ l) eqn:E; [| reflexivity].
  apply existsb_exists in E as (x & Hin & Hx).
  apply String.eqb_eq in Hx. now subst.
Qed.

(** On the paths of [tested_names] the restricted-name test is about those
    names. *)
Lemma contains_swan_folder_name_names (os_path : string)
    (names : list string) :
  tested_names os_path names ->
  _contains_swan_folder_name os_path
  = existsb (fun f => String.eqb f folder) names.
Proof.
  intros [rest -> | Ho].
  - apply contains_swan_folder_name_under.
  - now apply contains_swan_folder_name_elsewhere.
Qed.

Lemma content_guard_passes (m : model) (ty : value) :
  has_key m "content" = true \/ ty = VStr "directory" \/ ty = VStr "project" ->
  negb (has_key m "content")
  && negb (value_eqb ty (VStr "directory"))
  && negb (value_eqb ty (VStr "project")) = false.
Proof.
  intros [-> | [-> | ->]]; cbn; rewrite ?andb_false_r; reflexivity.
Qed.

(** C2, as the code has it.  For a model without a chunk, once the
    pre-save hook has returned: no ['type'] is HTTP 400; no ['content']
    with a type other than ['directory'] and ['project'] is HTTP 400; a type
    with no save routine is HTTP 400.  On an OS path [root_dir/folder/rest],
    or one in which [root_dir/folder/] does not occur, a model that has its
    content is refused with HTTP 400 when a component (of [rest], or of the
    whole path) is the folder name; and a ['project'] whose OS path
    [root_dir/rel] is not exactly one level below the projects folder is
    refused with HTTP 400.  Otherwise, for a type with a save routine -- a
    ['project'] being at [root_dir/folder/name] -- [save] runs that
    routine: an HTTP error of the routine is passed on, any other failure
    becomes HTTP 500 with the path and the text of the failure, and on
    return [save] answers with [get(path, content=False)] through the
    post-save hook (for a notebook, with the validation message added). *)
Theorem save_dispatch (st st0 : St) (m m' : model) (path : string) :
  has_chunk m = false ->
  run_pre_save_hook m (strip_slash path) st = (Returns m', st0) ->
  (m' !! "type" = None ->
     save m path st
     = (Raises (HTTPError 400 "No file type provided" None), st0))
  /\ (forall ty,
       m' !! "type" = Some ty -> m' !! "content" = None ->
       ty <> VStr "directory" -> ty <> VStr "project" ->
       save m path st
       = (Raises (HTTPError 400 "No file content provided" None), st0))
  /\ (forall ty,
       m' !! "type" = Some ty ->
       (forall t, ty = VStr t ->
          t <> "project" /\ t <> "notebook" /\ t <> "file"
          /\ t <> "directory") ->
       exists msg,
         save m path st = (Raises (HTTPError 400 msg None), st0))
  /\ (forall ty names,
       m' !! "type" = Some ty ->
       (has_key m' "content" = true \/ ty = VStr "directory"
        \/ ty = VStr "project") ->
       tested_names (_get_os_path (strip_slash path)) names ->
       In folder names ->
       save m path st
       = (Raises (HTTPError 400
                    ("The name " +:+ folder +:+ " is restricted") None),
          st0))
  /\ (forall names rel,
       m' !! "type" = Some (VStr "project") ->
       tested_names (_get_os_path (strip_slash path)) names ->
       ~ In folder names ->
       _get_os_path (strip_slash path) = root +:+ "/" +:+ rel ->
       ~ one_level_below_projects (root +:+ "/" +:+ rel) ->
       save m path st
       = (Raises (HTTPError 400
                    "You can only create projects inside Swan Projects" None),
          st0))
  /\ (forall t r names,
       m' !! "type" = Some (VStr t) ->
       save_routine t (_get_os_path (strip_slash path)) m' (strip_slash path)
       = Some r ->
       (has_key m' "content" = true \/ t = "directory" \/ t = "project") ->
       tested_names (_get_os_path (strip_slash path)) names ->
       ~ In folder names ->
       (t = "project" ->
        has_char "/" folder = false
        /\ exists name,
             _get_os_path (strip_slash path)
             = root +:+ "/" +:+ folder +:+ "/" +:+ name
             /\ has_char "/" name = false) ->
       (forall status msg reason st1,
          r st0 = (Raises (HTTPError status msg reason), st1) ->
          save m path st = (Raises (HTTPError status msg reason), st1))
       /\ (forall e st1,
            r st0 = (Raises e, st1) -> is_http e = false ->
            save m path st
            = (Raises (HTTPError 500
                         ("Unexpected error while saving file: "
                          +:+ strip_slash path +:+ " " +:+ exn_str e) None),
               st1))
       /\ (forall ve st1,
            r st0 = (Returns ve, st1) -> t <> "notebook" ->
            save m path st
            = bind (get (strip_slash path) false None None)
                   (fun saved =>
                      run_post_save_hook saved
                        (_get_os_path (strip_slash path))) st1)
       /\ (forall ve st1 m2 st2,
            r st0 = (Returns ve, st1) -> t = "notebook" ->
            validate_notebook_model m' ve st1 = (Returns m2, st2) ->
            save m path st
            = bind (get (strip_slash path) false None None)
                   (fun saved =>
                      run_post_save_hook
                        (if truthy (default VNone (m2 !! "message"))
                         then <[ "message"
                                 := default VNone (m2 !! "message") ]> saved
                         else saved)
                        (_get_os_path (strip_slash path))) st2)).
Proof.
  intros Hc Hh. split; [| split; [| split; [| split; [| split]]]].
  - intros Ht. unfold save. rewrite Hc. unfold bind at 1.
    now rewrite Hh, Ht.
  - intros ty Ht Hcontent Hd Hp.
    rewrite (save_after_hook st st0 m m' path ty) by assumption.
    unfold has_key. rewrite Hcontent.
    assert (value_eqb ty (VStr "directory") = false) as ->.
    { destruct ty as [| | | t |]; try reflexivity. cbn.
      apply String.eqb_neq. congruence. }
    assert (value_eqb ty (VStr "project") = false) as ->.
    { destruct ty as [| | | t |]; try reflexivity. cbn.
      apply String.eqb_neq. congruence. }
    reflexivity.
  - intros ty Ht Hno.
    rewrite (save_after_hook st st0 m m' path ty) by assumption.
    destruct (_ && _); [eexists; reflexivity |].
    destruct (_contains_swan_folder_name _); [eexists; reflexivity |].
    rewrite save_by_type_unknown; [eexists; reflexivity |].
    intros t ->. destruct (Hno t eq_refl) as (H1 & H2 & H3 & H4).
    unfold save_routine.
    apply String.eqb_neq in H1, H2, H3, H4. now rewrite H1, H2, H3, H4.
  - intros ty names Ht Hcontent Hnames Hin.
    rewrite (save_after_hook st st0 m m' path ty) by assumption.
    rewrite content_guard_passes by assumption.
    rewrite (contains_swan_folder_name_names _ _ Hnames).
    now rewrite existsb_component.
  - intros names rel Ht Hnames Hno Hos Hnot.
    rewrite (save_after_hook st st0 m m' path (VStr "project"))
      by assumption.
    rewrite content_guard_passes by auto.
    rewrite (contains_swan_folder_name_names _ _ Hnames).
    rewrite existsb_no_component by assumption.
    rewrite Hos. unfold save_by_type. cbn [value_eqb].
    rewrite (String.eqb_refl "project").
    destruct (_is_swan_root_folder (root +:+ "/" +:+ rel)) eqn:Hr.
    + apply is_swan_root_folder_below in Hr. contradiction.
    + reflexivity.
  - intros t r names Ht Hr Hcontent Hnames Hno Hproj.
    assert (save m path st
            = bind (catch r (fun e => raise (as_500 (strip_slash path) e)))
                (save_finish (VStr t) (_get_os_path (strip_slash path)) m'
                   (strip_slash path)) st0) as Hsave.
    { apply (save_runs_routine st st0 m m' path t r Hc Hh Ht Hr Hcontent).
      - rewrite (contains_swan_folder_name_names _ _ Hnames).
        now apply existsb_no_component.
      - intros Hp. destruct (Hproj Hp) as (Hf & name & -> & Hn).
        now apply one_level_below_is_swan_root_folder. }
    repeat apply conj.
    + intros status msg reason st1 Hrun. rewrite Hsave.
      unfold bind, catch, raise. now rewrite Hrun.
    + intros e st1 Hrun He. rewrite Hsave. unfold bind, catch, raise.
      rewrite Hrun. destruct e; try discriminate; reflexivity.
    + intros ve st1 Hrun Hnb. rewrite Hsave.
      unfold bind at 1. unfold catch. rewrite Hrun.
      unfold save_finish. cbn [value_eqb].
      apply String.eqb_neq in Hnb. rewrite Hnb.
      unfold bind at 1. unfold ret at 1. cbn [truthy]. reflexivity.
    + intros ve st1 m2 st2 Hrun -> Hval. rewrite Hsave.
      unfold bind at 1. unfold catch. rewrite Hrun.
      unfold save_finish. cbn [value_eqb String.eqb Ascii.eqb Bool.eqb].
      unfold bind at 1. unfold bind at 1. rewrite Hval.
      unfold ret at 1. reflexivity.
Qed.



(** C9, as the code has it.  An OS path [root_dir/folder/rest] with a
    component of [rest] equal to the folder name, and an OS path in which
    [root_dir/folder/] does not occur with any component equal to it, fail
    the restricted-name test; on such a path [save] of a model without a
    chunk raises HTTP 400 once the pre-save hook has returned and before
    any save routine runs, and [update] raises HTTP 400 at once, before the
    inherited [update]. *)
Theorem restricted_name_refused :
  (forall rest,
     In folder (split "/" rest) ->
     _contains_swan_folder_name (root +:+ "/" +:+ folder +:+ "/" +:+ rest)
     = true)
  /\ (forall os_path,
       occurs (root +:+ "/" +:+ folder +:+ "/") os_path = false ->
       In folder (split "/" os_path) ->
       _contains_swan_folder_name os_path = true)
  /\ (forall (st st0 : St) (m m' : model) (path : string) names,
       tested_names (_get_os_path (strip_slash path)) names ->
       In folder names ->
       has_chunk m = false ->
       run_pre_save_hook m (strip_slash path) st = (Returns m', st0) ->
       exists msg,
         save m path st = (Raises (HTTPError 400 msg None), st0))
  /\ (forall (st : St) (m : model) (path : string) names,
       tested_names (_get_os_path path) names ->
       In folder names ->
       update m path st
       = (Raises (HTTPError 400
                    ("The name " +:+ folder +:+ " is restricted") None),
          st)).
Proof.
  split; [| split; [| split]].
  - intros rest Hin. rewrite contains_swan_folder_name_under.
    now apply existsb_component.
  - intros os_path Ho Hin.
    rewrite contains_swan_folder_name_elsewhere by assumption.
    now apply existsb_component.
  - intros st st0 m m' path names Hnames Hin Hc Hh.
    assert (_contains_swan_folder_name (_get_os_path (strip_slash path))
            = true) as Hname
      by (rewrite (contains_swan_folder_name_names _ _ Hnames);
          now apply existsb_component).
    destruct (m' !! "type") as [ty|] eqn:Ht.
    + rewrite (save_after_hook st st0 m m' path ty) by assumption.
      rewrite Hname. destruct (_ && _); eexists; reflexivity.
    + unfold save. rewrite Hc. unfold bind at 1. rewrite Hh, Ht.
      eexists. reflexivity.
  - intros st m path names Hnames Hin. unfold update.
    rewrite (contains_swan_folder_name_names _ _ Hnames).
    now rewrite existsb_component.
Qed.

End Save.

Section Download.

Context {St : Type} {H : Host St}.
Local Open Scope py_scope.

Local Abbreviation root := (root_dir traits).
Local Abbreviation folder := (swan_default_folder traits).
Local Abbreviation file := (swan_default_file traits).

Lemma free_count_sound (fuel : nat) (dest : string) (count c : nat) (st : St) :
  free_count fuel dest count st = Some c ->
  count <= c /\ _is_dir (dest +:+ pretty c) st = false.
Proof.
  revert count. induction fuel as [|fuel IH]; intros count; [discriminate |].
  cbn [free_count]. destruct (_is_dir (dest +:+ pretty count) st) eqn:Hd.
  - intros Hc. apply IH in Hc as [Hle Hfree]. split; [lia | assumption].
  - intros E. inversion E; subst. split; [lia | assumption].
Qed.

(** The search for a free name ends as soon as one of the first [fuel]
    candidates is free. *)
Lemma free_count_complete (fuel : nat) (dest : string) (count k : nat)
    (st : St) :
  _is_dir (dest +:+ pretty (count + k)) st = false -> k < fuel ->
  exists c, free_count fuel dest count st = Some c.
Proof.
  revert count k. induction fuel as [|fuel IH]; intros count k Hfree Hk;
    [lia |].
  cbn [free_count]. destruct (_is_dir (dest +:+ pretty count) st) eqn:Hd;
    [| eauto].
  destruct k as [|k].
  - rewrite Nat.add_0_r in Hfree. congruence.
  - apply (IH (S count) k); [| lia].
    now replace (S count + k) with (count + S k) by lia.
Qed.

Lemma fresh_dest_spec (fuel : nat) (dest d : string) (st st' : St) :
  fresh_dest fuel dest st = (Returns d, st') ->
  st' = st /\ _is_dir d st = false
  /\ (d = dest \/ exists c, 1 <= c /\ d = dest +:+ pretty c).
Proof.
  unfold fresh_dest. destruct (_is_dir dest st) eqn:Hd.
  - destruct (free_count fuel dest 1 st) as [c|] eqn:Hc; [| discriminate].
    intros E. inversion E; subst.
    apply free_count_sound in Hc as [Hle Hfree]. eauto 6.
  - intros E. inversion E; subst. auto.
Qed.

(** With a free candidate among the first [fuel], the search ends. *)
Lemma fresh_dest_returns (fuel : nat) (dest : string) (k : nat) (st : St) :
  _is_dir (dest +:+ pretty (1 + k)) st = false -> k < fuel ->
  exists d, fresh_dest fuel dest st = (Returns d, st).
Proof.
  intros Hfree Hk. unfold fresh_dest.
  destruct (_is_dir dest st); [| eauto].
  destruct (free_count_complete fuel dest 1 k st Hfree Hk) as [c ->]. eauto.
Qed.



Lemma move_folder_inv (fuel : nat) (origin dest d : string) (preserve : bool)
    (st st' : St) :
  move_folder fuel origin dest preserve st = (Returns d, st') ->
  exists st1,
    fresh_dest fuel dest st = (Returns d, st)
    /\ _move origin d preserve st = (Returns tt, st1)
    /\ _save_file (path_join d file) (VStr "") (VStr "text") st1
       = (Returns tt, st').
Proof.
  unfold move_folder. intros Hm.
  apply PyFacts.bind_inv in Hm as (d0 & st0 & Hfresh & Hm).
  pose proof (fresh_dest_spec _ _ _ _ _ Hfresh) as (-> & _).
  apply PyFacts.bind_inv in Hm as ([] & st1 & Hmove & Hm).
  apply PyFacts.bind_inv in Hm as ([] & st2 & Hsave & Hm).
  inversion Hm; subst. eauto.
Qed.


Lemma relativise_import_model (type path : string) (st : St) :
  relativise (import_model type path) st
  = (Returns (import_model type (relative_path path)), st).
Proof.
  unfold relativise, import_model. rewrite lookup_insert_eq.
  unfold ret. now rewrite insert_insert_eq.
Qed.

Lemma download_branch (fuel : nat) (url tmp : string) (st st1 : St) :
  mkdtemp st = (Returns tmp, st1) ->
  download fuel url st =
    bind (match classify url with
          | GitUrl => download_git fuel url tmp
          | EosUrl => download_eos fuel url tmp
          | LocalUrl => download_local fuel url tmp
          | HttpUrl => download_http fuel url tmp
          end) relativise st1.
Proof.
  intros Hmk. unfold download. rewrite (PyFacts.bind_returns _ _ _ _ _ Hmk).
  unfold classify. destruct (endswith url ".git"); [reflexivity |].
  destruct (is_file_on_eos url); [reflexivity |].
  destruct (startswith url "local:"); reflexivity.
Qed.


(** Where the import lands: [root_dir/SWAN_projects/name]. *)
Lemma import_dest_plain (name : string) :
  root <> "" -> endswith root "/" = false ->
  folder <> "" -> has_char "/" folder = false ->
  startswith name "/" = false ->
  import_dest name = root +:+ "/" +:+ folder +:+ "/" +:+ name.
Proof.
  intros Hr Hre Hf Hfs Hn. unfold import_dest, path_join3.
  rewrite (path_join_plain root folder) by
    (try apply startswith_has_char; assumption).
  rewrite path_join_plain; [now rewrite !append_assoc | | | assumption].
  - destruct root; [congruence | discriminate].
  - change (root +:+ "/" +:+ folder) with (root +:+ String "/" folder).
    rewrite endswith_append by discriminate.
    rewrite endswith_cons by assumption.
    now apply endswith_has_char.
Qed.

(** The last line of [download] on a path below the projects folder. *)
Lemma relative_path_under_projects (rest : string) :
  root <> "" -> folder <> "" -> has_char "/" folder = false ->
  occurs root ("/" +:+ folder +:+ "/" +:+ rest) = false ->
  rstrip is_slash rest <> "" ->
  relative_path (root +:+ "/" +:+ folder +:+ "/" +:+ rest)
  = folder +:+ "/" +:+ rstrip is_slash rest.
Proof.
  intros Hr Hf Hfs Ho Hrest. unfold relative_path.
  rewrite replace_all_prefix by assumption.
  rewrite replace_absent by assumption.
  unfold strip_slash, strip.
  change ("/" +:+ folder +:+ "/" +:+ rest)
    with (String "/" (folder +:+ "/" +:+ rest)).
  cbn [lstrip]. change (is_slash "/") with true. cbn iota.
  destruct folder as [|x f] eqn:Ef; [congruence |].
  cbn [has_char] in Hfs. apply orb_false_iff in Hfs as [Hx Hfs].
  cbn [append]. rewrite lstrip_fixed by exact Hx.
  assert (rstrip is_slash (String "/" rest)
          = String "/" (rstrip is_slash rest)) as Hs
    by now apply rstrip_keeps.
  assert (rstrip is_slash (f +:+ String "/" rest)
          = f +:+ String "/" (rstrip is_slash rest)) as Hfr
    by (rewrite rstrip_append; rewrite Hs; [reflexivity | discriminate]).
  change (f +:+ "/" +:+ rest) with (f +:+ String "/" rest).
  rewrite rstrip_keeps; rewrite Hfr; [reflexivity |].
  destruct f; discriminate.
Qed.


End Download.

End ContentsProps.

(** ** Properties of the kernel extension *)

Module ConnectorProps.
Import Py PyFacts Connector.
Local Open Scope py_scope.

Ltac total_step :=
  first
    [ apply total_ret | apply total_raise | apply total_gets
    | apply total_modify
    | apply total_bind; [| intros ?]
    | apply total_catch; [| intros ?] ].

Lemma configure_options_total (K : Kernel) (opts : list (string * string))
    (j p : string) : total (configure_options K opts j p).
Proof.
  revert j p. induction opts as [|[name value] rest IH]; intros j p;
    cbn [configure_options]; [apply total_ret |].
  destruct (format_value K value); [apply total_raise |].
  repeat (destruct (String.eqb name _); [apply IH |]).
  apply total_bind; [apply total_modify | intros _; apply IH].
Qed.

(** [configure] has no loop but the one over the options. *)
Lemma configure_total (K : Kernel) (log4j : string) (opts : data) :
  total (configure K log4j opts).
Proof.
  unfold configure, conf_set, conf_get.
  repeat first
    [ total_step
    | apply configure_options_total
    | match goal with
      | |- total (match ?x with _ => _ end) => destruct x
      | |- total (if ?x then _ else _) => destruct x
      end ].
Qed.

Lemma add_events_add (a b : list event) (st : kstate) :
  add_events b (add_events a st) = add_events (a ++ b) st.
Proof. unfold add_events. cbn. now rewrite app_assoc. Qed.

Lemma new_events_add (evs : list event) (st : kstate) :
  new_events st (add_events evs st) = evs.
Proof. unfold new_events, add_events. cbn. apply drop_app_length. Qed.

Lemma add_events_nil (st : kstate) : add_events [] st = st.
Proof. destruct st. unfold add_events. cbn. now rewrite app_nil_r. Qed.

Lemma new_events_app (st st' : kstate) (evs : list event) :
  trace st' = trace st ++ evs -> new_events st st' = evs.
Proof. intros E. unfold new_events. rewrite E. apply drop_app_length. Qed.

(** Closes the goals left once a handler has been run on a symbolic state:
    traces only grow, and the namespace changes under one name at most. *)
Ltac frame :=
  repeat split; eauto;
  try (cbn [trace add_events]; rewrite <- ?app_assoc; reflexivity);
  try (intros; cbn [user_ns add_events];
       rewrite ?lookup_insert_ne by congruence; reflexivity).

Lemma quiet_nil : quiet [].
Proof. split; reflexivity. Qed.

Lemma quiet_app (a b : list event) : quiet a -> quiet b -> quiet (a ++ b).
Proof.
  unfold quiet, sent_messages, pushed. intros [Ha1 Ha2] [Hb1 Hb2].
  rewrite !flat_map_app. now rewrite Ha1, Ha2, Hb1, Hb2.
Qed.

Lemma sent_after_quiet (pre evs : list event) :
  quiet pre -> sent_messages (pre ++ evs) = sent_messages evs.
Proof.
  unfold quiet, sent_messages. intros [Hs _].
  now rewrite flat_map_app, Hs.
Qed.

Lemma pushed_after_quiet (pre evs : list event) :
  quiet pre -> pushed (pre ++ evs) = pushed evs.
Proof.
  unfold quiet, pushed. intros [_ Hp].
  now rewrite flat_map_app, Hp.
Qed.

(** How [open_session] can end: with the session pushed and the flag set,
    or with the exception of a failed step and the flag untouched. *)
Lemma open_session_result (K : Kernel) (opts : data) (shared : bool)
    (c : conf) (st : kstate) :
  match open_session K opts shared c st with
  | (Returns _, st') =>
      connected st' = true
      /\ fst (configure K (log4j_file st) opts c) = Returns tt
      /\ exists sc spark,
           spark_context K (snd (configure K (log4j_file st) opts c)) = inr sc
           /\ spark_session K sc = inr spark
           /\ trace st'
              = trace st
                ++ session_events (snd (configure K (log4j_file st) opts c))
                     sc spark
  | (Raises e, st') =>
      failed_quietly st st'
      /\ session_fails K (log4j_file st) opts c (exn_str e)
  | (OutOfFuel, _) => False
  end.
Proof.
  unfold open_session, failed_quietly. rewrite bind_gets.
  pose proof (configure_total K (log4j_file st) opts c) as Ht.
  pose proof (fails_configure K (log4j_file st) opts c) as Hf1.
  pose proof (fails_context K (log4j_file st) opts c) as Hf2.
  pose proof (fails_session K (log4j_file st) opts c) as Hf3.
  destruct (configure K (log4j_file st) opts c) as [[[]| e |] c'];
    cbn [fst snd] in *; [| | congruence].
  - unfold bind, gets, set_user_ns, modify, emit, modify, push, send_ok,
      send, emit, modify, set_connected, ret, raise.
    destruct shared; cbn -[insert];
      (destruct (spark_context K c') as [err|sc] eqn:Hsc; cbn -[insert];
       [| destruct (spark_session K sc) as [err|spark] eqn:Hss;
          cbn -[insert]]).
    all: try (split; [reflexivity |]; split; [reflexivity |];
              exists sc, spark; frame).
    all: split; [| eauto]; split; [reflexivity |]; split;
      [eexists; split; [cbn [trace add_events]; rewrite <- ?app_assoc;
                        reflexivity | split; reflexivity] | frame].
  - unfold bind, gets, set_user_ns, modify, ret, raise.
    destruct shared; cbn -[insert];
      (split; [| eauto]; split; [reflexivity |]; split;
       [exists []; rewrite app_nil_r; split; [reflexivity | apply quiet_nil]
       | frame]).
Qed.

Lemma open_session_post (K : Kernel) (msg : data) (shared : bool) (c : conf)
    (pre : list event) (st : kstate) :
  chosen_conf st = Some (shared, c) -> quiet pre ->
  connect_body_post K msg st (open_session K msg shared c (add_events pre st)).
Proof.
  intros Hch Hpre.
  pose proof (open_session_result K msg shared c (add_events pre st)) as Hr.
  unfold connect_body_post, failed_quietly in *.
  destruct (open_session K msg shared c (add_events pre st))
    as [[[]| e |] st']; cbn [log4j_file add_events connected trace user_ns]
    in Hr; [| | contradiction].
  - left. destruct Hr as (Hc & Hcfg & sc & spark & Hsc & Hss & Htr).
    exists shared, c, sc, spark, pre.
    rewrite Htr, <- app_assoc. auto 10.
  - destruct Hr as ((Hc & (evs & Htr & Hq) & Hns) & Hfail).
    rewrite Hch. split; [| assumption].
    split; [assumption |]. split; [| assumption].
    exists (pre ++ evs). rewrite Htr, <- app_assoc.
    split; [reflexivity | now apply quiet_app].
Qed.

Lemma connect_body_result (K : Kernel) (msg : data) (st : kstate) :
  connect_body_post K msg st (connect_body K msg st).
Proof.
  pose proof (fun c => open_session_post K msg false c [] st) as Hnew.
  rewrite add_events_nil in Hnew.
  unfold connect_body. rewrite bind_gets.
  destruct (user_ns st !! "swan_spark_conf") as [o|] eqn:Hns;
    cbn [default from_option id].
  2: { apply Hnew; [| apply quiet_nil]. unfold chosen_conf. now rewrite Hns. }
  destruct (truthy_obj o) eqn:Ht.
  2: { apply Hnew; [| apply quiet_nil]. unfold chosen_conf. rewrite Hns, Ht.
       destruct o; try reflexivity. discriminate. }
  assert (forall text : string,
            is_spark_conf o = false ->
            connect_body_post K msg st
              (raise (PyError "AttributeError" text) st)) as Hattr.
  { intros text Hno. unfold raise, connect_body_post, failed_quietly.
    split; [| destruct (chosen_conf st) as [[]|] eqn:Hch; [| exact I]].
    - repeat split; try reflexivity. exists [].
      rewrite app_nil_r. split; [reflexivity | apply quiet_nil].
    - unfold chosen_conf in Hch. rewrite Hns, Ht in Hch.
      destruct o; discriminate. }
  destruct o as [| b | n | s | c | id | id | name truth debug];
    try (apply Hattr; reflexivity).
  - unfold bind at 1. unfold emit at 1. unfold modify.
    apply open_session_post; [| split; reflexivity].
    unfold chosen_conf. now rewrite Hns.
  - destruct debug as [text|]; [| apply Hattr; reflexivity].
    unfold bind, emit, send_error, send, emit, modify, connect_body_post.
    right. unfold chosen_conf. rewrite Hns, Ht.
    repeat split. eexists.
    split; [cbn [trace add_events]; now rewrite <- app_assoc |].
    split; reflexivity.
Qed.

Lemma session_fails_unique (K : Kernel) (log4j : string) (msg : data)
    (c : conf) (e1 e2 : string) :
  session_fails K log4j msg c e1 -> session_fails K log4j msg c e2 -> e1 = e2.
Proof.
  intros H1 H2. inversion H1; inversion H2; subst; congruence.
Qed.

Lemma session_opened_not_fails (K : Kernel) (msg : data) (st st' : kstate)
    (shared : bool) (c : conf) (error : string) :
  chosen_conf st = Some (shared, c) ->
  session_fails K (log4j_file st) msg c error ->
  session_opened K msg st st' -> False.
Proof.
  intros Hch Hfail (shared' & c' & sc & spark & pre & Hch' & _ & Hcfg & Hsc
                    & Hss & _).
  rewrite Hch in Hch'. inversion Hch'; subst.
  inversion Hfail; congruence.
Qed.

(** The probe either raises before touching anything, or reports what the
    socket answers. *)
Lemma is_port_in_use_result (K : Kernel) (st : kstate) :
  (exists e, is_port_in_use K st = (Raises e, st))
  \/ (exists s port,
        environ K !! "SPARK_PORT_1" = Some s /\ py_int K s = Some port
        /\ is_port_in_use K st
           = (Returns (host_resolves K && port_accepts K port),
              add_events [EvProbePort port] st)).
Proof.
  unfold is_port_in_use.
  destruct (environ K !! "SPARK_PORT_1") as [s|] eqn:Hs;
    [| left; eexists; reflexivity].
  destruct (py_int K s) as [port|] eqn:Hp; [| left; eexists; reflexivity].
  destruct ((port <? -2147483648)%Z || (2147483647 <? port)%Z);
    [left; eexists; reflexivity |].
  destruct (host_resolves K && ((port <? 0)%Z || (65535 <? port)%Z));
    [left; eexists; reflexivity |].
  right. exists s, port. repeat split; try assumption; reflexivity.
Qed.

Lemma is_port_in_use_probe (K : Kernel) (st : kstate) (in_use : bool) :
  port_probe K in_use ->
  exists port,
    is_port_in_use K st = (Returns in_use, add_events [EvProbePort port] st).
Proof.
  intros (s & port & Hs & Hp & Hrange & Ha). exists port.
  unfold is_port_in_use. rewrite Hs, Hp, <- Ha.
  replace ((port <? -2147483648)%Z || (2147483647 <? port)%Z) with false
    by (symmetry; apply orb_false_iff; split; apply Z.ltb_ge; lia).
  replace ((port <? 0)%Z || (65535 <? port)%Z) with false
    by (symmetry; apply orb_false_iff; split; apply Z.ltb_ge; lia).
  now rewrite andb_false_r.
Qed.

(** The connect branch, not yet connected, with the credential check
    failing: one reply on the authentication page. *)
Lemma handle_connect_no_ticket (K : Kernel) (msg : data) (st : kstate) :
  action msg = "sparkconn-action-connect" ->
  connected st = false ->
  needs_auth st = true -> klist_status K <> 0%Z ->
  handle_comm_message K msg st
  = (Returns tt,
     add_events
       [EvKlist;
        EvSend (error_message "sparkconn-auth"
                  "No valid credentials provided.")] st).
Proof.
  intros Ha Hc Hn Hk. unfold handle_comm_message. rewrite Ha.
  change (String.eqb "sparkconn-action-connect" "sparkconn-action-auth")
    with false.
  rewrite String.eqb_refl. cbn iota.
  rewrite bind_gets, Hc, bind_gets, Hn.
  apply Z.eqb_neq in Hk.
  unfold bind, emit, modify, ret, send_error, send, emit, modify.
  rewrite Hk. cbn [negb]. now rewrite add_events_add.
Qed.

(** The connect branch, not yet connected, past the credential check. *)
Lemma handle_connect_past_gate (K : Kernel) (msg : data) (st : kstate) :
  action msg = "sparkconn-action-connect" ->
  connected st = false ->
  credentials_pass K st ->
  handle_comm_message K msg st
  = bind (is_port_in_use K)
      (fun in_use =>
         if in_use then send_error "sparkconn-config" port_in_use_error
         else catch (connect_body K msg) report_failure)
      (add_events (gate_events st) st).
Proof.
  intros Ha Hc Hpass. unfold handle_comm_message. rewrite Ha.
  change (String.eqb "sparkconn-action-connect" "sparkconn-action-auth")
    with false.
  rewrite String.eqb_refl. cbn iota.
  rewrite bind_gets, Hc, bind_gets. unfold gate_events.
  destruct (needs_auth st) eqn:Hn.
  - destruct Hpass as [Hno | Hk]; [congruence |].
    unfold bind at 1. unfold bind at 1. unfold emit at 1. unfold modify.
    unfold ret at 1. rewrite Hk. reflexivity.
  - rewrite bind_ret. now rewrite add_events_nil.
Qed.

Lemma refused_after_report (st st1 st2 : kstate) (e : exn) :
  failed_quietly st st1 -> connected st = false ->
  report_failure e st1 = (Returns tt, st2) ->
  refused_on_config st st2 (exn_str e).
Proof.
  intros (Hc & (evs & Htr & Hs & Hp) & Hns) Hfalse.
  unfold report_failure, bind, send_error, send, emit, modify.
  intros E; inversion E; subst. unfold refused_on_config.
  cbn [connected add_events user_ns].
  assert (new_events st
            (add_events [EvLog "error" "Error creating Spark conf"]
               (add_events
                  [EvSend (error_message "sparkconn-config" (exn_str e))]
                  st1))
          = evs ++ [EvSend (error_message "sparkconn-config" (exn_str e));
                    EvLog "error" "Error creating Spark conf"]) as ->.
  { apply new_events_app. cbn [trace add_events].
    now rewrite Htr, <- !app_assoc. }
  unfold pushed, sent_messages in *. rewrite !flat_map_app.
  rewrite Hs, Hp. repeat split; try reflexivity; try congruence.
  assumption.
Qed.

Lemma failed_quietly_after (st : kstate) (pre : list event) (st' : kstate) :
  quiet pre -> failed_quietly (add_events pre st) st' -> failed_quietly st st'.
Proof.
  intros Hpre (Hc & (evs & Htr & Hq) & Hns). cbn in *.
  repeat split; try assumption.
  exists (pre ++ evs). rewrite Htr, <- app_assoc.
  split; [reflexivity | now apply quiet_app].
Qed.

Lemma quiet_gate_probe (st : kstate) (port : Z) :
  quiet (gate_events st ++ [EvProbePort port]).
Proof. unfold gate_events. destruct (needs_auth st); split; reflexivity. Qed.

Lemma add_gate_probe (st : kstate) (port : Z) :
  add_events [EvProbePort port] (add_events (gate_events st) st)
  = add_events (gate_events st ++ [EvProbePort port]) st.
Proof. apply add_events_add. Qed.

(** The [try] block works on the configuration object of [chosen_conf],
    after at most a warning in the log. *)
Lemma connect_body_chosen (K : Kernel) (msg : data) (shared : bool) (c : conf)
    (st : kstate) :
  chosen_conf st = Some (shared, c) ->
  exists pre,
    (pre = [] \/ exists text, pre = [EvLog "warn" text])
    /\ connect_body K msg st = open_session K msg shared c (add_events pre st).
Proof.
  unfold chosen_conf, connect_body. rewrite bind_gets.
  destruct (user_ns st !! "swan_spark_conf") as [o|];
    cbn [default from_option id].
  - destruct o as [| b | n | s | c0 | id | id | name truth debug];
      cbn [truthy_obj];
      repeat match goal with
             | |- context [if ?t then _ else _] => destruct t
             end;
      intros E; inversion E; subst;
      try (exists []; rewrite add_events_nil;
           split; [now left | reflexivity]).
    eexists. split; [right; eauto | reflexivity].
  - intros E. inversion E; subst. exists []. rewrite add_events_nil.
    split; [now left | reflexivity].
Qed.

(** When [open_session] raises, the flag is as before and the namespace
    too, but for a shared configuration object, which [configure] has
    written to. *)
Lemma open_session_raises (K : Kernel) (opts : data) (shared : bool)
    (c : conf) (st st' : kstate) (e : exn) :
  open_session K opts shared c st = (Raises e, st') ->
  connected st' = connected st
  /\ user_ns st'
     = if shared
       then <[ "swan_spark_conf"
               := OSparkConf (snd (configure K (log4j_file st) opts c)) ]>
              (user_ns st)
       else user_ns st.
Proof.
  unfold open_session. rewrite bind_gets.
  destruct (configure K (log4j_file st) opts c) as [[[]| e0 |] c'];
    cbn [fst snd];
    unfold bind, gets, set_user_ns, modify, emit, modify, push, send_ok,
      send, emit, modify, set_connected, ret, raise.
  - destruct shared; cbn -[insert];
      (destruct (spark_context K c') as [err|sc]; cbn -[insert];
       [| destruct (spark_session K sc) as [err|spark]; cbn -[insert]]);
      intros E; inversion E; subst; split; reflexivity.
  - destruct shared; cbn -[insert]; intros E; inversion E; subst;
      split; reflexivity.
  - destruct shared; cbn -[insert]; intros E; discriminate.
Qed.

(** The [try] block with its handler, when the namespace holds a true
    object that is no [SparkConf]: one error reply on the configuration
    page, whether the object has a [toDebugString] or not. *)
Lemma guarded_body_not_conf (K : Kernel) (msg : data) (st : kstate)
    (o : pyobj) :
  user_ns st !! "swan_spark_conf" = Some o ->
  truthy_obj o = true -> is_spark_conf o = false ->
  exists evs error,
    catch (connect_body K msg) report_failure st
    = (Returns tt, add_events evs st)
    /\ pushed evs = []
    /\ sent_messages evs
       = [<[ "error" := JStr error ]>
            (<[ "msgtype" := JStr "sparkconn-config" ]> ∅)]
    /\ (error = not_a_conf_error
        \/ error = "'" +:+ obj_type_name o
                   +:+ "' object has no attribute 'toDebugString'").
Proof.
  intros Hns Ht Hno. unfold catch, connect_body. rewrite bind_gets, Hns.
  cbn [default from_option id]. rewrite Ht.
  destruct o as [| b | n | s | c | id | id | name truth [text|]];
    try discriminate;
    unfold raise, report_failure, bind, send_error, send, emit, modify;
    rewrite ?add_events_add;
    eexists; eexists; (split; [reflexivity |]);
    (split; [reflexivity |]); (split; [reflexivity |]); auto.
Qed.

(** C5.  An auth message with a password runs [kinit] once on that
    password and sends one reply: [{'msgtype': 'sparkconn-config'}] when
    [kinit] exits with 0, and otherwise [{'msgtype': 'sparkconn-auth',
    'error': ...}] with the text about the password.  Nothing else of the
    state moves; the flag in particular. *)
Theorem auth_replies_once (K : Kernel) (msg : data) (pw : string)
    (st : kstate) :
  action msg = "sparkconn-action-auth" ->
  password msg = Some pw ->
  handle_comm_message K msg st
  = (Returns tt,
     add_events
       [EvKinit pw;
        EvSend
          (if Z.eqb (kinit_status K pw) 0
           then <[ "msgtype" := JStr "sparkconn-config" ]> ∅
           else <[ "error"
                   := JStr "Error obtaining the ticket. Is the password correct?" ]>
                  (<[ "msgtype" := JStr "sparkconn-auth" ]> ∅))] st)
  /\ kinit_inputs (new_events st (snd (handle_comm_message K msg st))) = [pw]
  /\ sent_messages (new_events st (snd (handle_comm_message K msg st)))
     = [if Z.eqb (kinit_status K pw) 0
        then <[ "msgtype" := JStr "sparkconn-config" ]> ∅
        else <[ "error"
                := JStr "Error obtaining the ticket. Is the password correct?" ]>
               (<[ "msgtype" := JStr "sparkconn-auth" ]> ∅)]
  /\ connected (snd (handle_comm_message K msg st)) = connected st.
Proof.
  intros Ha Hp.
  assert (handle_comm_message K msg st
          = (Returns tt,
             add_events
               [EvKinit pw;
                EvSend
                  (if Z.eqb (kinit_status K pw) 0
                   then <[ "msgtype" := JStr "sparkconn-config" ]> ∅
                   else <[ "error"
                           := JStr "Error obtaining the ticket. Is the password correct?" ]>
                          (<[ "msgtype" := JStr "sparkconn-auth" ]> ∅))] st))
    as Hrun.
  { unfold handle_comm_message. rewrite Ha, String.eqb_refl, Hp.
    unfold bind, emit, modify, send_ok, send_error, send, emit, modify.
    destruct (Z.eqb (kinit_status K pw) 0); now rewrite add_events_add. }
  rewrite Hrun. cbn [snd]. rewrite new_events_add.
  repeat split; reflexivity.
Qed.

(** C4, as the code has it.  A connect message that arrives while not
    connected, passes the credential check and finds a port number from 0
    to 65535 in [SPARK_PORT_1] is refused with one reply
    [{'msgtype': 'sparkconn-config', 'error': ...}], the flag still false
    and nothing pushed, in three cases: the driver port is in use; the
    namespace holds under [swan_spark_conf] a true object that is no
    [SparkConf]; configuring, or creating context or session, raises.  The
    namespace is as before in the first two cases, and in the third but
    for a [SparkConf] found in it, which has been configured in place. *)
Theorem connect_failures_refused (K : Kernel) (msg : data) (st : kstate) :
  action msg = "sparkconn-action-connect" ->
  connected st = false ->
  credentials_pass K st ->
  (port_probe K true ->
   fst (handle_comm_message K msg st) = Returns tt
   /\ refused_on_config st (snd (handle_comm_message K msg st))
        "You already opened a Spark connection in this session. Please close it first if you want to open a new one."
   /\ user_ns (snd (handle_comm_message K msg st)) = user_ns st)
  /\ (port_probe K false ->
      forall o,
        user_ns st !! "swan_spark_conf" = Some o ->
        truthy_obj o = true -> is_spark_conf o = false ->
        fst (handle_comm_message K msg st) = Returns tt
        /\ user_ns (snd (handle_comm_message K msg st)) = user_ns st
        /\ exists error,
             refused_on_config st (snd (handle_comm_message K msg st)) error
             /\ (error
                 = "There is already a " +:+ dquote +:+ "swan_spark_conf"
                   +:+ dquote
                   +:+ " variable defined and is not of type SparkConf."
                 \/ error
                    = "'" +:+ obj_type_name o
                      +:+ "' object has no attribute 'toDebugString'"))
  /\ (port_probe K false ->
      forall shared c error,
        chosen_conf st = Some (shared, c) ->
        session_fails K (log4j_file st) msg c error ->
        fst (handle_comm_message K msg st) = Returns tt
        /\ refused_on_config st (snd (handle_comm_message K msg st)) error
        /\ user_ns (snd (handle_comm_message K msg st))
           = if shared
             then <[ "swan_spark_conf"
                     := OSparkConf
                          (snd (configure K (log4j_file st) msg c)) ]>
                    (user_ns st)
             else user_ns st).
Proof.
  intros Ha Hc Hpass.
  rewrite (handle_connect_past_gate K msg st Ha Hc Hpass).
  split; [| split].
  - intros Hprobe.
    destruct (is_port_in_use_probe K (add_events (gate_events st) st) true
                Hprobe) as (port & Hrun).
    rewrite (bind_returns _ _ _ _ _ Hrun).
    unfold send_error, send, emit, modify. cbn [fst snd].
    rewrite !add_events_add. split; [reflexivity |].
    split; [| reflexivity].
    unfold refused_on_config. rewrite new_events_add.
    cbn [connected add_events user_ns]. unfold gate_events.
    destruct (needs_auth st); repeat split; auto.
  - intros Hprobe o Hns Ht Hno.
    destruct (is_port_in_use_probe K (add_events (gate_events st) st) false
                Hprobe) as (port & Hrun).
    rewrite (bind_returns _ _ _ _ _ Hrun), add_gate_probe.
    set (st2 := add_events (gate_events st ++ [EvProbePort port]) st).
    destruct (guarded_body_not_conf K msg st2 o Hns Ht Hno)
      as (evs & error & Hbody & Hpush & Hsent & Herr).
    rewrite Hbody. cbn [fst snd]. split; [reflexivity |].
    split; [reflexivity |]. exists error. split; [| exact Herr].
    unfold refused_on_config.
    rewrite (new_events_app st (add_events evs st2)
               ((gate_events st ++ [EvProbePort port]) ++ evs))
      by (cbn [st2 trace add_events]; now rewrite <- !app_assoc).
    rewrite sent_after_quiet, pushed_after_quiet by apply quiet_gate_probe.
    cbn [st2 connected add_events user_ns]. auto.
  - intros Hprobe shared c error Hsome Hfail.
    destruct (is_port_in_use_probe K (add_events (gate_events st) st) false
                Hprobe) as (port & Hrun).
    rewrite (bind_returns _ _ _ _ _ Hrun), add_gate_probe.
    set (st2 := add_events (gate_events st ++ [EvProbePort port]) st).
    assert (chosen_conf st2 = Some (shared, c)) as Hch by exact Hsome.
    destruct (connect_body_chosen K msg shared c st2 Hch)
      as (pre & Hpre & Hchosen).
    pose proof (connect_body_result K msg st2) as Hr.
    unfold catch, connect_body_post in *.
    destruct (connect_body K msg st2) as [[[]| e |] st3] eqn:Hbody;
      [| | contradiction].
    + exfalso. destruct Hr as [Hopen | (Hnone & _)]; [| congruence].
      exact (session_opened_not_fails K msg st2 st3 shared c error Hch
               Hfail Hopen).
    + destruct Hr as (Hquiet & Hwhy). rewrite Hch in Hwhy.
      change (log4j_file st2) with (log4j_file st) in Hwhy.
      rewrite (session_fails_unique _ _ _ _ _ _ Hfail Hwhy).
      symmetry in Hchosen.
      destruct (open_session_raises K msg shared c _ _ _ Hchosen)
        as (_ & Hns).
      cbn [log4j_file user_ns add_events st2] in Hns.
      destruct (report_failure e st3) as [r st4] eqn:Hrep.
      assert (r = Returns tt /\ user_ns st4 = user_ns st3) as [-> Hns4] by
        (unfold report_failure, bind, send_error, send, emit, modify in Hrep;
         now inversion Hrep).
      split; [reflexivity |]. cbn [snd]. split.
      * eapply refused_after_report; [| exact Hc | exact Hrep].
        eapply failed_quietly_after; [apply quiet_gate_probe | exact Hquiet].
      * now rewrite Hns4, Hns.
Qed.

Lemma handle_keeps_connected (K : Kernel) (msg : data) (st : kstate) :
  connected st = true ->
  connected (snd (handle_comm_message K msg st)) = true.
Proof.
  intros Hc. unfold handle_comm_message.
  destruct (String.eqb (action msg) "sparkconn-action-auth").
  - destruct (password msg) as [pw|]; [| exact Hc].
    unfold bind, emit, modify, send_ok, send_error, send, emit, modify.
    destruct (Z.eqb (kinit_status K pw) 0); exact Hc.
  - destruct (String.eqb (action msg) "sparkconn-action-connect");
      [| exact Hc].
    rewrite bind_gets, Hc. exact Hc.
Qed.

Lemma handle_sets_connected (K : Kernel) (msg : data) (st : kstate) :
  connected st = false ->
  connected (snd (handle_comm_message K msg st)) = true ->
  action msg = "sparkconn-action-connect"
  /\ fst (handle_comm_message K msg st) = Returns tt
  /\ exists c sc spark pre,
       spark_context K c = inr sc /\ spark_session K sc = inr spark
       /\ new_events st (snd (handle_comm_message K msg st))
          = pre ++ session_events c sc spark.
Proof.
  intros Hc.
  destruct (String.eqb (action msg) "sparkconn-action-auth") eqn:Hauth.
  { unfold handle_comm_message. rewrite Hauth.
    destruct (password msg) as [pw|]; [| cbn; congruence].
    unfold bind, emit, modify, send_ok, send_error, send, emit, modify.
    destruct (Z.eqb (kinit_status K pw) 0); cbn; congruence. }
  destruct (String.eqb (action msg) "sparkconn-action-connect") eqn:Hconn.
  2: { unfold handle_comm_message. rewrite Hauth, Hconn. cbn. congruence. }
  apply String.eqb_eq in Hconn.
  destruct (needs_auth st) eqn:Hn;
    [destruct (Z.eq_dec (klist_status K) 0%Z) as [Hk | Hk] |].
  2: { rewrite (handle_connect_no_ticket K msg st Hconn Hc Hn Hk).
       cbn. congruence. }
  all: (rewrite (handle_connect_past_gate K msg st Hconn Hc)
          by (unfold credentials_pass; auto)).
  all: destruct (is_port_in_use_result K (add_events (gate_events st) st))
         as [(e & Hrun) | (s & port & _ & _ & Hrun)];
       [rewrite (bind_raises _ _ _ _ _ Hrun); cbn; congruence |].
  all: rewrite (bind_returns _ _ _ _ _ Hrun), add_gate_probe.
  all: destruct (host_resolves K && port_accepts K port);
       [unfold send_error, send, emit, modify; cbn; congruence |].
  all: set (st2 := add_events (gate_events st ++ [EvProbePort port]) st).
  all: pose proof (connect_body_result K msg st2) as Hr.
  all: unfold catch, connect_body_post in *.
  all: destruct (connect_body K msg st2) as [[[]| e |] st3];
       [| | contradiction].
  all: try (destruct Hr as ((Hsame & _) & _);
            unfold report_failure, bind, send_error, send, emit, modify;
            cbn [snd connected add_events]; rewrite Hsame;
            cbn [st2 connected add_events]; congruence).
  all: destruct Hr as [Hopen | (_ & Hsame & _)];
       [| cbn [snd]; rewrite Hsame; cbn [st2 connected add_events];
          congruence].
  all: destruct Hopen as (shared & c & sc & spark & pre & _ & _ & _ & Hsc
                          & Hss & Htr & _).
  all: intros _; split; [exact Hconn |]; split; [reflexivity |].
  all: exists (snd (configure K (log4j_file st2) msg c)), sc, spark,
         ((gate_events st ++ [EvProbePort port]) ++ pre).
  all: split; [assumption |]; split; [assumption |].
  all: cbn [snd]; apply new_events_app; rewrite Htr;
       cbn [st2 trace add_events]; now rewrite <- !app_assoc.
Qed.

(** C7.  The flag only moves forward: it starts false, a handler never
    clears it (over one message or any sequence of them), it is set only by
    a connect message whose handler returned after creating context and
    session, pushing them and sending [{'msgtype': 'sparkconn-connected'}],
    and a connect message that finds it set gets that same reply and
    nothing else happens. *)
Theorem connected_only_forward :
  (forall K log4j ns, connected (init K log4j ns) = false)
  /\ (forall K msg st,
       connected st = true ->
       connected (snd (handle_comm_message K msg st)) = true)
  /\ (forall msgs st,
       connected st = true -> connected (handle_all msgs st) = true)
  /\ (forall K msg st,
       connected st = false ->
       connected (snd (handle_comm_message K msg st)) = true ->
       action msg = "sparkconn-action-connect"
       /\ fst (handle_comm_message K msg st) = Returns tt
       /\ exists c sc spark pre,
            spark_context K c = inr sc /\ spark_session K sc = inr spark
            /\ new_events st (snd (handle_comm_message K msg st))
               = pre
                 ++ [EvNewContext c; EvNewSession sc;
                     EvPush [("swan_spark_conf", OSparkConf c);
                             ("sc", OSparkContext sc);
                             ("spark", OSparkSession spark)];
                     EvSend (<[ "msgtype" := JStr "sparkconn-connected" ]> ∅)])
  /\ (forall K msg st,
       action msg = "sparkconn-action-connect" ->
       connected st = true ->
       handle_comm_message K msg st
       = (Returns tt,
          add_events
            [EvSend (<[ "msgtype" := JStr "sparkconn-connected" ]> ∅)] st)
       /\ contexts_created
            (new_events st (snd (handle_comm_message K msg st))) = []).
Proof.
  split; [reflexivity |]. split; [exact handle_keeps_connected |].
  split; [| split; [exact handle_sets_connected |]].
  - intros msgs. unfold handle_all.
    induction msgs as [|[K msg] rest IH]; intros st Hc; [exact Hc |].
    cbn [foldl fst snd]. apply IH. now apply handle_keeps_connected.
  - intros K msg st Ha Hc.
    assert (handle_comm_message K msg st
            = (Returns tt,
               add_events
                 [EvSend (<[ "msgtype" := JStr "sparkconn-connected" ]> ∅)]
                 st))
      as Hrun.
    { unfold handle_comm_message. rewrite Ha.
      change (String.eqb "sparkconn-action-connect" "sparkconn-action-auth")
        with false.
      rewrite String.eqb_refl. cbn iota. now rewrite bind_gets, Hc. }
    rewrite Hrun. split; [reflexivity |]. cbn [snd].
    now rewrite new_events_add.
Qed.

End ConnectorProps.

(** ** Properties of the log-tailing thread *)

Module LogReaderProps.
Import Connector LogReader.

Lemma run_app (a b : list move) (s : tail) : run (a ++ b) s = run b (run a s).
Proof. unfold run. apply foldl_app. Qed.

Lemma run_cons (m : move) (rest : list move) (s : tail) :
  run (m :: rest) s = run rest (step m s).
Proof. reflexivity. Qed.

Lemma lines_between_snoc (from upto : nat) (l : list text) (x : text) :
  from <= upto -> l !! upto = Some x ->
  lines_between from (S upto) l = lines_between from upto l ++ [x].
Proof.
  intros Hle Hx. unfold lines_between.
  replace (S upto - from) with (S (upto - from)) by lia.
  apply take_S_r. rewrite lookup_drop.
  now replace (from + (upto - from)) with upto by lia.
Qed.

Lemma lines_between_append (from upto : nat) (l : list text) (x : text) :
  from <= upto <= length l ->
  lines_between from upto (l ++ [x]) = lines_between from upto l.
Proof.
  intros Hle. unfold lines_between.
  rewrite drop_app_le by lia. apply take_app_le.
  rewrite length_drop. lia.
Qed.

Lemma lines_between_all (from : nat) (l : list text) :
  lines_between from (length l) l = drop from l.
Proof.
  unfold lines_between. apply take_ge. rewrite length_drop. lia.
Qed.

Lemma messages_for_snoc (pieces : list text) (x : text) :
  messages_for (pieces ++ [x])
  = messages_for pieces ++ (if is_empty x then [] else [log_message x]).
Proof.
  unfold messages_for. rewrite List.filter_app, map_app. cbn [List.filter].
  destruct (is_empty x); reflexivity.
Qed.

Ltac fields :=
  cbn [flag logfile start offset at_pc forwarded];
  rewrite ?Nat.sub_0_r in *.

Ltac fin := repeat split; fields; try lia; try assumption.

(** Every move keeps the thread's state consistent. *)
Lemma step_consistent (m : move) (s : tail) :
  consistent s -> consistent (step m s).
Proof.
  unfold consistent, held. intros (Hb & Hh & Hf & Hpc).
  destruct m as [| l |]; cbn [step].
  - unfold tick. destruct (at_pc s) as [| | | | line |] eqn:Epc.
    + destruct Hpc as [Hnil Heq]. fields.
      unfold lines_between. rewrite Nat.sub_diag.
      repeat split; try lia. exact Hnil.
    + fields. destruct (flag s) eqn:Hfl; fin.
    + destruct (logfile s !! offset s) as [l|] eqn:Hl; fields.
      * apply lookup_lt_Some in Hl as Hlt.
        destruct (is_empty l) eqn:He; fields.
        -- repeat split; try lia.
           rewrite (lines_between_snoc _ _ _ l) by (try lia; assumption).
           now rewrite messages_for_snoc, He, app_nil_r.
        -- replace (S (offset s) - 1) with (offset s) by lia.
           repeat split; try lia; assumption.
      * repeat split; try lia; assumption.
    + fields. repeat split; try lia; assumption.
    + destruct Hpc as (Hl & He). fields.
      repeat split; try lia.
      rewrite Hf.
      replace (offset s) with (S (offset s - 1)) at 2 by lia.
      rewrite (lines_between_snoc _ _ _ line) by (try lia; assumption).
      now rewrite messages_for_snoc, He.
    + rewrite Epc. repeat split; try lia; assumption.
  - fields. rewrite length_app. cbn [length].
    repeat split; try lia.
    + rewrite lines_between_append; [assumption |].
      destruct (at_pc s); lia.
    + destruct (at_pc s); try assumption.
      destruct Hpc as (Hl & He).
      split; [| exact He]. now apply lookup_app_l_Some.
  - fields. repeat split; try lia; try assumption.
    destruct (at_pc s); try assumption; reflexivity.
Qed.

Lemma run_consistent (schedule : list move) (s : tail) :
  consistent s -> consistent (run schedule s).
Proof.
  revert s. induction schedule as [|m rest IH]; intros s Hs; [exact Hs |].
  rewrite run_cons. apply IH. now apply step_consistent.
Qed.

Lemma started_consistent (existing : list text) :
  consistent (started existing).
Proof. unfold consistent, started. cbn. repeat split; lia. Qed.

Lemma step_keeps_flag (m : move) (s : tail) :
  flag s = true -> flag (step m s) = true.
Proof.
  intros Hf. destruct m; cbn [step flag]; try assumption; try reflexivity.
  unfold tick. destruct (at_pc s); try destruct (logfile s !! offset s);
    assumption.
Qed.

(** With the flag set, a move sends at most the line being read or held. *)
Lemma step_after_flag (m : move) (s : tail) :
  flag s = true ->
  exists extra,
    forwarded (step m s) = forwarded s ++ extra
    /\ length extra + may_send (step m s) <= may_send s.
Proof.
  intros Hf. unfold may_send.
  destruct m; cbn [step];
    try (exists []; rewrite app_nil_r; fields;
         split; [reflexivity | destruct (at_pc s); cbn; lia]).
  unfold tick. destruct (at_pc s) as [| | | | line |] eqn:Epc.
  - exists []. rewrite app_nil_r. fields. split; [reflexivity | cbn; lia].
  - exists []. rewrite app_nil_r. fields. rewrite Hf.
    split; [reflexivity | cbn; lia].
  - exists []. rewrite app_nil_r.
    destruct (logfile s !! offset s) as [l|]; fields;
      try destruct (is_empty l); split; try reflexivity; cbn; lia.
  - exists []. rewrite app_nil_r. fields. split; [reflexivity | cbn; lia].
  - exists [log_message line]. fields. cbn [length].
    split; [reflexivity | cbn; lia].
  - exists []. rewrite app_nil_r, Epc. split; [reflexivity | cbn; lia].
Qed.

Lemma run_after_flag (schedule : list move) (s : tail) :
  flag s = true ->
  flag (run schedule s) = true
  /\ exists extra,
       forwarded (run schedule s) = forwarded s ++ extra
       /\ length extra + may_send (run schedule s) <= may_send s.
Proof.
  revert s. induction schedule as [|m rest IH]; intros s Hf.
  - split; [exact Hf |]. exists []. rewrite app_nil_r. cbn.
    split; [reflexivity | lia].
  - rewrite run_cons.
    destruct (step_after_flag m s Hf) as (e1 & He1 & Hl1).
    destruct (IH (step m s) (step_keeps_flag m s Hf)) as (Hflag & e2 & He2
                                                          & Hl2).
    split; [exact Hflag |]. exists (e1 ++ e2).
    rewrite He2, He1, <- app_assoc, length_app.
    split; [reflexivity | lia].
Qed.

(** With the flag set, every statement brings the thread closer to the end
    of the loop. *)
Lemma tick_steps_left (s : tail) :
  flag s = true -> steps_left (tick s) <= Nat.pred (steps_left s).
Proof.
  intros Hf. unfold steps_left, tick.
  destruct (at_pc s) eqn:Epc; fields; rewrite ?Hf; try (cbn; lia).
  - destruct (logfile s !! offset s) as [l|]; fields;
      try destruct (is_empty l); cbn; lia.
  - rewrite Epc. lia.
Qed.

Lemma run_steps_left (schedule : list move) (s : tail) :
  flag s = true ->
  steps_left (run schedule s) <= steps_left s - ticks schedule.
Proof.
  revert s. induction schedule as [|m rest IH]; intros s Hf.
  - cbn. lia.
  - rewrite run_cons.
    pose proof (IH (step m s) (step_keeps_flag m s Hf)) as Hrest.
    destruct m; cbn [step ticks List.filter length] in *.
    + pose proof (tick_steps_left s Hf). unfold ticks in *. lia.
    + unfold steps_left, ticks in *. cbn [at_pc] in Hrest. exact Hrest.
    + unfold steps_left, ticks in *. cbn [at_pc] in Hrest. exact Hrest.
Qed.

Lemma steps_left_done (s : tail) : steps_left s = 0 -> at_pc s = PDone.
Proof. unfold steps_left. destruct (at_pc s); congruence. Qed.

(** While the flag is not set, the thread standing at the loop test takes
    three statements to read a piece and send or skip it. *)
Lemma three_ticks (s : tail) (l : text) :
  at_pc s = PGuard -> flag s = false -> logfile s !! offset s = Some l ->
  at_pc (run (repeat Tick 3) s) = PGuard
  /\ flag (run (repeat Tick 3) s) = false
  /\ offset (run (repeat Tick 3) s) = S (offset s)
  /\ logfile (run (repeat Tick 3) s) = logfile s
  /\ start (run (repeat Tick 3) s) = start s.
Proof.
  intros Hpc Hf Hl. cbn [repeat run foldl step].
  assert (tick s
          = {| flag := false; logfile := logfile s; start := start s;
               offset := offset s; at_pc := PRead;
               forwarded := forwarded s |}) as ->
    by (unfold tick; rewrite Hpc, Hf; reflexivity).
  unfold tick. fields. rewrite Hl.
  destruct (is_empty l); fields; auto.
Qed.

(** And so it reads all that is left, three statements a piece. *)
Lemma drain (k : nat) (s : tail) :
  at_pc s = PGuard -> flag s = false ->
  offset s + k = length (logfile s) ->
  at_pc (run (repeat Tick (3 * k)) s) = PGuard
  /\ offset (run (repeat Tick (3 * k)) s) = length (logfile s)
  /\ logfile (run (repeat Tick (3 * k)) s) = logfile s
  /\ start (run (repeat Tick (3 * k)) s) = start s.
Proof.
  revert s. induction k as [|k IH]; intros s Hpc Hf Hk.
  - cbn. repeat split; try assumption. lia.
  - replace (3 * S k) with (3 + 3 * k) by lia.
    rewrite repeat_app, run_app.
    destruct (logfile s !! offset s) as [l|] eqn:Hl.
    2: { apply lookup_ge_None in Hl. lia. }
    destruct (three_ticks s l Hpc Hf Hl) as (Hpc3 & Hf3 & Ho3 & Hl3 & Hs3).
    destruct (IH _ Hpc3 Hf3) as (H1 & H2 & H3 & H4);
      [rewrite Ho3, Hl3; lia |].
    rewrite H1, H2, H3, H4, Hl3, Hs3. auto.
Qed.

(** While the flag is not set, the thread is back at the loop test within
    two statements. *)
Lemma to_guard (s : tail) :
  consistent s -> flag s = false -> at_pc s <> PSeek ->
  exists n,
    at_pc (run (repeat Tick n) s) = PGuard
    /\ flag (run (repeat Tick n) s) = false
    /\ logfile (run (repeat Tick n) s) = logfile s
    /\ start (run (repeat Tick n) s) = start s.
Proof.
  intros (_ & _ & _ & Hpc) Hf Hseek.
  destruct (at_pc s) as [| | | | line |] eqn:Epc; try congruence.
  - exists 0. cbn. auto.
  - exists 2. cbn [repeat run foldl step].
    assert (flag (tick s) = flag s /\ logfile (tick s) = logfile s
            /\ start (tick s) = start s
            /\ (at_pc (tick s) = PSleep
                \/ exists line, at_pc (tick s) = PYield line))
      as (H1 & H2 & H3 & Hnext).
    { unfold tick. rewrite Epc.
      destruct (logfile s !! offset s) as [l|] eqn:Hl;
        try destruct (is_empty l); fields; eauto 6. }
    unfold tick at 1 3 5 7.
    destruct Hnext as [-> | (line & ->)]; fields;
      rewrite H1, H2, H3; auto.
  - exists 1. cbn [repeat run foldl step]. unfold tick. rewrite Epc.
    fields. auto.
  - exists 1. cbn [repeat run foldl step]. unfold tick. rewrite Epc.
    fields. auto.
Qed.

Lemma lstrip_spec (t : text) :
  exists pre,
    t = pre ++ lstrip t
    /\ forallb is_whitespace pre = true
    /\ forall c, head (lstrip t) = Some c -> is_whitespace c = false.
Proof.
  induction t as [|c rest (pre & Heq & Hws & Hhead)]; cbn [lstrip].
  - exists []. repeat split. intros c. discriminate.
  - destruct (is_whitespace c) eqn:Hc.
    + exists (c :: pre). cbn [app forallb]. rewrite Hc, Hws.
      split; [now rewrite <- Heq |]. split; [reflexivity | exact Hhead].
    + exists []. repeat split. intros c0. cbn. intros E.
      inversion E; subst. exact Hc.
Qed.

Lemma head_rev (t : text) : head (rev t) = last t.
Proof. rewrite rev_alt. apply (head_reverse t). Qed.

(** [strip] takes the white space off both ends, and nothing else. *)
Lemma strip_spec (t : text) :
  exists pre post,
    t = pre ++ strip t ++ post
    /\ forallb is_whitespace pre = true
    /\ forallb is_whitespace post = true
    /\ (forall c, head (strip t) = Some c -> is_whitespace c = false)
    /\ (forall c, last (strip t) = Some c -> is_whitespace c = false).
Proof.
  unfold strip.
  destruct (lstrip_spec t) as (pre & Heq & Hpre & Hhead).
  destruct (lstrip_spec (rev (lstrip t))) as (post & Heq2 & Hpost & Hhead2).
  exists pre, (rev post).
  assert (lstrip t = rev (lstrip (rev (lstrip t))) ++ rev post) as Hmid.
  { rewrite <- (rev_involutive (lstrip t)) at 1.
    rewrite Heq2 at 1. now rewrite rev_app_distr. }
  split; [now rewrite <- Hmid |]. split; [exact Hpre |].
  split; [| split].
  - rewrite forallb_forall in *. intros x Hx. apply Hpost.
    now apply in_rev.
  - intros c Hc. apply Hhead. rewrite Hmid.
    destruct (rev (lstrip (rev (lstrip t)))); [discriminate | exact Hc].
  - intros c Hc. apply Hhead2.
    rewrite <- (rev_involutive (lstrip (rev (lstrip t)))).
    now rewrite head_rev.
Qed.

(** C6, as the code has it.  What the thread has forwarded is always, in
    order, what [readline] has returned to it since it sought to the end of
    the file, but for empty results and the line it may hold: each as
    [{'msgtype': 'sparkconn-action-log', 'msg': ...}] with the text freed of
    the white space at its ends.  While the flag is not set it forwards all
    there is to read, given the statements to do so.  Once the flag is set
    it forwards at most one more line -- none unless it was reading or
    holding one -- and is past its loop within three statements. *)
Theorem tail_forwards_until_flag :
  (forall existing schedule,
     consistent (run schedule (started existing)))
  /\ (forall s,
       consistent s -> flag s = false -> at_pc s <> PSeek ->
       exists n,
         forwarded (run (repeat Tick n) s)
         = map log_message
             (List.filter (fun t => negb (is_empty t))
                (drop (start s) (logfile s))))
  /\ (forall s schedule,
       flag s = true ->
       flag (run schedule s) = true
       /\ (exists extra,
             forwarded (run schedule s) = forwarded s ++ extra
             /\ length extra <= 1
             /\ (may_send s = 0 -> extra = []))
       /\ (3 <= ticks schedule -> at_pc (run schedule s) = PDone))
  /\ (forall line,
       log_message line !! "msgtype" = Some (JStr "sparkconn-action-log")
       /\ exists stripped pre post,
            log_message line !! "msg" = Some (JText stripped)
            /\ line = pre ++ stripped ++ post
            /\ forallb is_whitespace pre = true
            /\ forallb is_whitespace post = true
            /\ (forall c, head stripped = Some c -> is_whitespace c = false)
            /\ (forall c, last stripped = Some c -> is_whitespace c = false)).
Proof.
  split; [| split; [| split]].
  - intros existing schedule. apply run_consistent, started_consistent.
  - intros s Hs Hf Hseek.
    destruct (to_guard s Hs Hf Hseek) as (n0 & Hpc & Hfl & Hlog & Hst).
    pose proof (run_consistent (repeat Tick n0) s Hs) as Hs0.
    set (s0 := run (repeat Tick n0) s) in *.
    assert (offset s0 <= length (logfile s0)) as Hle
      by (destruct Hs0 as ((_ & Hle) & _); exact Hle).
    destruct (drain (length (logfile s0) - offset s0) s0 Hpc Hfl
                ltac:(lia)) as (Hpc1 & Hoff & Hlog1 & Hst1).
    exists (n0 + 3 * (length (logfile s0) - offset s0)).
    rewrite repeat_app, run_app. fold s0.
    pose proof (run_consistent
                  (repeat Tick (3 * (length (logfile s0) - offset s0)))
                  s0 Hs0) as (_ & _ & Hfw & _).
    rewrite Hfw. unfold held. rewrite Hpc1, Hoff, Hlog1, Hst1, Nat.sub_0_r.
    now rewrite lines_between_all, Hlog, Hst.
  - intros s schedule Hf.
    destruct (run_after_flag schedule s Hf) as (Hflag & extra & Hfw & Hlen).
    split; [exact Hflag |]. split.
    + exists extra. split; [exact Hfw |].
      assert (may_send s <= 1) by (unfold may_send; destruct (at_pc s); lia).
      split; [lia |]. intros Hzero.
      destruct extra; [reflexivity | cbn [length] in Hlen; lia].
    + intros Hticks. apply steps_left_done.
      pose proof (run_steps_left schedule s Hf).
      assert (steps_left s <= 3)
        by (unfold steps_left; destruct (at_pc s); lia).
      lia.
  - intros line. unfold log_message. split.
    + rewrite lookup_insert_ne by discriminate. apply lookup_insert_eq.
    + destruct (strip_spec line) as (pre & post & H).
      exists (strip line), pre, post.
      split; [apply lookup_insert_eq | exact H].
Qed.

End LogReaderProps.

(** ** The in-memory host meets the contracts assumed of the parent *)

Module MemHostFacts.
Import Contents MemHost PyStr.

Lemma base_model_unflagged (type path : string) (content : bool) :
  base_model type path content !! "is_project" <> Some (VBool true).
Proof.
  unfold base_model.
  rewrite !lookup_insert_ne by discriminate. now rewrite lookup_empty.
Qed.

Lemma parent_get_unflagged : parent_get_keeps_unflagged (H := mem_host).
Proof.
  intros dm Hdm type format p c st m st'. cbn. unfold parent_get.
  destruct (negb _); [discriminate |].
  destruct (is_dir _ st).
  - destruct (_ || _); [apply Hdm | discriminate].
  - destruct (type_is type "directory"); [discriminate |].
    destruct (type_is type "notebook"); intros E; inversion E; subst;
      apply base_model_unflagged.
Qed.










Lemma mem_in (p : string) (l : list string) : mem p l = true <-> In p l.
Proof.
  unfold mem. rewrite existsb_exists. split.
  - intros (x & Hin & Hx). apply String.eqb_eq in Hx. now subst.
  - intros Hin. exists p. split; [assumption | apply String.eqb_refl].
Qed.

Lemma move_dir : move_makes_dir (H := mem_host).
Proof.
  intros origin dest preserve st st'. cbn. unfold move.
  destruct (is_dir origin st) eqn:Ho; [| discriminate]. cbn [negb].
  intros E; inversion E; subst. unfold is_dir. cbn [dirs].
  apply mem_in, in_or_app. left.
  apply in_map_iff. exists (norm origin). split.
  - unfold rebase. now rewrite String.eqb_refl.
  - apply filter_In. split; [now apply mem_in |].
    unfold below. now rewrite String.eqb_refl.
Qed.

End MemHostFacts.

(** ** The theorems at concrete inputs *)

Module Examples.
Import Contents MemHost PyStr.
Import Connector (handle_comm_message).

(** The string primitives on the inputs the sources give them. *)
Example split_project_path : PyStr.split "/" "SWAN_projects/p1" = ["SWAN_projects"; "p1"].
Proof. reflexivity. Qed.

Example split_trailing : PyStr.split "/" "a/" = ["a"; ""].
Proof. reflexivity. Qed.

Example strip_both : PyStr.strip_slash "//a/b/" = "a/b".
Proof. reflexivity. Qed.

Example replace_first_only :
  PyStr.replace "/r/a/r/b" "/r" "" (Some 1) = "/a/r/b".
Proof. reflexivity. Qed.

Example replace_everywhere : PyStr.replace "/r/a/r/b" "/r" "" None = "/a/b".
Proof. reflexivity. Qed.

Example replace_zip : PyStr.replace "nb.zip" ".zip" ".ipynb" None = "nb.ipynb".
Proof. reflexivity. Qed.

Example join_plain : PyStr.path_join3 "/home/u" "SWAN_projects" "repo" = "/home/u/SWAN_projects/repo".
Proof. reflexivity. Qed.

Example join_empty_last : PyStr.path_join3 "/home/u" "SWAN_projects" "" = "/home/u/SWAN_projects/".
Proof. reflexivity. Qed.

Example splitext_plain : PyStr.splitext_root "repo.git" = "repo".
Proof. reflexivity. Qed.

Example splitext_hidden : PyStr.splitext_root ".git" = ".git".
Proof. reflexivity. Qed.

Example splitext_dir : PyStr.splitext_root "a.b/c" = "a.b/c".
Proof. reflexivity. Qed.

Example pretty_count : pretty 12%nat = "12".
Proof. reflexivity. Qed.

(** [replace(root_dir, '')] takes every occurrence of the root away, also
    one inside a name. *)
Example relative_path_mangled :
  PyStr.strip_slash
    (PyStr.replace "/work/SWAN_projects/workflows" "/work" "" None)
  = "SWAN_projectsflows".
Proof. reflexivity. Qed.

Example replace_unanchored :
  PyStr.replace "/home/u/a/home/u/SWAN_projects/b"
    "/home/u/SWAN_projects/" "" (Some 1) = "/home/u/ab".
Proof. reflexivity. Qed.

Lemma get_classifies_existing_witness :
  get "/SWAN_projects/p1/" true None None fs0
  = (Returns (<[ "is_project" := VBool true ]>
                (base_model "directory" "SWAN_projects/p1" true)), fs0).
Proof.
  exact (proj1 (proj1 (proj1 (ContentsProps.get_classifies_existing
                                fs0 fs0 "/SWAN_projects/p1/" true None None
                                MemHostFacts.parent_get_unflagged eq_refl)
                         (or_introl (conj (or_intror eq_refl) eq_refl)))
                  eq_refl) (or_introl eq_refl)).
Defined.

(** The name of the projects folder taken by a regular file: the path
    exists and is no project, yet [get] does not return the model of the
    inherited [get]; it tries to create the folder and raises. *)
Lemma get_classifies_existing_counterexample :
  exists_ "SWAN_projects" fs_file = true
  /\ is_project_dir "SWAN_projects" fs_file = false
  /\ super_get _dir_model "SWAN_projects" true None None fs_file
     = (Returns (base_model "file" "SWAN_projects" true), fs_file)
  /\ get "SWAN_projects" true None None fs_file
     = (Raises (PyError "FileExistsError" "/home/u/SWAN_projects"), fs_file).
Proof. repeat split; reflexivity. Qed.


Lemma save_dispatch_witness :
  save new_directory "docs/new" fs0
  = bind (get "docs/new" false None None)
         (fun saved => run_post_save_hook saved "/home/u/docs/new")
         (add_dir "/home/u/docs/new" fs0).
Proof.
  destruct (ContentsProps.save_dispatch (H := mem_host) fs0 fs0
              new_directory new_directory "docs/new" eq_refl eq_refl)
    as (_ & _ & _ & _ & _ & Hd).
  destruct (Hd "directory" _ (split "/" "/home/u/docs/new") eq_refl eq_refl
              (or_intror (or_introl eq_refl))
              (names_elsewhere (H := mem_host) "/home/u/docs/new" eq_refl)
              ltac:(cbn; intuition discriminate)
              ltac:(discriminate)) as (_ & _ & Hret & _).
  exact (Hret ∅ _ eq_refl ltac:(discriminate)).
Defined.

(** ['directory'] is a recognised type with a save routine, yet on a path
    that holds the restricted name [save] raises HTTP 400 and runs no
    routine: the state is the one it started from. *)
Lemma save_dispatch_counterexample :
  is_Some (save_routine "directory" "/home/u/docs/SWAN_projects"
             new_directory "docs/SWAN_projects")
  /\ save new_directory "docs/SWAN_projects" fs0
     = (Raises (HTTPError 400 "The name SWAN_projects is restricted" None),
        fs0).
Proof. split; [eexists; reflexivity | reflexivity]. Qed.



Lemma restricted_name_refused_witness :
  update new_directory "docs/SWAN_projects" fs0
  = (Raises (HTTPError 400 "The name SWAN_projects is restricted" None), fs0).
Proof.
  destruct (ContentsProps.restricted_name_refused (H := mem_host))
    as (_ & _ & _ & Hu).
  exact (Hu fs0 new_directory "docs/SWAN_projects"
           (split "/" "/home/u/docs/SWAN_projects")
           (names_elsewhere (H := mem_host) "/home/u/docs/SWAN_projects"
              eq_refl)
           ltac:(cbn; tauto)).
Defined.

(** A path may hold the folder name and still pass the test: the test
    removes the first occurrence of [root_dir/folder/] wherever it stands,
    here in the middle of the OS path, and looks at what is left. *)
Example restricted_name_slips_through :
  In "SWAN_projects" (split "/" "a/home/u/SWAN_projects/b")
  /\ _get_os_path "a/home/u/SWAN_projects/b"
     = "/home/u/a/home/u/SWAN_projects/b"
  /\ _contains_swan_folder_name "/home/u/a/home/u/SWAN_projects/b" = false
  /\ is_dir "/home/u/a/home/u/SWAN_projects/b"
       (snd (save new_directory "a/home/u/SWAN_projects/b" fs0)) = true.
Proof. repeat split; try reflexivity. cbn. tauto. Qed.

(** On a path that holds the restricted name, [save] of a chunked model
    hands over to the inherited [save] without any test and raises no HTTP
    400; and [download] of a repository named like the projects folder
    creates an entry of that name. *)
Lemma restricted_name_refused_counterexample :
  _contains_swan_folder_name "/home/u/SWAN_projects/SWAN_projects" = true
  /\ save chunked_file "SWAN_projects/SWAN_projects" fs0
     = super_save chunked_file "SWAN_projects/SWAN_projects" fs0
  /\ status_of (save chunked_file "SWAN_projects/SWAN_projects" fs0) = None
  /\ is_dir "/home/u/SWAN_projects/SWAN_projects" fs0 = false
  /\ is_dir "/home/u/SWAN_projects/SWAN_projects"
       (snd (download 10 "https://git.example.org/team/SWAN_projects.git"
               fs0)) = true.
Proof. repeat split; reflexivity. Qed.



(** A local directory given with a slash at its end is a directory all the
    same; its last component is empty, so the import is to go to the
    projects folder itself, which is taken, and lands in
    [SWAN_projects/1]. *)
Example download_local_trailing_slash :
  fst (download 10 "local:/data/shared/" fs0)
  = Returns (<[ "path" := VStr "SWAN_projects/1" ]>
               (<[ "type" := VStr "directory" ]> ∅)).
Proof. reflexivity. Qed.

(** A plain HTTP URL of a zip archive reaches the unbound name. *)
Example download_zip :
  classify "https://example.org/nb.zip" = HttpUrl
  /\ fst (download 10 "https://example.org/nb.zip" fs0)
     = Raises zipfile_unbound.
Proof. split; reflexivity. Qed.

Lemma auth_replies_once_witness :
  handle_comm_message Connector.kernel0 (Connector.auth_msg "secret")
    (Connector.fresh_state true ∅)
  = (Returns tt,
     Connector.add_events
       [Connector.EvKinit "secret";
        Connector.EvSend
          (<[ "msgtype" := Connector.JStr "sparkconn-config" ]> ∅)]
       (Connector.fresh_state true ∅)).
Proof.
  exact (proj1 (ConnectorProps.auth_replies_once Connector.kernel0
                  (Connector.auth_msg "secret") "secret"
                  (Connector.fresh_state true ∅) eq_refl eq_refl)).
Defined.

Lemma port_busy : Connector.port_probe Connector.kernel_busy true.
Proof.
  exists "5001", 5001%Z.
  split; [reflexivity |]. split; [reflexivity |]. split; [lia | reflexivity].
Defined.

Lemma connect_failures_refused_witness :
  Connector.refused_on_config (Connector.fresh_state false ∅)
    (snd (handle_comm_message Connector.kernel_busy Connector.connect_msg
            (Connector.fresh_state false ∅)))
    "You already opened a Spark connection in this session. Please close it first if you want to open a new one.".
Proof.
  exact (proj1 (proj2 (proj1 (ConnectorProps.connect_failures_refused
                                Connector.kernel_busy Connector.connect_msg
                                (Connector.fresh_state false ∅)
                                eq_refl eq_refl (or_introl eq_refl))
                         port_busy))).
Defined.

(** With the port in use, a cluster that needs authentication and no valid
    ticket get the authentication page, not the configuration page.  A
    false value that is no [SparkConf] under [swan_spark_conf] is replaced
    without a word: the connect goes through.  And when the cluster refuses
    the context, a [SparkConf] found in the namespace is left configured:
    the state is not the one before the message. *)
Lemma connect_failures_refused_counterexample :
  Connector.port_probe Connector.kernel_busy true
  /\ handle_comm_message Connector.kernel_busy Connector.connect_msg
       (Connector.fresh_state true ∅)
     = (Returns tt,
        Connector.add_events
          [Connector.EvKlist;
           Connector.EvSend
             (<[ "error" := Connector.JStr "No valid credentials provided." ]>
                (<[ "msgtype" := Connector.JStr "sparkconn-auth" ]> ∅))]
          (Connector.fresh_state true ∅))
  /\ Connector.is_spark_conf (Connector.OInt 0) = false
  /\ Connector.connected
       (snd (handle_comm_message Connector.kernel0 Connector.connect_msg
               (Connector.fresh_state false
                  (<[ "swan_spark_conf" := Connector.OInt 0 ]> ∅)))) = true
  /\ length
       (Connector.pushed
          (Connector.trace
             (snd (handle_comm_message Connector.kernel0
                     Connector.connect_msg
                     (Connector.fresh_state false
                        (<[ "swan_spark_conf" := Connector.OInt 0 ]> ∅))))))
     = 1
  /\ Connector.spark_context Connector.kernel_nocontext
       (snd (Connector.configure Connector.kernel_nocontext "/tmp/log4j"
               Connector.connect_msg ∅))
     = inl "Could not connect to the cluster"
  /\ Connector.user_ns
       (snd (handle_comm_message Connector.kernel_nocontext
               Connector.connect_msg
               (Connector.fresh_state false
                  (<[ "swan_spark_conf" := Connector.OSparkConf ∅ ]> ∅))))
     !! "swan_spark_conf"
     = Some (Connector.OSparkConf
               (snd (Connector.configure Connector.kernel_nocontext
                       "/tmp/log4j" Connector.connect_msg ∅)))
  /\ snd (Connector.configure Connector.kernel_nocontext "/tmp/log4j"
            Connector.connect_msg ∅) !! "spark.master" = Some "yarn"
  /\ (∅ : Connector.conf) !! "spark.master" = None.
Proof.
  split; [exact port_busy |]. repeat split; vm_compute; reflexivity.
Qed.

(** What [readline] gets to return after the thread sought to the end is
    all forwarded while the flag is not set -- here a line and the first
    part of the next --; what was in the file before is not. *)
Lemma tail_forwards_until_flag_witness :
  exists n,
    LogReader.forwarded
      (LogReader.run (repeat LogReader.Tick n)
         (LogReader.run
            [LogReader.Tick;
             LogReader.Arrive (LogReader.codes "a" ++ [10%N]);
             LogReader.Arrive (LogReader.codes " b")]
            (LogReader.started [LogReader.codes "old" ++ [10%N]])))
    = [LogReader.log_message (LogReader.codes "a" ++ [10%N]);
       LogReader.log_message (LogReader.codes " b")].
Proof.
  destruct LogReaderProps.tail_forwards_until_flag as (Hinv & Hall & _).
  exact (Hall _ (Hinv [LogReader.codes "old" ++ [10%N]]
                   [LogReader.Tick;
                    LogReader.Arrive (LogReader.codes "a" ++ [10%N]);
                    LogReader.Arrive (LogReader.codes " b")])
           eq_refl ltac:(discriminate)).
Defined.

(** The thread passes the loop test, a line reaches the file and the
    handler sets the flag; the two statements that follow still read and
    forward the line. *)
Lemma tail_forwards_until_flag_counterexample :
  LogReader.flag
    (LogReader.run
       [LogReader.Tick; LogReader.Tick;
        LogReader.Arrive (LogReader.codes "job started" ++ [10%N]);
        LogReader.Connect] (LogReader.started [])) = true
  /\ LogReader.forwarded
       (LogReader.run
          [LogReader.Tick; LogReader.Tick;
           LogReader.Arrive (LogReader.codes "job started" ++ [10%N]);
           LogReader.Connect] (LogReader.started [])) = []
  /\ LogReader.forwarded
       (LogReader.run [LogReader.Tick; LogReader.Tick]
          (LogReader.run
             [LogReader.Tick; LogReader.Tick;
              LogReader.Arrive (LogReader.codes "job started" ++ [10%N]);
              LogReader.Connect] (LogReader.started [])))
     = [<[ "msg" := Connector.JText (LogReader.codes "job started") ]>
          (<[ "msgtype" := Connector.JStr "sparkconn-action-log" ]> ∅)].
Proof. repeat split; reflexivity. Qed.

(** White space of any kind goes from both ends, and only from there. *)
Example log_message_stripped :
  LogReader.log_message
    ([32%N; 160%N] ++ LogReader.codes "job  started" ++ [8232%N; 13%N; 10%N])
  !! "msg" = Some (Connector.JText (LogReader.codes "job  started")).
Proof. reflexivity. Qed.

End Examples.

(** ** Further properties of the contents mixin *)

Module MixinProps.
Import Py PyFacts Contents PyStr PyStrFacts ContentsProps.
Local Open Scope py_scope.

Section Strings.


Lemma has_char_append (c : ascii) (a b : string) :
  has_char c (a +:+ b) = has_char c a || has_char c b.
Proof.
  induction a as [|x a IH]; [reflexivity |].
  cbn [append has_char]. now rewrite IH, orb_assoc.
Qed.

(** Whatever precedes a separator, the components after it are the last
    ones. *)
Lemma split_after_sep (c : ascii) (a b : string) :
  exists h l, split c (a +:+ String c b) = h :: l ++ split c b.
Proof.
  induction a as [|x a (h & l & IH)]; cbn [append split].
  - rewrite Ascii.eqb_refl. now exists "", [].
  - destruct (Ascii.eqb x c).
    + exists "", (h :: l). now rewrite IH.
    + rewrite IH. now exists (String x h), l.
Qed.

Lemma last_component_after_sep (c : ascii) (a b : string) :
  has_char c b = false -> last_component c (a +:+ String c b) = b.
Proof.
  intros Hb. unfold last_component.
  destruct (split_after_sep c a b) as (h & l & ->).
  rewrite (split_plain c b Hb).
  change (h :: l ++ [b]) with ((h :: l) ++ [b]). apply last_last.
Qed.

Lemma startswith_longer (s p : string) :
  String.length s < String.length p -> startswith s p = false.
Proof.
  revert s. induction p as [|a p IH]; intros [|b s]; cbn; try lia;
    try reflexivity.
  intros Hl. rewrite IH by lia. apply andb_false_r.
Qed.

Lemma occurs_longer (old s : string) :
  String.length s < String.length old -> occurs old s = false.
Proof.
  induction s as [|a s IH]; intros Hl; cbn [occurs].
  - rewrite startswith_longer by assumption. reflexivity.
  - rewrite startswith_longer by assumption.
    apply IH. cbn in Hl. lia.
Qed.

End Strings.

Section Projects.

Context {St : Type} {H : Host St}.

Local Abbreviation root := (root_dir traits).
Local Abbreviation folder := (swan_default_folder traits).
Local Abbreviation file := (swan_default_file traits).

(** The sentinel of the folder made of [pre] and the first [n] of [rest]. *)
Local Abbreviation sentinel_at pre n rest st :=
  (_is_file
     (_get_os_path (path_join (join "/" (pre ++ firstn n rest)) file)) st).






End Projects.

Section Saving.

Context {St : Type} {H : Host St}.

Local Abbreviation root := (root_dir traits).
Local Abbreviation folder := (swan_default_folder traits).
Local Abbreviation file := (swan_default_file traits).

Lemma untitled_project_model_type :
  untitled_project_model !! "type" = Some (VStr "directory").
Proof. reflexivity. Qed.

(** X4.  [new_untitled]: a path that is no directory is HTTP 404 whatever the
    type; any type but 'project' goes to the inherited [new_untitled]; for
    'project' the name comes from [increment_filename] and the model handed
    to the inherited [new] has type 'directory' -- the mixin's [new] does
    not route it to [save] as a project, and [save] of that model runs
    [_save_directory]. *)
Theorem new_untitled_project_is_directory (path ext : string) (st : St) :
  (dir_exists (strip_slash path) st = false ->
   forall type,
     new_untitled path type ext st
     = (Raises (HTTPError 404 ("No such directory: " +:+ strip_slash path)
                  None), st))
  /\ (dir_exists (strip_slash path) st = true ->
      (forall type,
         type <> "project" ->
         new_untitled path type ext st
         = super_new_untitled (strip_slash path) type ext st)
      /\ (forall name st1,
            increment_filename (untitled_project traits) (strip_slash path)
              " " st = (Returns name, st1) ->
            new_untitled path "project" ext st
            = super_new save (Some untitled_project_model)
                (strip_slash path +:+ "/" +:+ name) st1))
  /\ (forall p s s0 m',
        run_pre_save_hook untitled_project_model (strip_slash p) s
        = (Returns m', s0) ->
        m' !! "type" = Some (VStr "directory") ->
        _contains_swan_folder_name (_get_os_path (strip_slash p)) = false ->
        save untitled_project_model p s
        = bind (catch (bind (_save_directory (_get_os_path (strip_slash p))
                               m' (strip_slash p)) (fun _ => ret ∅))
                      (fun e => raise (as_500 (strip_slash p) e)))
               (save_finish (VStr "directory") (_get_os_path (strip_slash p))
                  m' (strip_slash p)) s0).
Proof.
  split; [| split].
  - intros Hd type. unfold new_untitled. now rewrite bind_gets, Hd.
  - intros Hd. split.
    + intros type Hty. unfold new_untitled. rewrite bind_gets, Hd.
      apply String.eqb_neq in Hty. now rewrite Hty.
    + intros name st1 Hinc. unfold new_untitled. rewrite bind_gets, Hd.
      cbn [negb]. rewrite String.eqb_refl.
      rewrite (bind_returns _ _ _ _ _ Hinc).
      fold untitled_project_model. unfold new.
      now rewrite untitled_project_model_type.
  - intros p s s0 m' Hh Ht Hname.
    apply (save_runs_routine s s0 untitled_project_model m' p "directory");
      auto; discriminate.
Qed.

(** X5.  The projects folder itself fails the restricted-name test: [update]
    and [save] refuse its path with HTTP 400. *)
Theorem projects_root_reserved :
  has_char "/" folder = false ->
  _contains_swan_folder_name (root +:+ "/" +:+ folder) = true
  /\ (forall (m : model) path (st : St),
        _get_os_path path = root +:+ "/" +:+ folder ->
        update m path st
        = (Raises (HTTPError 400
                     ("The name " +:+ folder +:+ " is restricted") None), st))
  /\ (forall (m m' : model) path (st st0 : St),
        _get_os_path (strip_slash path) = root +:+ "/" +:+ folder ->
        has_chunk m = false ->
        run_pre_save_hook m (strip_slash path) st = (Returns m', st0) ->
        exists msg, save m path st = (Raises (HTTPError 400 msg None), st0)).
Proof.
  intros Hf.
  assert (_contains_swan_folder_name (root +:+ "/" +:+ folder) = true) as Hr.
  { rewrite contains_swan_folder_name_elsewhere.
    - apply existsb_component.
      change (root +:+ "/" +:+ folder) with (root +:+ String "/" folder).
      destruct (split_after_sep "/" root folder) as (h & l & ->).
      rewrite (split_plain "/" folder Hf).
      right. apply in_or_app. right. now left.
    - apply occurs_longer. rewrite !length_append. cbn. lia. }
  split; [exact Hr |]. split.
  - intros m path st Hos. unfold update. now rewrite Hos, Hr.
  - intros m m' path st st0 Hos Hc Hh.
    destruct (m' !! "type") as [ty|] eqn:Ht.
    + rewrite (save_after_hook st st0 m m' path ty) by assumption.
      rewrite Hos, Hr. destruct (_ && _); eexists; reflexivity.
    + unfold save. rewrite Hc. unfold bind at 1. rewrite Hh, Ht.
      eexists. reflexivity.
Qed.

(** X6.  [save] of a notebook: the content is converted, signed and written in
    that order, the model is validated after the write, and the model
    returned is that of [get] without content, with the validation message
    under ['message'] when there is one. *)
Theorem save_notebook_message (st st0 st1 st2 st3 st4 : St) (m m' m2 : model)
    (path : string) (c nb : value) (ve : model) :
  has_chunk m = false ->
  run_pre_save_hook m (strip_slash path) st = (Returns m', st0) ->
  m' !! "type" = Some (VStr "notebook") ->
  m' !! "content" = Some c ->
  _contains_swan_folder_name (_get_os_path (strip_slash path)) = false ->
  nbformat_from_dict c st0 = (Returns nb, st1) ->
  check_and_sign nb (strip_slash path) st1 = (Returns tt, st2) ->
  _save_notebook (_get_os_path (strip_slash path)) nb st2 = (Returns ve, st3) ->
  validate_notebook_model m' ve st3 = (Returns m2, st4) ->
  save m path st
  = bind (get (strip_slash path) false None None)
      (fun saved =>
         run_post_save_hook
           (if truthy (default VNone (m2 !! "message"))
            then <[ "message" := default VNone (m2 !! "message") ]> saved
            else saved)
           (_get_os_path (strip_slash path))) st4.
Proof.
  intros Hc Hh Ht Hcontent Hname Hnb Hsign Hsave Hval.
  rewrite (save_runs_routine st st0 m m' path "notebook"
             (bind (nbformat_from_dict c) (fun nb =>
              bind (check_and_sign nb (strip_slash path)) (fun _ =>
              _save_notebook (_get_os_path (strip_slash path)) nb)))
             Hc Hh Ht).
  - unfold bind at 1. unfold catch.
    rewrite (bind_returns _ _ _ _ _ Hnb), (bind_returns _ _ _ _ _ Hsign).
    rewrite Hsave. unfold save_finish.
    change (value_eqb (VStr "notebook") (VStr "notebook")) with true.
    cbn iota. unfold bind at 1.
    rewrite (bind_returns _ _ _ _ _ Hval). unfold ret at 1. reflexivity.
  - unfold save_routine. cbn. now rewrite Hcontent.
  - left. unfold has_key. now rewrite Hcontent.
  - assumption.
  - discriminate.
Qed.

(** X7.  Leading and trailing slashes of the path make no difference to [get],
    to [save] of a model without a chunk, or to [new_untitled]. *)
Theorem path_slashes_ignored (path : string) (st : St) :
  (forall content type format,
     get path content type format st
     = get (strip_slash path) content type format st)
  /\ (forall m, has_chunk m = false ->
        save m path st = save m (strip_slash path) st)
  /\ (forall type ext,
        new_untitled path type ext st
        = new_untitled (strip_slash path) type ext st).
Proof.
  split; [| split].
  - intros content type format. unfold get.
    unfold strip_slash. now rewrite strip_idempotent.
  - intros m Hc. unfold save. rewrite Hc.
    unfold strip_slash. now rewrite strip_idempotent.
  - intros type ext. unfold new_untitled.
    unfold strip_slash. now rewrite strip_idempotent.
Qed.

End Saving.

Section MoreStrings.

Lemma rfind_absent (c : ascii) (s : string) :
  has_char c s = false -> rfind c s = None.
Proof.
  induction s as [|a s IH]; [reflexivity |].
  cbn [has_char rfind]. intros Hc. apply orb_false_iff in Hc as [Ha Hs].
  now rewrite IH, Ha.
Qed.

Lemma rfind_append (c : ascii) (a b : string) (i : nat) :
  rfind c b = Some i -> rfind c (a +:+ b) = Some (String.length a + i).
Proof.
  intros Hb. induction a as [|x a IH]; [exact Hb |].
  cbn [append rfind String.length]. now rewrite IH.
Qed.

Lemma take_append_length (a b : string) :
  PyStr.take (String.length a) (a +:+ b) = a.
Proof. induction a as [|x a IH]; cbn; [now destruct b | now rewrite IH]. Qed.

Lemma drop_append_length (a b : string) :
  PyStr.drop (String.length a) (a +:+ b) = b.
Proof. induction a as [|x a IH]; [reflexivity | exact IH]. Qed.

Lemma endswith_suffix (a p : string) : endswith (a +:+ p) p = true.
Proof.
  unfold endswith. rewrite length_append.
  replace (String.length a + String.length p - String.length p)
    with (String.length a) by lia.
  rewrite drop_append_length, String.eqb_refl.
  rewrite andb_true_r. apply Nat.leb_le. lia.
Qed.

Lemma all_char_absent (c : ascii) (s : string) :
  s <> "" -> has_char c s = false -> all_char c s = false.
Proof.
  destruct s as [|a s]; [congruence |]. intros _. cbn [has_char all_char].
  intros Hc. apply orb_false_iff in Hc as [Ha _]. now rewrite Ha.
Qed.

(** [os.path.splitext] takes the extension off a plain name. *)
Lemma splitext_root_plain (name ext : string) :
  name <> "" -> has_char "/" name = false -> has_char "." name = false ->
  has_char "/" ext = false -> has_char "." ext = false ->
  splitext_root (name +:+ String "." ext) = name.
Proof.
  intros Hne Hs Hd Hes Hed. unfold splitext_root.
  rewrite (rfind_absent "/") by
    (rewrite has_char_append, Hs; cbn [has_char orb]; now rewrite Hes).
  rewrite (rfind_append "." name (String "." ext) 0) by
    (cbn [rfind]; now rewrite (rfind_absent "." ext Hed)).
  rewrite Nat.add_0_r, Nat.sub_0_r. cbn [PyStr.drop].
  rewrite take_append_length, (all_char_absent "." name Hne Hd).
  cbn [negb]. rewrite andb_true_r.
  destruct name as [|x name]; [congruence | reflexivity].
Qed.

Lemma rstrip_absent (s : string) :
  has_char "/" s = false -> rstrip is_slash s = s.
Proof.
  induction s as [|a s IH]; [reflexivity |]. cbn [has_char rstrip].
  intros Hc. apply orb_false_iff in Hc as [Ha Hs]. rewrite (IH Hs).
  unfold is_slash. rewrite Ha. now destruct s.
Qed.

End MoreStrings.

Section Importing.

Context {St : Type} {H : Host St}.

Local Abbreviation root := (root_dir traits).
Local Abbreviation folder := (swan_default_folder traits).
Local Abbreviation file := (swan_default_file traits).

Lemma free_count_least (fuel : nat) (dest : string) (count c : nat) (st : St) :
  free_count fuel dest count st = Some c ->
  forall j, count <= j < c -> _is_dir (dest +:+ pretty j) st = true.
Proof.
  revert count. induction fuel as [|fuel IH]; intros count; [discriminate |].
  cbn [free_count]. destruct (_is_dir (dest +:+ pretty count) st) eqn:Hd.
  - intros Hc j Hj. destruct (Nat.eq_dec j count) as [-> | Hne];
      [exact Hd |]. apply (IH _ Hc). lia.
  - intros E j Hj. inversion E; subst. lia.
Qed.

(** X8.  [move_folder] keeps the name it is given when that is free; otherwise it
    appends the least count, from 1 on, that gives a name not taken.  The
    folder it returns does not depend on how far the search was allowed to
    go. *)
Theorem move_folder_least_count (fuel : nat) (origin dest d : string)
    (preserve : bool) (st st' : St) :
  move_folder fuel origin dest preserve st = (Returns d, st') ->
  (_is_dir dest st = false -> d = dest)
  /\ (_is_dir dest st = true ->
      exists c,
        1 <= c /\ d = dest +:+ pretty c
        /\ _is_dir (dest +:+ pretty c) st = false
        /\ forall j, 1 <= j < c -> _is_dir (dest +:+ pretty j) st = true)
  /\ (forall fuel' d' st'',
        move_folder fuel' origin dest preserve st = (Returns d', st'') ->
        d' = d /\ st'' = st').
Proof.
  intros Hm.
  apply move_folder_inv in Hm as (st1 & Hfresh & Hmv & Hsave).
  assert (forall f x, fresh_dest f dest st = (Returns x, st) ->
            (_is_dir dest st = false -> x = dest)
            /\ (_is_dir dest st = true ->
                exists c,
                  1 <= c /\ x = dest +:+ pretty c
                  /\ _is_dir (dest +:+ pretty c) st = false
                  /\ forall j, 1 <= j < c ->
                       _is_dir (dest +:+ pretty j) st = true)) as Hspec.
  { intros f x. unfold fresh_dest. destruct (_is_dir dest st) eqn:Hd.
    - destruct (free_count f dest 1 st) as [c|] eqn:Hc; [| discriminate].
      intros E. inversion E; subst. split; [discriminate |]. intros _.
      exists c. pose proof (free_count_sound _ _ _ _ _ Hc) as [Hle Hfree].
      repeat split; try assumption. now apply (free_count_least f dest 1 c). 
    - intros E. inversion E; subst. split; [reflexivity | discriminate]. }
  destruct (Hspec fuel d Hfresh) as [Hfree Htaken].
  split; [exact Hfree |]. split; [exact Htaken |].
  intros fuel' d' st'' Hm'.
  apply move_folder_inv in Hm' as (st1' & Hfresh' & Hmv' & Hsave').
  destruct (Hspec fuel' d' Hfresh') as [Hfree' Htaken'].
  assert (d' = d) as ->.
  { destruct (_is_dir dest st) eqn:Hd.
    - destruct (Htaken eq_refl) as (c & Hc1 & -> & Hcf & Hcl).
      destruct (Htaken' eq_refl) as (c' & Hc1' & -> & Hcf' & Hcl').
      destruct (Nat.lt_trichotomy c c') as [Hlt | [-> | Hlt]];
        [| reflexivity |].
      + rewrite (Hcl' c) in Hcf by lia. discriminate.
      + rewrite (Hcl c') in Hcf' by lia. discriminate.
    - now rewrite Hfree, Hfree'. }
  split; [reflexivity |]. congruence.
Qed.

(** X9.  A file fetched over HTTP whose name ends in [.zip] reaches the name
    [zipfile], which the module never binds: [download] raises [NameError]
    right after the request, before anything is written or moved. *)
Theorem download_zip_unbound (fuel : nat) (url tmp : string) (r : value)
    (st st1 st2 : St) :
  mkdtemp st = (Returns tmp, st1) ->
  classify url = HttpUrl ->
  requests_get url st1 = (Returns r, st2) ->
  endswith (http_file_name url r) ".zip" = true ->
  download fuel url st = (Raises zipfile_unbound, st2).
Proof.
  intros Hmk Hc Hget Hzip.
  rewrite (download_branch fuel url tmp st st1 Hmk), Hc.
  apply bind_raises. unfold download_http.
  rewrite (bind_returns _ _ _ _ _ Hget).
  fold (http_file_name url r). now rewrite Hzip.
Qed.

(** X10.  Cloning [<base>/<name>.git] when [root_dir/folder/<name>] is free
    and [root_dir] does not occur in [/folder/<name>]: the clone is moved
    there, the sentinel file is written into it, and the model returned is
    [{'type': 'directory', 'path': 'folder/<name>'}]. *)
Theorem download_git_lands (fuel : nat) (base name tmp : string)
    (st st1 st2 st3 st4 : St) :
  root <> "" -> endswith root "/" = false ->
  folder <> "" -> has_char "/" folder = false ->
  name <> "" -> has_char "/" name = false -> has_char "." name = false ->
  occurs root ("/" +:+ folder +:+ "/" +:+ name) = false ->
  mkdtemp st = (Returns tmp, st1) ->
  git_clone (base +:+ "/" +:+ name +:+ ".git") tmp st1 = (Returns 0%Z, st2) ->
  _is_dir (root +:+ "/" +:+ folder +:+ "/" +:+ name) st2 = false ->
  _move tmp (root +:+ "/" +:+ folder +:+ "/" +:+ name) false st2
  = (Returns tt, st3) ->
  _save_file (path_join (root +:+ "/" +:+ folder +:+ "/" +:+ name) file)
    (VStr "") (VStr "text") st3 = (Returns tt, st4) ->
  download fuel (base +:+ "/" +:+ name +:+ ".git") st
  = (Returns (<[ "path" := VStr (folder +:+ "/" +:+ name) ]>
                (<[ "type" := VStr "directory" ]> ∅)), st4).
Proof.
  intros Hr Hre Hf Hfs Hn Hns Hnd Ho Hmk Hclone Hfree Hmove Hsave.
  set (url := base +:+ "/" +:+ name +:+ ".git") in *.
  assert (has_char "/" (name +:+ ".git") = false) as Hng
    by (rewrite has_char_append, Hns; reflexivity).
  assert (basename url = name +:+ ".git") as Hbase.
  { unfold basename, url.
    change (base +:+ "/" +:+ name +:+ ".git")
      with (base +:+ String "/" (name +:+ ".git")).
    now apply last_component_after_sep. }
  assert (import_dest (splitext_root (basename url))
          = root +:+ "/" +:+ folder +:+ "/" +:+ name) as Hdest.
  { rewrite Hbase.
    change (name +:+ ".git") with (name +:+ String "." "git").
    rewrite splitext_root_plain by (try assumption; reflexivity).
    apply import_dest_plain; try assumption.
    now apply startswith_has_char. }
  assert (classify url = GitUrl) as Hc.
  { unfold classify, url.
    replace (base +:+ "/" +:+ name +:+ ".git")
      with ((base +:+ "/" +:+ name) +:+ ".git")
      by now rewrite !append_assoc.
    now rewrite endswith_suffix. }
  rewrite (download_branch fuel url tmp st st1 Hmk), Hc.
  rewrite (bind_returns _ _ st1 st4
             (import_model "directory"
                (root +:+ "/" +:+ folder +:+ "/" +:+ name))).
  - rewrite relativise_import_model.
    rewrite relative_path_under_projects; try assumption.
    + now rewrite rstrip_absent.
    + rewrite rstrip_absent; assumption.
  - unfold download_git. rewrite (bind_returns _ _ _ _ _ Hclone).
    cbn [Z.eqb negb]. fold (import_dest (splitext_root (basename url))).
    rewrite Hdest. unfold move_folder, fresh_dest.
    unfold bind at 1. unfold bind at 1. rewrite Hfree.
    rewrite (bind_returns _ _ _ _ _ Hmove).
    now rewrite (bind_returns _ _ _ _ _ Hsave).
Qed.

End Importing.

End MixinProps.

(** ** Further properties of the kernel extension *)

Module KernelProps.
Import Py PyFacts Connector ConnectorProps.
Local Open Scope py_scope.

Lemma new_events_same (st : kstate) : new_events st st = [].
Proof.
  rewrite <- (add_events_nil st) at 2. apply new_events_add.
Qed.

(** [open_session] when every step succeeds. *)
Lemma open_session_success (K : Kernel) (opts : data) (shared : bool)
    (c c' : conf) (sc spark : nat) (st : kstate) :
  configure K (log4j_file st) opts c = (Returns tt, c') ->
  spark_context K c' = inr sc -> spark_session K sc = inr spark ->
  exists st',
    open_session K opts shared c st = (Returns tt, st')
    /\ connected st' = true
    /\ user_ns st' = bind_session c' sc spark (user_ns st)
    /\ trace st' = trace st ++ session_events c' sc spark.
Proof.
  intros Hcfg Hsc Hss. unfold open_session. rewrite bind_gets, Hcfg.
  cbn [fst snd].
  unfold bind, gets, set_user_ns, modify, emit, modify, push, send_ok,
    send, emit, modify, set_connected, ret.
  destruct shared; cbn -[insert]; rewrite Hsc; cbn -[insert]; rewrite Hss;
    cbn -[insert]; eexists; split; try reflexivity; cbn -[insert];
    repeat split; unfold bind_session;
    rewrite ?insert_insert_eq, <- ?app_assoc; reflexivity.
Qed.

Ltac events_of :=
  unfold sent_messages, pushed, contexts_created, credential_calls,
    session_events, gate_events;
  rewrite ?flat_map_app, ?List.filter_app; cbn.

(** X11.  A connect message that passes every test, with a port number
    from 0 to 65535 in [SPARK_PORT_1] that nothing listens on: the
    configuration object is configured, context and session are created
    from it, the three names are bound in the user namespace, the one
    reply is [{'msgtype': 'sparkconn-connected'}], and the flag is set. *)
Theorem connect_opens_session (K : Kernel) (msg : data) (st : kstate)
    (shared : bool) (c c' : conf) (sc spark : nat) :
  action msg = "sparkconn-action-connect" ->
  connected st = false ->
  credentials_pass K st ->
  port_probe K false ->
  chosen_conf st = Some (shared, c) ->
  configure K (log4j_file st) msg c = (Returns tt, c') ->
  spark_context K c' = inr sc ->
  spark_session K sc = inr spark ->
  fst (handle_comm_message K msg st) = Returns tt
  /\ connected (snd (handle_comm_message K msg st)) = true
  /\ user_ns (snd (handle_comm_message K msg st))
     = bind_session c' sc spark (user_ns st)
  /\ sent_messages (new_events st (snd (handle_comm_message K msg st)))
     = [<[ "msgtype" := JStr "sparkconn-connected" ]> ∅]
  /\ pushed (new_events st (snd (handle_comm_message K msg st)))
     = [[("swan_spark_conf", OSparkConf c'); ("sc", OSparkContext sc);
         ("spark", OSparkSession spark)]]
  /\ contexts_created (new_events st (snd (handle_comm_message K msg st)))
     = [c'].
Proof.
  intros Ha Hc Hpass Hprobe Hch Hcfg Hsc Hss.
  rewrite (handle_connect_past_gate K msg st Ha Hc Hpass).
  destruct (is_port_in_use_probe K (add_events (gate_events st) st) false
              Hprobe) as (port & Hrun).
  rewrite (bind_returns _ _ _ _ _ Hrun), add_gate_probe.
  set (st2 := add_events (gate_events st ++ [EvProbePort port]) st).
  destruct (connect_body_chosen K msg shared c st2 Hch) as (pre & Hpre & Hbody).
  destruct (open_session_success K msg shared c c' sc spark
              (add_events pre st2) Hcfg Hsc Hss)
    as (st3 & Hopen & Hconn & Hns & Htr).
  unfold catch. rewrite Hbody, Hopen. cbn [fst snd].
  split; [reflexivity |]. split; [exact Hconn |]. split; [exact Hns |].
  rewrite (new_events_app st st3
             ((gate_events st ++ [EvProbePort port]) ++ pre
              ++ session_events c' sc spark))
    by (rewrite Htr; cbn [st2 trace add_events]; now rewrite <- !app_assoc).
  destruct Hpre as [-> | (text & ->)]; events_of;
    destruct (needs_auth st); repeat split; reflexivity.
Qed.

(** What [open_session] adds to the trace: no run of a credential tool,
    and one message exactly when it returns. *)
Lemma open_session_events (K : Kernel) (opts : data) (shared : bool)
    (c : conf) (st : kstate) :
  exists evs,
    trace (snd (open_session K opts shared c st)) = trace st ++ evs
    /\ credential_calls evs = []
    /\ match fst (open_session K opts shared c st) with
       | Returns _ => length (sent_messages evs) = 1
       | Raises _ => sent_messages evs = []
       | OutOfFuel => False
       end.
Proof.
  unfold open_session. rewrite bind_gets.
  pose proof (configure_total K (log4j_file st) opts c) as Ht.
  destruct (configure K (log4j_file st) opts c) as [[[]| e |] c'];
    cbn [fst snd] in *; [| | congruence].
  - unfold bind, gets, set_user_ns, modify, emit, modify, push, send_ok,
      send, emit, modify, set_connected, ret, raise.
    destruct shared; cbn -[insert];
      (destruct (spark_context K c') as [err|sc]; cbn -[insert];
       [| destruct (spark_session K sc) as [err|spark]; cbn -[insert]]);
      eexists; (split; [rewrite <- ?app_assoc; reflexivity |]);
      split; reflexivity.
  - unfold bind, gets, set_user_ns, modify, ret, raise.
    destruct shared; cbn -[insert]; exists []; rewrite app_nil_r;
      repeat split; reflexivity.
Qed.

(** The [try] block with its handler: it always returns, having sent one
    message and run no credential tool. *)
Lemma guarded_body_events (K : Kernel) (msg : data) (st : kstate) :
  exists evs,
    trace (snd (catch (connect_body K msg) report_failure st))
    = trace st ++ evs
    /\ credential_calls evs = []
    /\ length (sent_messages evs) = 1
    /\ fst (catch (connect_body K msg) report_failure st) = Returns tt.
Proof.
  assert (forall pre shared c,
            credential_calls pre = [] -> sent_messages pre = [] ->
            exists evs,
              trace (snd (catch (open_session K msg shared c) report_failure
                            (add_events pre st))) = trace st ++ evs
              /\ credential_calls evs = []
              /\ length (sent_messages evs) = 1
              /\ fst (catch (open_session K msg shared c) report_failure
                        (add_events pre st)) = Returns tt) as Hopen.
  { intros pre shared c Hpc Hps.
    destruct (open_session_events K msg shared c (add_events pre st))
      as (evs & Htr & Hcc & Hsent).
    unfold catch.
    destruct (open_session K msg shared c (add_events pre st))
      as [[[]| e |] st1]; cbn [fst snd trace add_events] in *;
      [| | contradiction].
    - exists (pre ++ evs). rewrite Htr, <- app_assoc.
      unfold credential_calls, sent_messages in *.
      rewrite List.filter_app, flat_map_app, Hpc, Hps, Hcc. auto.
    - exists (pre ++ evs
              ++ [EvSend (error_message "sparkconn-config" (exn_str e));
                  EvLog "error" "Error creating Spark conf"]).
      unfold report_failure, bind, send_error, send, emit, modify.
      cbn [fst snd trace add_events]. rewrite Htr, <- !app_assoc.
      unfold credential_calls, sent_messages in *.
      rewrite !List.filter_app, !flat_map_app, Hpc, Hps, Hcc, Hsent. auto. }
  destruct (chosen_conf st) as [[shared c]|] eqn:Hch.
  - destruct (connect_body_chosen K msg shared c st Hch)
      as (pre & Hpre & Hbody).
    unfold catch in *. rewrite Hbody.
    apply Hopen; destruct Hpre as [-> | (text & ->)]; reflexivity.
  - unfold chosen_conf in Hch. unfold catch, connect_body.
    rewrite bind_gets.
    destruct (user_ns st !! "swan_spark_conf") as [o|]; [| discriminate].
    cbn [default from_option id].
    destruct o as [| b | n | s | c0 | id | id | name truth debug];
      cbn [truthy_obj] in *;
      repeat match goal with
             | H : context [if ?t then _ else _] |- _ => destruct t
             end;
      try discriminate;
      try (unfold raise, report_failure, bind, send_error, send, emit,
             modify; cbn [fst snd trace add_events];
           eexists; split; [rewrite <- ?app_assoc; reflexivity |];
           repeat split; reflexivity).
    destruct debug as [text|];
      unfold raise, report_failure, bind, send_error, send, emit, modify;
      cbn [fst snd trace add_events];
      eexists; (split; [rewrite <- ?app_assoc; reflexivity |]);
      repeat split; reflexivity.
Qed.

(** What one call of the handler adds to the trace. *)
Lemma handle_events (K : Kernel) (msg : data) (st : kstate) :
  exists evs,
    trace (snd (handle_comm_message K msg st)) = trace st ++ evs
    /\ credential_calls evs
       = (if String.eqb (action msg) "sparkconn-action-auth" then
            match password msg with Some pw => [EvKinit pw] | None => [] end
          else if String.eqb (action msg) "sparkconn-action-connect" then
            if connected st then [] else gate_events st
          else [])
    /\ match fst (handle_comm_message K msg st) with
       | Returns _ =>
           length (sent_messages evs)
           = if String.eqb (action msg) "sparkconn-action-auth"
                || String.eqb (action msg) "sparkconn-action-connect"
             then 1 else 0
       | Raises _ => sent_messages evs = []
       | OutOfFuel => False
       end.
Proof.
  unfold handle_comm_message.
  destruct (String.eqb (action msg) "sparkconn-action-auth").
  { destruct (password msg) as [pw|].
    - unfold bind, emit, modify, send_ok, send_error, send, emit, modify.
      destruct (Z.eqb (kinit_status K pw) 0); cbn [fst snd trace add_events];
        eexists; (split; [rewrite <- ?app_assoc; reflexivity |]);
        split; reflexivity.
    - exists []. rewrite app_nil_r. repeat split; reflexivity. }
  destruct (String.eqb (action msg) "sparkconn-action-connect").
  2: { unfold emit, modify. cbn [fst snd trace add_events orb].
       eexists. split; [reflexivity |]. split; reflexivity. }
  cbn [orb]. rewrite bind_gets.
  destruct (connected st) eqn:Hc.
  { unfold send_ok, send, emit, modify. cbn [fst snd trace add_events].
    eexists. split; [reflexivity |]. split; reflexivity. }
  rewrite bind_gets.
  assert (forall st1,
            trace st1 = trace st ++ gate_events st ->
            exists evs,
              trace (snd (bind (is_port_in_use K)
                            (fun in_use =>
                               if in_use
                               then send_error "sparkconn-config"
                                      port_in_use_error
                               else catch (connect_body K msg) report_failure)
                            st1)) = trace st ++ evs
              /\ credential_calls evs = gate_events st
              /\ match fst (bind (is_port_in_use K)
                              (fun in_use =>
                                 if in_use
                                 then send_error "sparkconn-config"
                                        port_in_use_error
                                 else catch (connect_body K msg)
                                        report_failure) st1) with
                 | Returns _ => length (sent_messages evs) = 1
                 | Raises _ => sent_messages evs = []
                 | OutOfFuel => False
                 end) as Hrest.
  { intros st1 Htr1.
    assert (credential_calls (gate_events st) = gate_events st
            /\ sent_messages (gate_events st) = []) as [Hg1 Hg2]
      by (unfold gate_events; destruct (needs_auth st); split; reflexivity).
    destruct (is_port_in_use_result K st1)
      as [(e & Hrun) | (s & port & _ & _ & Hrun)].
    - rewrite (bind_raises _ _ _ _ _ Hrun). cbn [fst snd].
      exists (gate_events st). auto.
    - rewrite (bind_returns _ _ _ _ _ Hrun).
      destruct (host_resolves K && port_accepts K port).
      + unfold send_error, send, emit, modify. cbn [fst snd trace add_events].
        exists (gate_events st
                ++ [EvProbePort port;
                    EvSend (error_message "sparkconn-config"
                              port_in_use_error)]).
        rewrite Htr1, <- !app_assoc.
        unfold credential_calls, sent_messages in *.
        rewrite List.filter_app, flat_map_app, Hg1, Hg2. cbn.
        rewrite app_nil_r. auto.
      + destruct (guarded_body_events K msg (add_events [EvProbePort port] st1))
          as (evs & Htr & Hcc & Hsent & Hret).
        rewrite Hret. cbn [trace add_events] in Htr.
        exists (gate_events st ++ [EvProbePort port] ++ evs).
        rewrite Htr, Htr1, <- !app_assoc.
        unfold credential_calls, sent_messages in *.
        rewrite !List.filter_app, !flat_map_app, Hg1, Hg2, Hcc. cbn.
        rewrite app_nil_r. auto. }
  unfold gate_events in *.
  destruct (needs_auth st).
  - unfold bind at 1. unfold bind at 1. unfold emit at 1. unfold modify.
    unfold ret at 1.
    destruct (Z.eqb (klist_status K) 0); cbn [negb].
    + apply Hrest. reflexivity.
    + unfold send_error, send, emit, modify. cbn [fst snd trace add_events].
      eexists. split; [rewrite <- app_assoc; reflexivity |].
      split; reflexivity.
  - rewrite bind_ret. apply Hrest. now rewrite app_nil_r.
Qed.

(** X12.  The handler answers a comm message at most once: exactly once for an
    auth or a connect message it handles to the end, never for any other
    action, and never when it raises (an auth message without a password,
    a connect message when [SPARK_PORT_1] holds no number, or a number
    that [socket.connect] refuses as a port); it never runs out of
    steps. *)
Theorem handler_replies_at_most_once (K : Kernel) (msg : data) (st : kstate) :
  length (sent_messages (new_events st (snd (handle_comm_message K msg st))))
  <= 1
  /\ (fst (handle_comm_message K msg st) = Returns tt ->
      length (sent_messages
                (new_events st (snd (handle_comm_message K msg st))))
      = if String.eqb (action msg) "sparkconn-action-auth"
           || String.eqb (action msg) "sparkconn-action-connect"
        then 1 else 0)
  /\ (forall e,
        fst (handle_comm_message K msg st) = Raises e ->
        sent_messages (new_events st (snd (handle_comm_message K msg st)))
        = [])
  /\ fst (handle_comm_message K msg st) <> OutOfFuel.
Proof.
  destruct (handle_events K msg st) as (evs & Htr & _ & Hsent).
  rewrite (new_events_app _ _ _ Htr).
  destruct (fst (handle_comm_message K msg st)) as [[]| e |];
    [| | contradiction].
  - repeat split; try congruence.
    rewrite Hsent. destruct (_ || _); lia.
  - rewrite Hsent. repeat split; try congruence. cbn. lia.
Qed.

(** X13.  The credential tools run only where the handler is asked to: [kinit]
    once, on the password, for an auth message that carries one; [klist]
    once for a connect message that arrives while not connected on a
    cluster that needs authentication; neither in any other case. *)
Theorem credential_tools_on_request (K : Kernel) (msg : data) (st : kstate) :
  credential_calls (new_events st (snd (handle_comm_message K msg st)))
  = if String.eqb (action msg) "sparkconn-action-auth" then
      match password msg with Some pw => [EvKinit pw] | None => [] end
    else if String.eqb (action msg) "sparkconn-action-connect" then
      if connected st then [] else
      if needs_auth st then [EvKlist] else []
    else [].
Proof.
  destruct (handle_events K msg st) as (evs & Htr & Hcc & _).
  now rewrite (new_events_app _ _ _ Htr), Hcc.
Qed.

(** X14.  A connect message on a cluster that needs authentication, without a
    valid ticket: [klist] is run, the reply is [{'msgtype':
    'sparkconn-auth', 'error': 'No valid credentials provided.'}], and
    nothing else happens -- the port is not probed, no context is created,
    the state is as before. *)
Theorem connect_without_ticket (K : Kernel) (msg : data) (st : kstate) :
  action msg = "sparkconn-action-connect" ->
  connected st = false ->
  needs_auth st = true -> klist_status K <> 0%Z ->
  fst (handle_comm_message K msg st) = Returns tt
  /\ new_events st (snd (handle_comm_message K msg st))
     = [EvKlist;
        EvSend (<[ "error" := JStr "No valid credentials provided." ]>
                  (<[ "msgtype" := JStr "sparkconn-auth" ]> ∅))]
  /\ connected (snd (handle_comm_message K msg st)) = false
  /\ user_ns (snd (handle_comm_message K msg st)) = user_ns st.
Proof.
  intros Ha Hc Hn Hk.
  rewrite (handle_connect_no_ticket K msg st Ha Hc Hn Hk). cbn [fst snd].
  rewrite new_events_add. repeat split. exact Hc.
Qed.

(** X15.  A connect message when [SPARK_PORT_1] is not set, or is no number: the
    probe raises ([TypeError], respectively [ValueError]) outside the
    [try] block, so the handler raises without a reply; the state is as
    before but for the run of [klist]. *)
Theorem connect_without_port (K : Kernel) (msg : data) (st : kstate) :
  action msg = "sparkconn-action-connect" ->
  connected st = false ->
  credentials_pass K st ->
  (environ K !! "SPARK_PORT_1" = None ->
   exists text,
     handle_comm_message K msg st
     = (Raises (PyError "TypeError" text), add_events (gate_events st) st))
  /\ (forall s,
        environ K !! "SPARK_PORT_1" = Some s -> py_int K s = None ->
        exists text,
          handle_comm_message K msg st
          = (Raises (PyError "ValueError" text),
             add_events (gate_events st) st))
  /\ sent_messages (new_events st (add_events (gate_events st) st)) = []
  /\ connected (add_events (gate_events st) st) = false
  /\ user_ns (add_events (gate_events st) st) = user_ns st.
Proof.
  intros Ha Hc Hpass.
  rewrite (handle_connect_past_gate K msg st Ha Hc Hpass).
  split; [| split].
  - intros He. eexists. apply bind_raises.
    unfold is_port_in_use. rewrite He. reflexivity.
  - intros s He Hi. eexists. apply bind_raises.
    unfold is_port_in_use. rewrite He, Hi. reflexivity.
  - rewrite new_events_add. unfold gate_events.
    destruct (needs_auth st); repeat split; assumption.
Qed.

(** X16.  [target_func]: one message [{'msgtype': 'sparkconn-action-open',
    'maxmemory': ..., 'cluster': ..., 'page': ...}] with [MAX_MEMORY] of the
    environment and the cluster name ([null] when there is none), and as
    page 'sparkconn-connected' when connected, else 'sparkconn-auth' on a
    cluster that needs authentication when [klist] fails, else
    'sparkconn-config'; [klist] is run only when not connected on a cluster
    that needs authentication; flag and namespace are untouched.  The page
    agrees with what a connect message gets next: the reply
    [{'msgtype': 'sparkconn-connected'}] when connected, and the error on
    'sparkconn-auth' when the ticket is missing. *)
Theorem target_func_page (K : Kernel) (text : string) (st : kstate) :
  fst (target_func K text st) = Returns tt
  /\ sent_messages (new_events st (snd (target_func K text st)))
     = [<[ "page"
           := JStr (if connected st then "sparkconn-connected"
                    else if needs_auth st && negb (Z.eqb (klist_status K) 0)
                         then "sparkconn-auth"
                         else "sparkconn-config") ]>
          (<[ "cluster"
              := match cluster_name st with
                 | Some name => JStr name
                 | None => JNull
                 end ]>
             (<[ "maxmemory"
                 := match environ K !! "MAX_MEMORY" with
                    | Some limit => JStr limit
                    | None => JNull
                    end ]>
                (<[ "msgtype" := JStr "sparkconn-action-open" ]> ∅)))]
  /\ credential_calls (new_events st (snd (target_func K text st)))
     = (if connected st then [] else
        if needs_auth st then [EvKlist] else [])
  /\ connected (snd (target_func K text st)) = connected st
  /\ needs_auth (snd (target_func K text st)) = needs_auth st
  /\ user_ns (snd (target_func K text st)) = user_ns st
  /\ (forall msg,
        action msg = "sparkconn-action-connect" ->
        (connected st = true ->
         sent_messages
           (new_events (snd (target_func K text st))
              (snd (handle_comm_message K msg (snd (target_func K text st)))))
         = [<[ "msgtype" := JStr "sparkconn-connected" ]> ∅])
        /\ (connected st = false -> needs_auth st = true ->
            klist_status K <> 0%Z ->
            sent_messages
              (new_events (snd (target_func K text st))
                 (snd (handle_comm_message K msg
                         (snd (target_func K text st)))))
            = [<[ "error" := JStr "No valid credentials provided." ]>
                 (<[ "msgtype" := JStr "sparkconn-auth" ]> ∅)])).
Proof.
  assert (exists evs,
            target_func K text st = (Returns tt, add_events evs st)
            /\ sent_messages evs
               = [open_message (environ K !! "MAX_MEMORY") (cluster_name st)
                    (page_shown K st)]
            /\ credential_calls evs
               = (if connected st then [] else gate_events st)) as Hrun.
  { unfold target_func, page_shown, gate_events.
    unfold bind, emit, modify, gets, ret, send, emit, modify.
    cbn [connected needs_auth cluster_name add_events].
    destruct (connected st);
      cbn [connected needs_auth cluster_name add_events].
    2: destruct (needs_auth st);
         cbn [connected needs_auth cluster_name add_events negb andb].
    2: destruct (Z.eqb (klist_status K) 0);
         cbn [connected needs_auth cluster_name add_events negb andb].
    all: rewrite ?add_events_add; eexists; split; try reflexivity;
      split; reflexivity. }
  destruct Hrun as (evs & Hrun & Hsent & Hcc). rewrite Hrun. cbn [fst snd].
  rewrite new_events_add.
  split; [reflexivity |]. split; [exact Hsent |]. split; [exact Hcc |].
  split; [reflexivity |]. split; [reflexivity |]. split; [reflexivity |].
  intros msg Ha. split.
  - intros Hc. unfold handle_comm_message. rewrite Ha.
    change (String.eqb "sparkconn-action-connect" "sparkconn-action-auth")
      with false.
    rewrite String.eqb_refl. cbn iota. rewrite bind_gets.
    cbn [connected add_events]. rewrite Hc.
    unfold send_ok, send, emit, modify. cbn [snd].
    now rewrite new_events_add.
  - intros Hc Hn Hk.
    rewrite (handle_connect_no_ticket K msg (add_events evs st) Ha Hc Hn Hk).
    cbn [snd]. now rewrite new_events_add.
Qed.

Section Configure.

Local Abbreviation ejo := "spark.driver.extraJavaOptions".
Local Abbreviation ecp := "spark.driver.extraClassPath".
Local Abbreviation ldp := "spark.executorEnv.LD_LIBRARY_PATH".
Local Abbreviation app := "spark.app.name".

Lemma bind_modify {S B} (g : S -> S) (k : unit -> M S B) (s : S) :
  bind (modify g) k s = k tt (g s).
Proof. reflexivity. Qed.

(** The loop over the options: values for the two driver options are
    collected, every other option is set, in the order given. *)
Lemma configure_options_spec (K : Kernel) (opts : list (string * string)) :
  forall j p c j' p' c',
    configure_options K opts j p c = (Returns (j', p'), c') ->
    (exists pre, j' = pre +:+ j)
    /\ (exists suf, p' = p +:+ suf)
    /\ (forall k, ~ In k (map fst opts) -> c' !! k = c !! k)
    /\ c' !! ejo = c !! ejo
    /\ c' !! ecp = c !! ecp
    /\ (List.NoDup (map fst opts) ->
        forall name value,
          In (name, value) opts -> name <> ejo -> name <> ecp ->
          exists v, format_value K value = inr v /\ c' !! name = Some v).
Proof.
  induction opts as [|[name value] rest IH]; intros j p c j' p' c'.
  - cbn [configure_options]. unfold ret. intros E. inversion E; subst.
    split; [now exists "" |].
    split; [exists ""; now rewrite PyStrFacts.append_empty_r |].
    repeat split; try reflexivity. intros _ n v [].
  - cbn [configure_options].
    destruct (format_value K value) as [e | v] eqn:Hfmt; [discriminate |].
    destruct (String.eqb name ejo) eqn:E1;
      [| destruct (String.eqb name ecp) eqn:E2].
    + intros Hrun. apply IH in Hrun
        as ((pre & ->) & Hp & Hframe & Hj & Hc & Hset).
      split; [exists (pre +:+ v +:+ " ");
              now rewrite !PyStrFacts.append_assoc |].
      split; [exact Hp |].
      split; [intros k Hk; apply Hframe; cbn in Hk; tauto |].
      split; [exact Hj |]. split; [exact Hc |].
      intros Hnd n v0 [Hin | Hin] Hn1 Hn2.
      * inversion Hin; subst. apply String.eqb_eq in E1. congruence.
      * inversion Hnd; subst. now apply Hset.
    + intros Hrun. apply IH in Hrun
        as (Hpre & (suf & ->) & Hframe & Hj & Hc & Hset).
      split; [exact Hpre |].
      split; [exists (":" +:+ v +:+ suf);
              now rewrite !PyStrFacts.append_assoc |].
      split; [intros k Hk; apply Hframe; cbn in Hk; tauto |].
      split; [exact Hj |]. split; [exact Hc |].
      intros Hnd n v0 [Hin | Hin] Hn1 Hn2.
      * inversion Hin; subst. apply String.eqb_eq in E2. congruence.
      * inversion Hnd; subst. now apply Hset.
    + unfold conf_set. rewrite bind_modify. intros Hrun.
      apply IH in Hrun as (Hpre & Hsuf & Hframe & Hj & Hc & Hset).
      apply String.eqb_neq in E1, E2.
      split; [exact Hpre |]. split; [exact Hsuf |].
      split; [intros k Hk; cbn in Hk; rewrite Hframe by tauto;
              apply lookup_insert_ne; tauto |].
      split; [rewrite Hj; now apply lookup_insert_ne |].
      split; [rewrite Hc; now apply lookup_insert_ne |].
      intros Hnd n v0 [Hin | Hin] Hn1 Hn2.
      * inversion Hin; subst. inversion Hnd; subst. exists v.
        split; [assumption |]. rewrite Hframe by assumption.
        apply lookup_insert_eq.
      * inversion Hnd; subst. now apply Hset.
Qed.

Lemma with_fixed_settings_other (K : Kernel) (c : conf) (k : string) :
  ~ In k (map fst (fixed_settings K)) ->
  with_fixed_settings K c !! k = c !! k.
Proof.
  unfold with_fixed_settings, fixed_settings. cbn [map fst foldl snd].
  intros Hk. rewrite !lookup_insert_ne; [reflexivity | ..];
    intros <-; apply Hk; cbn; tauto.
Qed.

(** What [configure] has done when it returns. *)
Lemma configure_inv (K : Kernel) (log4j : string) (opts : data) (c c' : conf) :
  configure K log4j opts c = (Returns tt, c') ->
  exists j' p' c2 ld,
    match options opts with
    | Some o =>
        configure_options K o ("-Dlog4j.configuration=file:" +:+ log4j)
          (if nonempty (c !! ecp)
           then default "" (c !! ecp) +:+ ":" +:+ analytics_extra_class
           else analytics_extra_class)
          (with_fixed_settings K c)
    | None =>
        (Returns ("-Dlog4j.configuration=file:" +:+ log4j,
                  if nonempty (c !! ecp)
                  then default "" (c !! ecp) +:+ ":" +:+ analytics_extra_class
                  else analytics_extra_class),
         with_fixed_settings K c)
    end = (Returns (j', p'), c2)
    /\ (if nonempty (c2 !! ldp)
        then exists e, environ K !! "LD_LIBRARY_PATH" = Some e
                       /\ ld = default "" (c2 !! ldp) +:+ ":" +:+ e
        else ld = env_str K "LD_LIBRARY_PATH")
    /\ c' = <[ app := if nonempty (c2 !! app)
                      then default "" (c2 !! app) +:+ "_swan"
                      else "pyspark_shell_swan" ]>
              (<[ ldp := ld ]> (<[ ecp := p' ]> (<[ ejo := j' ]> c2))).
Proof.
  unfold configure, conf_set, conf_get.
  repeat (rewrite bind_modify; cbv beta).
  rewrite bind_gets.
  set (c1 := <[ "spark.authenticate.enableSaslEncryption" := "True" ]> _).
  assert (c1 = with_fixed_settings K c) as Hc1 by reflexivity.
  assert (c1 !! ecp = c !! ecp) as Hecp
    by (rewrite Hc1; apply with_fixed_settings_other; cbn;
        intuition discriminate).
  rewrite Hecp. intros Hrun.
  apply bind_inv in Hrun as ([j' p'] & c2 & Hopts & Hrun).
  rewrite bind_gets in Hrun.
  apply bind_inv in Hrun as (ld & c3 & Hld & Hrun).
  cbn [fst snd] in Hrun.
  repeat (rewrite bind_modify in Hrun; cbv beta in Hrun).
  rewrite bind_gets in Hrun. unfold modify in Hrun.
  rewrite !lookup_insert_ne in Hrun by discriminate.
  exists j', p', c2, ld. rewrite <- Hc1.
  split; [destruct (options opts); exact Hopts |].
  destruct (nonempty (c2 !! ldp)).
  - destruct (environ K !! "LD_LIBRARY_PATH") as [e|]; [| discriminate].
    unfold ret in Hld. inversion Hld; subst c3 ld.
    split; [eauto |]. now inversion Hrun.
  - unfold ret in Hld. inversion Hld; subst c3 ld.
    split; [reflexivity |]. now inversion Hrun.
Qed.

Local Abbreviation log4j_option log4j :=
  ("-Dlog4j.configuration=file:" +:+ log4j).

Local Abbreviation class_path_base c :=
  (if nonempty (c !! ecp)
   then default "" (c !! ecp) +:+ ":" +:+ analytics_extra_class
   else analytics_extra_class).

(** The pass over the options of a message, if it has any. *)
Lemma options_pass_spec (K : Kernel) (opts : data) (j p : string)
    (c j' p' : _) (c2 : conf) :
  match options opts with
  | Some o => configure_options K o j p c
  | None => (Returns (j, p), c)
  end = (Returns (j', p'), c2) ->
  (exists pre, j' = pre +:+ j)
  /\ (exists suf, p' = p +:+ suf)
  /\ (forall k, ~ In k (option_names opts) -> c2 !! k = c !! k)
  /\ c2 !! ejo = c !! ejo
  /\ c2 !! ecp = c !! ecp
  /\ (List.NoDup (option_names opts) ->
      forall o name value,
        options opts = Some o -> In (name, value) o ->
        name <> ejo -> name <> ecp ->
        exists v, format_value K value = inr v /\ c2 !! name = Some v)
  /\ (option_names opts = [] -> j' = j /\ p' = p).
Proof.
  unfold option_names. destruct (options opts) as [o|].
  - intros Hrun.
    pose proof (configure_options_spec K o _ _ _ _ _ _ Hrun)
      as (Hpre & Hsuf & Hframe & Hj & Hc & Hset).
    repeat split; try assumption.
    + intros Hnd o' name value E. inversion E; subst o'. now apply Hset.
    + destruct o as [|[n v] o]; [| discriminate].
      cbn in Hrun. now inversion Hrun.
    + destruct o as [|[n v] o]; [| discriminate].
      cbn in Hrun. now inversion Hrun.
  - intros E. inversion E; subst.
    split; [now exists "" |].
    split; [exists ""; now rewrite PyStrFacts.append_empty_r |].
    repeat split; try reflexivity. discriminate.
Qed.

Lemma with_fixed_settings_key (K : Kernel) (c : conf) (k v : string) :
  In (k, v) (fixed_settings K) -> with_fixed_settings K c !! k = Some v.
Proof.
  unfold with_fixed_settings, fixed_settings. cbn [foldl fst snd].
  intros Hin. repeat (destruct Hin as [E | Hin];
    [inversion E; subst;
     rewrite ?lookup_insert_ne by discriminate; apply lookup_insert_eq |]).
  destruct Hin.
Qed.

Lemma fixed_not_computed (K : Kernel) (k v : string) :
  In (k, v) (fixed_settings K) -> ~ In k computed_keys.
Proof.
  unfold fixed_settings, computed_keys. intros Hin.
  repeat (destruct Hin as [E | Hin];
    [inversion E; subst; cbn; intuition discriminate |]).
  destruct Hin.
Qed.

Lemma computed_keys_cases (k : string) :
  ~ In k computed_keys -> k <> ejo /\ k <> ecp /\ k <> ldp /\ k <> app.
Proof. unfold computed_keys. cbn. intuition congruence. Qed.

Lemma nonempty_append (a b : string) :
  b <> "" -> nonempty (Some (a +:+ b)) = true.
Proof.
  intros Hb. unfold nonempty. apply negb_true_iff, String.eqb_neq.
  destruct a; [exact Hb | discriminate].
Qed.

(** X17.  [configure] and the application name: the name it leaves ends in
    [_swan]; the name it extends is the one an option gives, else the one
    the configuration had, else [pyspark_shell]. *)
Theorem configure_app_name (K : Kernel) (log4j : string) (opts : data)
    (c c' : conf) :
  configure K log4j opts c = (Returns tt, c') ->
  exists n,
    c' !! app = Some (n +:+ "_swan")
    /\ (~ In app (option_names opts) ->
        n = if nonempty (c !! app) then default "" (c !! app)
            else "pyspark_shell")
    /\ (List.NoDup (option_names opts) ->
        forall o value,
          options opts = Some o -> In (app, value) o ->
          exists v,
            format_value K value = inr v
            /\ n = if String.eqb v "" then "pyspark_shell" else v).
Proof.
  intros Hrun.
  apply configure_inv in Hrun as (j' & p' & c2 & ld & Hopts & _ & ->).
  apply options_pass_spec in Hopts
    as (_ & _ & Hframe & _ & _ & Hset & _).
  exists (if nonempty (c2 !! app) then default "" (c2 !! app)
          else "pyspark_shell").
  split; [| split].
  - rewrite lookup_insert_eq. now destruct (nonempty (c2 !! app)).
  - intros Hno. rewrite (Hframe app Hno).
    rewrite with_fixed_settings_other; [reflexivity |].
    cbn. intuition discriminate.
  - intros Hnd o value Ho Hin.
    destruct (Hset Hnd o app value Ho Hin) as (v & Hfmt & Hv);
      try discriminate.
    exists v. split; [exact Hfmt |]. rewrite Hv. cbn.
    now destruct (String.eqb v "").
Qed.

(** X18.  [configure] and the two driver options: the Java options it leaves end
    with the log4j setting, whatever the options add in front and whatever
    the configuration held before; the class path starts with the one the
    configuration had, if any, followed by the analytics jar. *)
Theorem configure_driver_options (K : Kernel) (log4j : string) (opts : data)
    (c c' : conf) :
  configure K log4j opts c = (Returns tt, c') ->
  (exists pre, c' !! ejo = Some (pre +:+ log4j_option log4j))
  /\ (exists suf, c' !! ecp = Some (class_path_base c +:+ suf))
  /\ (option_names opts = [] ->
      c' !! ejo = Some (log4j_option log4j)
      /\ c' !! ecp = Some (class_path_base c)).
Proof.
  intros Hrun.
  apply configure_inv in Hrun as (j' & p' & c2 & ld & Hopts & _ & ->).
  apply options_pass_spec in Hopts
    as ((pre & ->) & (suf & ->) & _ & _ & _ & _ & Hnone).
  set (cfin := <[ app := _ ]> _).
  assert (cfin !! ejo = Some (pre +:+ log4j_option log4j)) as ->
    by (unfold cfin; rewrite !lookup_insert_ne by discriminate;
        apply lookup_insert_eq).
  assert (cfin !! ecp = Some (class_path_base c +:+ suf)) as ->
    by (unfold cfin; rewrite !lookup_insert_ne by discriminate;
        apply lookup_insert_eq).
  split; [eauto |]. split; [eauto |].
  intros Hn. destruct (Hnone Hn) as [-> ->]. auto.
Qed.

(** X19.  [configure] and the other settings: the eight fixed settings hold
    unless an option names them; an option that is none of the four
    computed settings holds with its formatted value, also over a fixed
    setting; every other key is as it was. *)
Theorem configure_settings (K : Kernel) (log4j : string) (opts : data)
    (c c' : conf) :
  configure K log4j opts c = (Returns tt, c') ->
  (forall k v,
     In (k, v) (fixed_settings K) -> ~ In k (option_names opts) ->
     c' !! k = Some v)
  /\ (List.NoDup (option_names opts) ->
      forall o name value,
        options opts = Some o -> In (name, value) o ->
        ~ In name computed_keys ->
        exists v, format_value K value = inr v /\ c' !! name = Some v)
  /\ (forall k,
        ~ In k (map fst (fixed_settings K)) ->
        ~ In k (option_names opts) -> ~ In k computed_keys ->
        c' !! k = c !! k).
Proof.
  intros Hrun.
  apply configure_inv in Hrun as (j' & p' & c2 & ld & Hopts & _ & ->).
  apply options_pass_spec in Hopts
    as (_ & _ & Hframe & _ & _ & Hset & _).
  split; [| split].
  - intros k v Hin Hno.
    destruct (computed_keys_cases k (fixed_not_computed K k v Hin))
      as (H1 & H2 & H3 & H4).
    rewrite !lookup_insert_ne by congruence.
    rewrite (Hframe k Hno). now apply with_fixed_settings_key.
  - intros Hnd o name value Ho Hin Hno.
    destruct (computed_keys_cases name Hno) as (H1 & H2 & H3 & H4).
    destruct (Hset Hnd o name value Ho Hin H1 H2) as (v & Hfmt & Hv).
    exists v. split; [exact Hfmt |].
    now rewrite !lookup_insert_ne by congruence.
  - intros k Hfix Hno Hcomp.
    destruct (computed_keys_cases k Hcomp) as (H1 & H2 & H3 & H4).
    rewrite !lookup_insert_ne by congruence.
    rewrite (Hframe k Hno). now apply with_fixed_settings_other.
Qed.

Lemma configure_options_returns (K : Kernel) (o : list (string * string)) :
  (forall name value, In (name, value) o ->
     exists v, format_value K value = inr v) ->
  forall j p c, exists r c',
    configure_options K o j p c = (Returns r, c').
Proof.
  induction o as [|[name value] rest IH]; intros Hfmt j p c.
  - cbn. unfold ret. eauto.
  - cbn [configure_options].
    destruct (Hfmt name value (or_introl eq_refl)) as (v & ->).
    assert (forall n x, In (n, x) rest ->
              exists v, format_value K x = inr v) as Hrest
      by (intros n x Hin; apply (Hfmt n x); now right).
    destruct (String.eqb name ejo); [apply IH, Hrest |].
    destruct (String.eqb name ecp); [apply IH, Hrest |].
    unfold conf_set. rewrite bind_modify. apply IH, Hrest.
Qed.

(** X20.  [configure] returns when every option value formats and the
    environment has [LD_LIBRARY_PATH]; without that variable it raises
    [TypeError] when the configuration names a library path of its own, and
    returns when it names none. *)
Theorem configure_succeeds (K : Kernel) (log4j : string) (opts : data)
    (c : conf) :
  (forall o name value,
     options opts = Some o -> In (name, value) o ->
     exists v, format_value K value = inr v) ->
  (environ K !! "LD_LIBRARY_PATH" <> None ->
   exists c', configure K log4j opts c = (Returns tt, c'))
  /\ (environ K !! "LD_LIBRARY_PATH" = None ->
      ~ In ldp (option_names opts) ->
      (nonempty (c !! ldp) = true ->
       exists text,
         fst (configure K log4j opts c) = Raises (PyError "TypeError" text))
      /\ (nonempty (c !! ldp) = false ->
          exists c', configure K log4j opts c = (Returns tt, c'))).
Proof.
  intros Hfmt.
  assert (exists j' p' c2,
            match options opts with
            | Some o =>
                configure_options K o (log4j_option log4j)
                  (class_path_base c) (with_fixed_settings K c)
            | None =>
                (Returns (log4j_option log4j, class_path_base c),
                 with_fixed_settings K c)
            end = (Returns (j', p'), c2)) as (j' & p' & c2 & Hopts).
  { destruct (options opts) as [o|] eqn:Ho; [| eauto].
    destruct (configure_options_returns K o (fun n x => Hfmt o n x eq_refl)
                (log4j_option log4j) (class_path_base c)
                (with_fixed_settings K c)) as ([j' p'] & c2 & Hr).
    eauto. }
  apply options_pass_spec in Hopts as Hspec.
  destruct Hspec as (_ & _ & Hframe & _).
  assert (forall ld : string,
            bind (conf_set ejo j') (fun _ =>
            bind (conf_set ecp p') (fun _ =>
            bind (conf_set ldp ld) (fun _ =>
            bind (conf_get app) (fun app_name =>
            conf_set app
              (if nonempty app_name
               then default "" app_name +:+ "_swan"
               else "pyspark_shell_swan"))))) c2
            = (Returns tt,
               <[ app := if nonempty (c2 !! app)
                         then default "" (c2 !! app) +:+ "_swan"
                         else "pyspark_shell_swan" ]>
                 (<[ ldp := ld ]> (<[ ecp := p' ]> (<[ ejo := j' ]> c2)))))
    as Hend.
  { intros ld. unfold conf_set, conf_get.
    repeat (rewrite bind_modify; cbv beta). rewrite bind_gets.
    now rewrite !lookup_insert_ne by discriminate. }
  assert (configure K log4j opts c
          = bind (if nonempty (c2 !! ldp) then
                    match environ K !! "LD_LIBRARY_PATH" with
                    | Some e => ret (default "" (c2 !! ldp) +:+ ":" +:+ e)
                    | None =>
                        raise (PyError "TypeError" concat_none_error)
                    end
                  else ret (env_str K "LD_LIBRARY_PATH"))
              (fun ld =>
                 bind (conf_set ejo j') (fun _ =>
                 bind (conf_set ecp p') (fun _ =>
                 bind (conf_set ldp ld) (fun _ =>
                 bind (conf_get app) (fun app_name =>
                 conf_set app
                   (if nonempty app_name
                    then default "" app_name +:+ "_swan"
                    else "pyspark_shell_swan")))))) c2) as Hcfg.
  { unfold configure.
    unfold conf_set at 1 2 3 4 5 6 7 8. unfold conf_get at 1.
    repeat (rewrite bind_modify; cbv beta).
    rewrite bind_gets.
    set (c1 := <[ "spark.authenticate.enableSaslEncryption" := "True" ]> _).
    assert (c1 = with_fixed_settings K c) as Hc1 by reflexivity.
    assert (c1 !! ecp = c !! ecp) as Hecp
      by (rewrite Hc1; apply with_fixed_settings_other; cbn;
          intuition discriminate).
    rewrite Hecp.
    rewrite (bind_returns _ _ c1 c2 (j', p'))
      by (rewrite Hc1; destruct (options opts); exact Hopts).
    unfold conf_get at 1. now rewrite bind_gets. }
  rewrite Hcfg. split.
  - intros Henv. destruct (nonempty (c2 !! ldp)).
    + destruct (environ K !! "LD_LIBRARY_PATH") as [e|]; [| congruence].
      rewrite bind_ret, Hend. eauto.
    + rewrite bind_ret, Hend. eauto.
  - intros Henv Hno.
    assert (c2 !! ldp = c !! ldp) as ->.
    { rewrite (Hframe ldp Hno). apply with_fixed_settings_other.
      cbn. intuition discriminate. }
    split; intros ->.
    + rewrite Henv. eexists. reflexivity.
    + rewrite bind_ret, Hend. eauto.
Qed.

(** X21.  [configure] is not idempotent: run again on the configuration it
    left, as a connect message does that follows a failed one on a
    configuration object of the user, it extends the application name by
    [_swan] once more and puts the analytics jar on the class path once
    more. *)
Theorem configure_again (K : Kernel) (log4j : string) (opts : data)
    (c c1 c2 : conf) :
  configure K log4j opts c = (Returns tt, c1) ->
  configure K log4j opts c1 = (Returns tt, c2) ->
  (~ In app (option_names opts) ->
   exists n,
     c1 !! app = Some (n +:+ "_swan")
     /\ c2 !! app = Some ((n +:+ "_swan") +:+ "_swan"))
  /\ (exists p suf,
        c1 !! ecp = Some p
        /\ c2 !! ecp
           = Some ((p +:+ ":" +:+ analytics_extra_class) +:+ suf)).
Proof.
  intros H1 H2.
  apply configure_inv in H1 as (j1 & p1 & d1 & ld1 & Ho1 & _ & ->).
  apply configure_inv in H2 as (j2 & p2 & d2 & ld2 & Ho2 & _ & ->).
  apply options_pass_spec in Ho1
    as (_ & (suf1 & ->) & Hframe1 & _ & _ & _ & _).
  apply options_pass_spec in Ho2
    as (_ & (suf2 & Hp2) & Hframe2 & _ & _ & _ & _).
  split.
  - intros Hno.
    exists (if nonempty (d1 !! app) then default "" (d1 !! app)
            else "pyspark_shell").
    rewrite !lookup_insert_eq.
    assert (d2 !! app
            = Some (if nonempty (d1 !! app)
                    then default "" (d1 !! app) +:+ "_swan"
                    else "pyspark_shell_swan")) as ->.
    { rewrite (Hframe2 app Hno).
      rewrite with_fixed_settings_other by (cbn; intuition discriminate).
      apply lookup_insert_eq. }
    split; [now destruct (nonempty (d1 !! app)) |].
    destruct (nonempty (d1 !! app)).
    + rewrite nonempty_append by discriminate. reflexivity.
    + reflexivity.
  - rewrite lookup_insert_ne in Hp2 by discriminate.
    rewrite lookup_insert_ne in Hp2 by discriminate.
    rewrite lookup_insert_eq in Hp2.
    assert (nonempty (Some (class_path_base c +:+ suf1)) = true) as Hne.
    { unfold nonempty at 1. apply negb_true_iff, String.eqb_neq.
      intros E. apply (f_equal String.length) in E.
      destruct (nonempty (c !! ecp));
        rewrite !PyStrFacts.length_append in E; cbn in E; lia. }
    rewrite Hne in Hp2. cbn [default from_option id] in Hp2.
    exists (class_path_base c +:+ suf1), suf2.
    rewrite !lookup_insert_ne by discriminate. rewrite !lookup_insert_eq.
    split; [reflexivity |].
    rewrite !lookup_insert_ne by discriminate.
    rewrite lookup_insert_eq. now rewrite Hp2.
Qed.

End Configure.

Lemma same_settings_refl (st : kstate) : same_settings st st.
Proof. repeat split. Qed.

Lemma open_session_settings (K : Kernel) (opts : data) (shared : bool)
    (c : conf) (st : kstate) :
  same_settings st (snd (open_session K opts shared c st)).
Proof.
  unfold open_session. rewrite bind_gets.
  destruct (configure K (log4j_file st) opts c) as [[[]| e |] c'];
    cbn [fst snd];
    unfold bind, gets, set_user_ns, modify, emit, modify, push, send_ok,
      send, emit, modify, set_connected, ret, raise;
    destruct shared; cbn -[insert];
    try (destruct (spark_context K c') as [err|sc]; cbn -[insert];
         [| destruct (spark_session K sc) as [err|spark]; cbn -[insert]]);
    repeat split.
Qed.

Lemma guarded_body_settings (K : Kernel) (msg : data) (st : kstate) :
  same_settings st (snd (catch (connect_body K msg) report_failure st)).
Proof.
  assert (forall pre shared c,
            same_settings st
              (snd (catch (open_session K msg shared c) report_failure
                      (add_events pre st)))) as Hopen.
  { intros pre shared c.
    pose proof (open_session_settings K msg shared c (add_events pre st))
      as Hs.
    unfold catch.
    destruct (open_session K msg shared c (add_events pre st))
      as [[[]| e |] st1]; cbn [snd] in *; exact Hs. }
  destruct (chosen_conf st) as [[shared c]|] eqn:Hch.
  - destruct (connect_body_chosen K msg shared c st Hch)
      as (pre & _ & Hbody).
    unfold catch in *. rewrite Hbody. apply Hopen.
  - unfold chosen_conf in Hch. unfold catch, connect_body.
    rewrite bind_gets.
    destruct (user_ns st !! "swan_spark_conf") as [o|]; [| discriminate].
    cbn [default from_option id].
    destruct o as [| b | n | s | c0 | id | id | name truth debug];
      cbn [truthy_obj] in *;
      repeat match goal with
             | H : context [if ?t then _ else _] |- _ => destruct t
             end;
      try discriminate;
      try (unfold raise, report_failure, bind, send_error, send, emit,
             modify; cbn [snd]; repeat split).
    all: destruct debug as [text|];
      unfold raise, report_failure, bind, send_error, send, emit, modify;
      cbn [snd]; repeat split.
Qed.

Lemma handle_settings (K : Kernel) (msg : data) (st : kstate) :
  same_settings st (snd (handle_comm_message K msg st)).
Proof.
  unfold handle_comm_message.
  destruct (String.eqb (action msg) "sparkconn-action-auth").
  { destruct (password msg) as [pw|]; [| apply same_settings_refl].
    unfold bind, emit, modify, send_ok, send_error, send, emit, modify.
    destruct (Z.eqb (kinit_status K pw) 0); repeat split. }
  destruct (String.eqb (action msg) "sparkconn-action-connect");
    [| repeat split].
  rewrite bind_gets. destruct (connected st); [repeat split |].
  rewrite bind_gets.
  assert (forall st1,
            same_settings st st1 ->
            same_settings st
              (snd (bind (is_port_in_use K)
                      (fun in_use =>
                         if in_use
                         then send_error "sparkconn-config" port_in_use_error
                         else catch (connect_body K msg) report_failure)
                      st1))) as Hrest.
  { intros st1 Hs1.
    destruct (is_port_in_use_result K st1)
      as [(e & Hrun) | (s & port & _ & _ & Hrun)].
    - now rewrite (bind_raises _ _ _ _ _ Hrun).
    - rewrite (bind_returns _ _ _ _ _ Hrun).
      destruct (host_resolves K && port_accepts K port); [exact Hs1 |].
      pose proof (guarded_body_settings K msg
                    (add_events [EvProbePort port] st1)) as Hs2.
      unfold same_settings in *. cbn [needs_auth cluster_name log4j_file
                                        add_events] in Hs2.
      intuition congruence. }
  destruct (needs_auth st) eqn:Hn.
  - unfold bind at 1. unfold bind at 1. unfold emit at 1. unfold modify.
    unfold ret at 1.
    destruct (Z.eqb (klist_status K) 0); cbn [negb].
    + apply Hrest. repeat split.
    + unfold send_error, send, emit, modify. repeat split.
  - rewrite bind_ret. apply Hrest. repeat split.
Qed.

(** X22.  Whether the cluster needs authentication is fixed when the connector
    is created -- it does exactly for the cluster named [nxcals] -- and no
    message changes it, nor the cluster name, nor the log4j file.  On a
    cluster that does not need it, no sequence of messages ever runs
    [klist]. *)
Theorem auth_requirement_fixed :
  (forall K log4j ns,
     needs_auth (init K log4j ns) = true
     <-> environ K !! "SPARK_CLUSTER_NAME" = Some "nxcals")
  /\ (forall msgs st, same_settings st (handle_all msgs st))
  /\ (forall msgs st,
        needs_auth st = false ->
        ~ In EvKlist (new_events st (handle_all msgs st))).
Proof.
  split; [| split].
  - intros K log4j ns. cbn [init needs_auth]. apply bool_decide_eq_true.
  - intros msgs. unfold handle_all.
    induction msgs as [|[K msg] rest IH]; intros st;
      [apply same_settings_refl |].
    cbn [foldl fst snd].
    pose proof (handle_settings K msg st) as H1.
    pose proof (IH (snd (handle_comm_message K msg st))) as H2.
    unfold same_settings in *. intuition congruence.
  - intros msgs. unfold handle_all.
    assert (forall st evs,
              needs_auth st = false ->
              ~ In EvKlist evs ->
              forall st0, trace st = trace st0 ++ evs ->
              ~ In EvKlist
                  (new_events st0
                     (foldl (fun st km =>
                               snd (handle_comm_message (fst km) (snd km) st))
                        st msgs))) as Hgen.
    { induction msgs as [|[K msg] rest IH]; intros st evs Hn Hno st0 Htr.
      - cbn [foldl]. now rewrite (new_events_app _ _ _ Htr).
      - cbn [foldl fst snd].
        destruct (handle_events K msg st) as (evs1 & Htr1 & Hcc & _).
        apply (IH _ (evs ++ evs1)).
        + destruct (handle_settings K msg st) as (-> & _). exact Hn.
        + intros Hin. apply in_app_or in Hin as [Hin | Hin];
            [now apply Hno |].
          assert (In EvKlist (credential_calls evs1)) as Hk
            by (unfold credential_calls; apply filter_In; now split).
          rewrite Hcc in Hk. unfold gate_events in Hk. rewrite Hn in Hk.
          destruct (String.eqb (action msg) "sparkconn-action-auth");
            [destruct (password msg); cbn in Hk; intuition discriminate |].
          destruct (String.eqb (action msg) "sparkconn-action-connect");
            [destruct (connected st) |]; destruct Hk.
        + rewrite Htr1, Htr. now rewrite app_assoc. }
    intros st Hn. apply (Hgen st [] Hn); [intros [] |].
    now rewrite app_nil_r.
Qed.

End KernelProps.

(** ** Further properties of the log-tailing thread *)

Module TailProps.
Import Connector LogReader LogReaderProps.

Lemma step_logfile (m : move) (s : tail) :
  logfile (step m s) = logfile s ++ arrived [m].
Proof.
  destruct m; cbn [step arrived flat_map logfile app];
    rewrite ?app_nil_r; try reflexivity.
  unfold tick. destruct (at_pc s); try destruct (logfile s !! offset s);
    reflexivity.
Qed.

Lemma run_logfile (schedule : list move) (s : tail) :
  logfile (run schedule s) = logfile s ++ arrived schedule.
Proof.
  revert s. induction schedule as [|m rest IH]; intros s.
  - cbn. now rewrite app_nil_r.
  - rewrite run_cons, IH, step_logfile. unfold arrived.
    cbn [flat_map]. now rewrite app_nil_r, <- app_assoc.
Qed.

Lemma step_start (m : move) (s : tail) :
  at_pc s <> PSeek ->
  start (step m s) = start s /\ at_pc (step m s) <> PSeek.
Proof.
  intros Hpc. destruct m; cbn [step start at_pc]; try (split; [reflexivity | assumption]).
  unfold tick. destruct (at_pc s) eqn:Epc; try congruence;
    try destruct (flag s);
    try (destruct (logfile s !! offset s) as [l|];
         try destruct (is_empty l));
    cbn [start at_pc]; rewrite ?Epc; split; try reflexivity; discriminate.
Qed.

Lemma run_start (schedule : list move) (s : tail) :
  at_pc s <> PSeek -> start (run schedule s) = start s.
Proof.
  revert s. induction schedule as [|m rest IH]; intros s Hpc; [reflexivity |].
  rewrite run_cons. destruct (step_start m s Hpc) as [Hs Hp].
  now rewrite IH, Hs.
Qed.

Lemma step_flag (m : move) (s : tail) :
  flag (step m s) = flag s || is_connect m.
Proof.
  destruct m; cbn [step flag is_connect]; rewrite ?orb_false_r, ?orb_true_r;
    try reflexivity.
  unfold tick. destruct (at_pc s); try destruct (logfile s !! offset s);
    reflexivity.
Qed.

Lemma run_flag (schedule : list move) (s : tail) :
  flag (run schedule s) = flag s || existsb is_connect schedule.
Proof.
  revert s. induction schedule as [|m rest IH]; intros s.
  - cbn. now rewrite orb_false_r.
  - rewrite run_cons, IH, step_flag. cbn [existsb]. now rewrite orb_assoc.
Qed.

(** Until its first statement the thread has sent nothing; from then on
    what it has sent are the messages for a prefix of what reached the file
    since. *)
Lemma forwards_after_seek (schedule : list move) (s : tail) :
  consistent s -> at_pc s = PSeek ->
  exists k,
    forwarded (run schedule s)
    = map log_message
        (List.filter (fun t => negb (is_empty t))
           (firstn k (arrived (after_seek schedule)))).
Proof.
  revert s. induction schedule as [|m rest IH]; intros s Hs Hpc.
  - exists 0. cbn. destruct Hs as (_ & _ & _ & Hp). rewrite Hpc in Hp.
    apply Hp.
  - rewrite run_cons. destruct m as [| l |].
    + cbn [after_seek].
      pose proof (step_consistent Tick s Hs) as Hs1.
      set (s1 := step Tick s) in *.
      assert (at_pc s1 <> PSeek /\ start s1 = length (logfile s1)) as [Hp1 Hst].
      { unfold s1. cbn [step]. unfold tick. rewrite Hpc.
        cbn [at_pc start logfile]. split; [discriminate | reflexivity]. }
      pose proof (run_consistent rest s1 Hs1) as (Hb & _ & Hfw & _).
      rewrite Hfw, run_logfile, (run_start rest s1 Hp1), Hst.
      exists (offset (run rest s1) - held (run rest s1) - length (logfile s1)).
      unfold messages_for, lines_between.
      now rewrite drop_app_length.
    + cbn [after_seek]. apply IH.
      * now apply step_consistent.
      * exact Hpc.
    + cbn [after_seek]. apply IH.
      * now apply step_consistent.
      * exact Hpc.
Qed.

(** X23.  What the thread forwards is always, in order and without
    repetition, the messages for a prefix of what reached the file after
    its [seek] to the end, as [readline] returns it, empty results left
    out: nothing that was in the file before, nothing out of order, nothing
    twice. *)
Theorem forwards_only_new_lines (existing : list text)
    (schedule : list move) :
  exists k,
    forwarded (run schedule (started existing))
    = map log_message
        (List.filter (fun t => negb (is_empty t))
           (firstn k (arrived (after_seek schedule)))).
Proof.
  apply forwards_after_seek; [apply started_consistent | reflexivity].
Qed.

(** X24.  The thread ends only by the flag: as long as no handler has set
    [connected], it is not past its loop, however long it has run and
    whatever was appended. *)
Theorem tail_runs_until_connected (existing : list text)
    (schedule : list move) :
  flag (run schedule (started existing)) = existsb is_connect schedule
  /\ (at_pc (run schedule (started existing)) = PDone ->
      existsb is_connect schedule = true).
Proof.
  assert (flag (run schedule (started existing))
          = existsb is_connect schedule) as Hf
    by (rewrite run_flag; reflexivity).
  split; [exact Hf |]. intros Hpc.
  pose proof (run_consistent schedule (started existing)
                (started_consistent existing)) as (_ & _ & _ & Hp).
  rewrite Hpc in Hp. now rewrite <- Hf.
Qed.

End TailProps.

(** ** Further runs on the in-memory host and on the test kernels *)

Module Runs.
Import Contents MemHost PyStr.

Example project_of_nested_path :
  _get_project_path "SWAN_projects/p1/a/b" fs0
  = (Returns (Some "SWAN_projects/p1"), fs0).
Proof. reflexivity. Qed.

Example no_project_outside :
  _get_project_path "docs/a" fs0 = (Raises InvalidProject, fs0)
  /\ _get_project_path "SWAN_projects" fs0 = (Returns None, fs0).
Proof. split; reflexivity. Qed.

Example dir_model_in_project :
  fst (_dir_model "SWAN_projects/p1/a" false fs0)
  = Returns (<[ "project" := VStr "SWAN_projects/p1" ]>
               (<[ "is_project" := VBool false ]>
                  (base_model "directory" "SWAN_projects/p1/a" false))).
Proof. reflexivity. Qed.

(** [save] of a project asks [exists] about the OS path, which the
    contents manager maps under its root once more: an existing plain
    folder gets the sentinel file, too. *)
Example plain_folder_becomes_project :
  exists_ "SWAN_projects/plain" fs_plain = true
  /\ exists_ (_get_os_path "SWAN_projects/plain") fs_plain = false
  /\ is_file "/home/u/SWAN_projects/plain/.swanproject" fs_plain = false
  /\ is_file "/home/u/SWAN_projects/plain/.swanproject"
       (snd (save new_project "SWAN_projects/plain" fs_plain)) = true.
Proof. repeat split; reflexivity. Qed.

(** An untitled project is created as a plain directory. *)
Example untitled_project_has_no_sentinel :
  is_dir "/home/u/SWAN_projects/Project"
    (snd (new_untitled "SWAN_projects" "project" "" fs0)) = true
  /\ is_file "/home/u/SWAN_projects/Project/.swanproject"
       (snd (new_untitled "SWAN_projects" "project" "" fs0)) = false.
Proof. split; reflexivity. Qed.

Lemma projects_root_reserved_witness :
  update new_directory "SWAN_projects" fs0
  = (Raises (HTTPError 400 "The name SWAN_projects is restricted" None), fs0).
Proof.
  exact (proj1 (proj2 (MixinProps.projects_root_reserved (H := mem_host)
                         eq_refl))
           new_directory "SWAN_projects" fs0 eq_refl).
Defined.

Lemma save_notebook_message_witness :
  save notebook_model "docs/nb.ipynb" fs0
  = bind (get "docs/nb.ipynb" false None None)
      (fun saved =>
         run_post_save_hook
           (<[ "message" := VStr "Notebook validation failed" ]> saved)
           "/home/u/docs/nb.ipynb")
      (add_file "/home/u/docs/nb.ipynb" (VData 5) fs0).
Proof.
  exact (MixinProps.save_notebook_message (H := mem_host)
           fs0 fs0 fs0 fs0 _ _ notebook_model notebook_model notebook_model
           "docs/nb.ipynb" (VData 5) (VData 5) ∅
           eq_refl eq_refl eq_refl eq_refl eq_refl eq_refl eq_refl eq_refl
           eq_refl).
Defined.

Lemma move_folder_least_count_witness :
  exists c,
    1 <= c
    /\ "/home/u/SWAN_projects/p11" = "/home/u/SWAN_projects/p1" +:+ pretty c
    /\ is_dir ("/home/u/SWAN_projects/p1" +:+ pretty c) fs0 = false
    /\ forall j, 1 <= j < c ->
         is_dir ("/home/u/SWAN_projects/p1" +:+ pretty j) fs0 = true.
Proof.
  exact (proj1 (proj2 (MixinProps.move_folder_least_count (H := mem_host)
                         3 "/data/shared" "/home/u/SWAN_projects/p1"
                         "/home/u/SWAN_projects/p11" false fs0 _ eq_refl))
           eq_refl).
Defined.

Lemma download_zip_unbound_witness :
  download 10 "https://example.org/nb.zip" fs0
  = (Raises zipfile_unbound, snd (mkdtemp_mem fs0)).
Proof.
  exact (MixinProps.download_zip_unbound (H := mem_host) 10
           "https://example.org/nb.zip" "/tmp/tmp0" (VData 2) fs0 _ _
           eq_refl eq_refl eq_refl eq_refl).
Defined.

Lemma download_git_lands_witness :
  download 0 "https://git.example.org/team/repo.git" fs0
  = (Returns (import_model "directory" "SWAN_projects/repo"),
     snd (download 0 "https://git.example.org/team/repo.git" fs0)).
Proof.
  exact (MixinProps.download_git_lands (H := mem_host) 0
           "https://git.example.org/team" "repo" "/tmp/tmp0" fs0 _ _ _ _
           ltac:(discriminate) eq_refl ltac:(discriminate) eq_refl
           ltac:(discriminate) eq_refl eq_refl eq_refl
           eq_refl eq_refl eq_refl eq_refl eq_refl).
Defined.

Import Connector.

Lemma returns_pair {S A} (r : outcome A * S) (a : A) :
  fst r = Returns a -> r = (Returns a, snd r).
Proof. destruct r as [o s]. cbn. now intros ->. Qed.

(** The configurations [configure] leaves on the test kernel. *)
Lemma configured_plain :
  configure kernel0 "/tmp/log4j" connect_msg ∅
  = (Returns tt, snd (configure kernel0 "/tmp/log4j" connect_msg ∅)).
Proof. apply returns_pair. reflexivity. Qed.

Lemma configured_options :
  configure kernel0 "/tmp/log4j" connect_with_options ∅
  = (Returns tt, snd (configure kernel0 "/tmp/log4j" connect_with_options ∅)).
Proof. apply returns_pair. reflexivity. Qed.

Lemma configured_plain_again :
  configure kernel0 "/tmp/log4j" connect_msg
    (snd (configure kernel0 "/tmp/log4j" connect_msg ∅))
  = (Returns tt,
     snd (configure kernel0 "/tmp/log4j" connect_msg
            (snd (configure kernel0 "/tmp/log4j" connect_msg ∅)))).
Proof. apply returns_pair. reflexivity. Qed.

Lemma port_free : port_probe kernel0 false.
Proof.
  exists "5001", 5001%Z.
  split; [reflexivity |]. split; [reflexivity |]. split; [lia | reflexivity].
Defined.

Lemma connect_opens_session_witness :
  user_ns (snd (handle_comm_message kernel0 connect_msg (fresh_state false ∅)))
  = bind_session (snd (configure kernel0 "/tmp/log4j" connect_msg ∅)) 1 2 ∅.
Proof.
  exact (proj1 (proj2 (proj2
           (KernelProps.connect_opens_session kernel0 connect_msg
              (fresh_state false ∅) false ∅ _ 1 2
              eq_refl eq_refl (or_introl eq_refl) port_free eq_refl
              eq_refl eq_refl eq_refl)))).
Defined.

Lemma connect_without_ticket_witness :
  new_events (fresh_state true ∅)
    (snd (handle_comm_message kernel0 connect_msg (fresh_state true ∅)))
  = [EvKlist;
     EvSend (<[ "error" := JStr "No valid credentials provided." ]>
               (<[ "msgtype" := JStr "sparkconn-auth" ]> ∅))].
Proof.
  exact (proj1 (proj2
           (KernelProps.connect_without_ticket kernel0 connect_msg
              (fresh_state true ∅) eq_refl eq_refl eq_refl
              ltac:(discriminate)))).
Defined.

Lemma connect_without_port_witness :
  exists text,
    handle_comm_message kernel_noport connect_msg (fresh_state false ∅)
    = (Raises (PyError "TypeError" text),
       add_events (gate_events (fresh_state false ∅)) (fresh_state false ∅)).
Proof.
  exact (proj1 (KernelProps.connect_without_port kernel_noport connect_msg
                  (fresh_state false ∅) eq_refl eq_refl
                  (or_introl eq_refl)) eq_refl).
Defined.

Lemma configure_app_name_witness :
  snd (configure kernel0 "/tmp/log4j" connect_msg ∅) !! "spark.app.name"
  = Some "pyspark_shell_swan".
Proof.
  destruct (KernelProps.configure_app_name kernel0 "/tmp/log4j" connect_msg
              ∅ _
              configured_plain)
    as (n & Hn & Hdef & _).
  rewrite Hn, (Hdef (fun H => H)). reflexivity.
Defined.

Lemma configure_driver_options_witness :
  exists pre,
    snd (configure kernel0 "/tmp/log4j" connect_with_options ∅)
    !! "spark.driver.extraJavaOptions"
    = Some (pre +:+ "-Dlog4j.configuration=file:" +:+ "/tmp/log4j").
Proof.
  exact (proj1 (KernelProps.configure_driver_options kernel0 "/tmp/log4j"
                  connect_with_options ∅ _
                  configured_options)).
Defined.

(** An option overrides a fixed setting. *)
Lemma configure_settings_witness :
  exists v,
    format_value kernel0 "local" = inr v
    /\ snd (configure kernel0 "/tmp/log4j" connect_with_options ∅)
       !! "spark.master" = Some v.
Proof.
  refine (proj1 (proj2 (KernelProps.configure_settings kernel0 "/tmp/log4j"
                          connect_with_options ∅ _
                          configured_options))
            _ _ "spark.master" "local" eq_refl _ _).
  - repeat constructor; cbn; intuition discriminate.
  - cbn. tauto.
  - cbn. intuition discriminate.
Defined.

Lemma configure_succeeds_witness :
  exists c',
    configure kernel0 "/tmp/log4j" connect_with_options ∅ = (Returns tt, c').
Proof.
  refine (proj1 (KernelProps.configure_succeeds kernel0 "/tmp/log4j"
                   connect_with_options ∅ _) _).
  - intros o name value _ _. now exists value.
  - discriminate.
Defined.

Lemma configure_again_witness :
  exists n,
    snd (configure kernel0 "/tmp/log4j" connect_msg ∅) !! "spark.app.name"
    = Some (n +:+ "_swan")
    /\ snd (configure kernel0 "/tmp/log4j" connect_msg
              (snd (configure kernel0 "/tmp/log4j" connect_msg ∅)))
       !! "spark.app.name" = Some ((n +:+ "_swan") +:+ "_swan").
Proof.
  exact (proj1 (KernelProps.configure_again kernel0 "/tmp/log4j" connect_msg
                  ∅ _ _
                  configured_plain
                  configured_plain_again)
           (fun H => H)).
Defined.

Example configured_twice :
  snd (configure kernel0 "/tmp/log4j" connect_msg
         (snd (configure kernel0 "/tmp/log4j" connect_msg ∅)))
  !! "spark.app.name" = Some "pyspark_shell_swan_swan".
Proof. reflexivity. Qed.

Example options_in_front_of_log4j :
  snd (configure kernel0 "/tmp/log4j" connect_with_options ∅)
  !! "spark.driver.extraJavaOptions"
  = Some "-Xmx1g -Dlog4j.configuration=file:/tmp/log4j".
Proof. reflexivity. Qed.

Example open_page_without_ticket :
  sent_messages
    (trace (snd (target_func kernel0 "comm_open" (fresh_state true ∅))))
  = [<[ "page" := JStr "sparkconn-auth" ]>
       (<[ "cluster" := JStr "nxcals" ]>
          (<[ "maxmemory" := JNull ]>
             (<[ "msgtype" := JStr "sparkconn-action-open" ]> ∅)))].
Proof. reflexivity. Qed.

(** A port number outside 0-65535: the probe raises before the [try]
    block, and the handler with it, without a reply. *)
Example port_out_of_range :
  handle_comm_message kernel_badport connect_msg (fresh_state false ∅)
  = (Raises (PyError "OverflowError" "connect(): port must be 0-65535."),
     fresh_state false ∅).
Proof. reflexivity. Qed.

(** When the host name does not resolve, the probe ends on that, port
    unchecked: the port counts as free and the connect goes on. *)
Example port_unchecked_without_host :
  connected
    (snd (handle_comm_message kernel_lost connect_msg (fresh_state false ∅)))
  = true.
Proof. reflexivity. Qed.

Example unknown_action_is_logged :
  handle_comm_message kernel0
    {| action := "sparkconn-action-close"; password := None;
       options := None |} (fresh_state false ∅)
  = (Returns tt,
     add_events [EvLog "error" "Received wrong message"]
       (fresh_state false ∅)).
Proof. reflexivity. Qed.

Import LogReader.

(** The line that was in the file before the thread started is not sent;
    the thread keeps running after that. *)
Example old_lines_are_skipped :
  forwarded
    (run [Tick; Arrive (codes "new" ++ [10%N]); Tick; Tick; Tick]
       (started [codes "old" ++ [10%N]]))
  = [<[ "msg" := JText (codes "new") ]>
       (<[ "msgtype" := JStr "sparkconn-action-log" ]> ∅)]
  /\ at_pc
       (run [Tick; Arrive (codes "new" ++ [10%N]); Tick; Tick; Tick]
          (started [codes "old" ++ [10%N]]))
     = PGuard.
Proof. split; reflexivity. Qed.

(** A line written in two goes out in two when the thread reads in
    between. *)
Example partial_line_is_sent :
  forwarded
    (run [Tick; Arrive (codes "job "); Tick; Tick; Tick;
          Arrive (codes "started" ++ [10%N]); Tick; Tick; Tick]
       (started []))
  = [<[ "msg" := JText (codes "job") ]>
       (<[ "msgtype" := JStr "sparkconn-action-log" ]> ∅);
     <[ "msg" := JText (codes "started") ]>
       (<[ "msgtype" := JStr "sparkconn-action-log" ]> ∅)].
Proof. reflexivity. Qed.

End Runs.
